(** * Doubt resolution service: a shallow embedding of
      [backend/services/ai.service.js] and the properties its specification
      states about it.

    The file follows the source top-down: JavaScript numbers and strings,
    the formatting analyser, the confidence scorer, the graph store with the
    Cypher statements the service issues, and the five exported operations;
    then the analytics routes of [backend/routes/analytics.routes.js], which
    import the service. *)

From stdpp Require Import gmap strings list.
From Stdlib Require Import ZArith Lia Floats.SpecFloat.

Local Open Scope Z_scope.

(** ** JavaScript numbers

    A JavaScript number is an IEEE 754 binary64 value.  Values that are
    integers in the source (lengths, scores, thresholds) are carried as [Z];
    as soon as the source multiplies by [0.35] or divides by [100] the
    computation is done on [spec_float] with the binary64 parameters, rounding
    to nearest even exactly as the engine does. *)
Module Num.

Definition number := spec_float.

Definition prec : Z := 53.
Definition emax : Z := 1024.

Definition of_Z (z : Z) : number := binary_normalize prec emax z 0 false.
Definition add : number -> number -> number := SFadd prec emax.
Definition mul : number -> number -> number := SFmul prec emax.
Definition div : number -> number -> number := SFdiv prec emax.

Definition is_nan (x : number) : bool :=
  match x with S754_nan => true | _ => false end.

(** Neither NaN nor an infinity. *)
Definition is_finite (x : number) : bool :=
  match x with S754_zero _ | S754_finite _ _ _ => true | _ => false end.

(** A finite number other than zero. *)
Definition is_proper (x : number) : bool :=
  match x with S754_finite _ _ _ => true | _ => false end.

(** The literal [0.35]: the double nearest to 35/100, 0x1.6666666666666p-2. *)
Definition lit_0_35 : number := S754_finite false 6305039478318694 (-54).
(** The literal [0.50]. *)
Definition lit_0_50 : number := S754_finite false 4503599627370496 (-53).
(** The literal [0.80]: 0x1.999999999999ap-1. *)
Definition lit_0_80 : number := S754_finite false 7205759403792794 (-53).

(** Integer-valued results.  [Math.round] always yields an integer, an
    infinity or NaN; such a value is kept exact.  (The sign of a zero is
    dropped: nothing in the service observes it.) *)
Inductive integral :=
  | Int (z : Z)
  | PosInf
  | NegInf
  | NotANumber.

(** [Math.round]: the integer nearest to the exact value of [x], ties going
    towards +infinity, that is [floor (x + 1/2)] computed without rounding. *)
Definition Math_round (x : number) : integral :=
  match x with
  | S754_nan => NotANumber
  | S754_infinity s => if s then NegInf else PosInf
  | S754_zero _ => Int 0
  | S754_finite s m e =>
      let n := cond_Zopp s (Zpos m) in
      match e with
      | Zneg k => Int ((2 * n + 2 ^ Zpos k) / 2 ^ (Zpos k + 1))
      | _ => Int (n * 2 ^ e)
      end
  end.

(** [Math.max(a, x)] and [Math.min(a, x)] for an integer constant [a]. *)
Definition Math_max (a : Z) (x : integral) : integral :=
  match x with
  | Int z => Int (Z.max a z)
  | PosInf => PosInf
  | NegInf => Int a
  | NotANumber => NotANumber
  end.

Definition Math_min (a : Z) (x : integral) : integral :=
  match x with
  | Int z => Int (Z.min a z)
  | PosInf => Int a
  | NegInf => NegInf
  | NotANumber => NotANumber
  end.

(** [x >= a] for an integer constant [a]; false on NaN. *)
Definition geb (x : integral) (a : Z) : bool :=
  match x with
  | Int z => a <=? z
  | PosInf => true
  | NegInf | NotANumber => false
  end.

(** The number an integral value stands for. *)
Definition of_integral (x : integral) : number :=
  match x with
  | Int z => of_Z z
  | PosInf => S754_infinity false
  | NegInf => S754_infinity true
  | NotANumber => S754_nan
  end.

(** A shift record whose mantissa is not negative. *)
Definition shr_nonneg (r : shr_record) : Prop := 0 <= shr_m r.

End Num.

(** ** JavaScript strings

    A string is its sequence of UTF-16 code units, which is what [length],
    [startsWith], [replace], [trim] and a regular expression without the [u]
    flag operate on. *)
Module Str.

Definition jsstring := list N.

(** An ASCII literal of the source. *)
Definition lit (s : string) : jsstring :=
  (fun a => Ascii.N_of_ascii a) <$> String.list_ascii_of_string s.

(** [!!s]: a string is truthy unless it is empty. *)
Definition truthy (s : jsstring) : bool :=
  match s with [] => false | _ :: _ => true end.

(** A possibly missing string ([null] or [undefined] as [None]). *)
Definition truthy_opt (s : option jsstring) : bool :=
  match s with Some t => truthy t | None => false end.

(** [LineTerminator]: LF, CR, LS, PS. *)
Definition is_line_terminator (c : N) : bool :=
  ((c =? 10) || (c =? 13) || (c =? 8232) || (c =? 8233))%N.

(** [WhiteSpace] and [LineTerminator] code units: what [\s] matches and what
    [trim] removes. *)
Definition is_whitespace (c : N) : bool :=
  ((c =? 9) || (c =? 11) || (c =? 12) || (c =? 32) || (c =? 160)
   || (c =? 5760) || ((8192 <=? c) && (c <=? 8202)) || (c =? 8239)
   || (c =? 8287) || (c =? 12288) || (c =? 65279)
   || is_line_terminator c)%N.

Fixpoint trimStart (s : jsstring) : jsstring :=
  match s with
  | c :: s' => if is_whitespace c then trimStart s' else s
  | [] => []
  end.

Definition trimEnd (s : jsstring) : jsstring := rev (trimStart (rev s)).

Definition trim (s : jsstring) : jsstring := trimEnd (trimStart s).

(** [strip p s]: what follows the prefix [p] of [s], when [s] starts with it. *)
Fixpoint strip (p s : jsstring) : option jsstring :=
  match p, s with
  | [], _ => Some s
  | a :: p', b :: s' => if (a =? b)%N then strip p' s' else None
  | _ :: _, [] => None
  end.

Definition startsWith (s p : jsstring) : bool :=
  match strip p s with Some _ => true | None => false end.

(** [s.replace(pat, by)] for a string pattern: the first occurrence only. *)
Fixpoint replace (s pat by_ : jsstring) : jsstring :=
  match strip pat s with
  | Some rest => by_ ++ rest
  | None => match s with
            | c :: s' => c :: replace s' pat by_
            | [] => []
            end
  end.

(** [s.endsWith(p)]. *)
Definition endsWith (s p : jsstring) : bool := startsWith (rev s) (rev p).

(** [a || b] on strings: [a] when it is truthy, [b] otherwise. *)
Definition or_else (a : option jsstring) (b : jsstring) : jsstring :=
  match a with
  | Some (c :: a') => c :: a'
  | _ => b
  end.

(** The double quote. *)
Definition dq : jsstring := [34%N].

(** [s.length]. *)
Definition length (s : jsstring) : Z := Z.of_nat (List.length s).

End Str.

Abbreviation jsstring := Str.jsstring.

(** ** Regular expressions

    The eight patterns of the formatting analyser are concatenations of
    literals, character classes, quantified character classes (greedy or
    lazy) and, under the [m] flag, the line-start assertion.  The matcher
    below is the backtracking matcher of the language restricted to these
    forms: alternatives are tried in the engine's order, so that the end of a
    match (which decides how many disjoint matches a [g] search finds) is the
    engine's. *)
Module Regex.

Inductive atom :=
  | Lit (s : jsstring)                                (* literal text *)
  | Cls (p : N -> bool)                               (* one code unit of a class *)
  | Rep (greedy : bool) (min : nat) (p : N -> bool)   (* p+, p*, p+?, p*? *)
  | Bol.                                              (* ^ with the m flag *)

Definition regex := list atom.

(** Classes. *)
Definition dot (c : N) : bool := negb (Str.is_line_terminator c).   (* . *)
Definition space (c : N) : bool := Str.is_whitespace c.             (* \s *)
Definition any (c : N) : bool := true.                              (* [\s\S] *)
Definition digit (c : N) : bool := ((48 <=? c) && (c <=? 57))%N.    (* \d *)
Definition dash_or_star (c : N) : bool := ((c =? 45) || (c =? 42))%N. (* [-*] *)

(** A position in the input: the code unit before it (if any) and what follows. *)
Definition pos := (option N * jsstring)%type.

Definition advance (prev : option N) (l : jsstring) : option N :=
  match last l with Some c => Some c | None => prev end.

Section Rep.
Context {A : Type} (p : N -> bool) (k : option N -> jsstring -> option A).

(** Greedy: take as many as possible, give back one at a time. *)
Fixpoint rep_greedy (min : nat) (prev : option N) (s : jsstring) : option A :=
  let stop := match min with O => k prev s | S _ => None end in
  match s with
  | c :: s' =>
      if p c then
        match rep_greedy (Nat.pred min) (Some c) s' with
        | Some r => Some r
        | None => stop
        end
      else stop
  | [] => stop
  end.

(** Lazy: take as few as possible, one more on failure. *)
Fixpoint rep_lazy (min : nat) (prev : option N) (s : jsstring) : option A :=
  let more :=
    match s with
    | c :: s' => if p c then rep_lazy (Nat.pred min) (Some c) s' else None
    | [] => None
    end in
  match min with
  | O => match k prev s with Some r => Some r | None => more end
  | S _ => more
  end.
End Rep.

(** [match_at r prev s]: the position after the match of [r] that starts
    here, if there is one. *)
Fixpoint match_at (r : regex) (prev : option N) (s : jsstring) : option pos :=
  match r with
  | [] => Some (prev, s)
  | Lit l :: r' =>
      match Str.strip l s with
      | Some rest => match_at r' (advance prev l) rest
      | None => None
      end
  | Cls p :: r' =>
      match s with
      | c :: s' => if p c then match_at r' (Some c) s' else None
      | [] => None
      end
  | Rep true min p :: r' => rep_greedy p (match_at r') min prev s
  | Rep false min p :: r' => rep_lazy p (match_at r') min prev s
  | Bol :: r' =>
      match prev with
      | None => match_at r' prev s
      | Some c => if Str.is_line_terminator c then match_at r' prev s else None
      end
  end.

(** The leftmost match at or after the position. *)
Fixpoint search (r : regex) (prev : option N) (s : jsstring) : option pos :=
  match match_at r prev s with
  | Some e => Some e
  | None => match s with
            | c :: s' => search r (Some c) s'
            | [] => None
            end
  end.

(** [re.test(s)] on a fresh regular expression. *)
Definition test (r : regex) (s : jsstring) : bool :=
  match search r None s with Some _ => true | None => false end.

(** [(s.match(re) || []).length] for a [g] pattern whose matches are never
    empty: the number of disjoint matches, each search resuming where the
    previous match ended. *)
Fixpoint count_from (fuel : nat) (r : regex) (prev : option N) (s : jsstring) : nat :=
  match fuel with
  | O => O
  | S fuel' =>
      match search r prev s with
      | Some (prev', rest) => S (count_from fuel' r prev' rest)
      | None => O
      end
  end.

Definition count (r : regex) (s : jsstring) : nat :=
  count_from (List.length s) r None s.

End Regex.

(** ** Formatting quality analyser ([checkFormattingQuality]) *)
Module Formatting.
Import Regex.

(** The patterns, in the order of the source. *)
Definition re_main_title : regex :=                       (* /###\s+.+/g *)
  [Lit (Str.lit "###"); Rep true 1 space; Rep true 1 dot].
Definition re_subtitle : regex :=                         (* /####\s+.+/g *)
  [Lit (Str.lit "####"); Rep true 1 space; Rep true 1 dot].
Definition re_bullet : regex :=                           (* /^[\s]*[-*]\s+.+/gm *)
  [Bol; Rep true 0 space; Cls dash_or_star; Rep true 1 space; Rep true 1 dot].
Definition re_numbered : regex :=                         (* /^\d+\.\s+.+/gm *)
  [Bol; Rep true 1 digit; Lit (Str.lit "."); Rep true 1 space; Rep true 1 dot].
Definition re_bold : regex :=                             (* /\*\*.+?\*\*/g *)
  [Lit (Str.lit "**"); Rep false 1 dot; Lit (Str.lit "**")].
Definition re_code_block : regex :=                       (* /```[\s\S]*?```/g *)
  [Lit (Str.lit "```"); Rep false 0 any; Lit (Str.lit "```")].
Definition re_inline_code : regex :=                      (* /`.+?`/g *)
  [Lit (Str.lit "`"); Rep false 1 dot; Lit (Str.lit "`")].
Definition re_formula : regex :=                          (* /\[.+?\]/g *)
  [Lit (Str.lit "["); Rep false 1 dot; Lit (Str.lit "]")].

(** A property of the [details] object: a flag or a count. *)
Inductive detail :=
  | Flag (b : bool)
  | Count (n : nat).

(** The object the analyser returns.  [details] is a JavaScript object, kept
    as the finite map of the properties it has. *)
Record quality := {
  score : Z;
  details : gmap string detail;
}.

(** The names of the eight flags of a full [details] object. *)
Definition flag_names : list string :=
  ["hasMainTitle"; "hasSubtitles"; "hasBulletPoints"; "hasNumberedLists";
   "hasBoldText"; "hasCodeBlocks"; "hasInlineCode"; "hasFormulas"]%string.

Definition points (b : bool) (n : Z) : Z := if b then n else 0.

Definition checkFormattingQuality (text : option jsstring) : quality :=
  match text with
  | None | Some [] => {| score := 0; details := ∅ |}
  | Some text =>
      let hasMainTitle := test re_main_title text in
      let hasSubtitles := test re_subtitle text in
      let hasBulletPoints := test re_bullet text in
      let hasNumberedLists := test re_numbered text in
      let hasBoldText := test re_bold text in
      let hasCodeBlocks := test re_code_block text in
      let hasInlineCode := test re_inline_code text in
      let hasFormulas := test re_formula text in
      let titleCount := count re_main_title text in
      let subtitleCount := count re_subtitle text in
      {| score :=
           points hasMainTitle 15 +
           points hasSubtitles 15 +
           points hasBulletPoints 10 +
           points hasNumberedLists 10 +
           points hasBoldText 10 +
           points hasCodeBlocks 5 +
           points hasInlineCode 5 +
           points hasFormulas 5 +
           points (1 <=? titleCount)%nat 5 +
           points (2 <=? subtitleCount)%nat 10;
         details :=
           <["hasMainTitle" := Flag hasMainTitle]>
           (<["hasSubtitles" := Flag hasSubtitles]>
           (<["hasBulletPoints" := Flag hasBulletPoints]>
           (<["hasNumberedLists" := Flag hasNumberedLists]>
           (<["hasBoldText" := Flag hasBoldText]>
           (<["hasCodeBlocks" := Flag hasCodeBlocks]>
           (<["hasInlineCode" := Flag hasInlineCode]>
           (<["hasFormulas" := Flag hasFormulas]>
           (<["titleCount" := Count titleCount]>
           (<["subtitleCount" := Count subtitleCount]> ∅)))))))))%string |}
  end.

End Formatting.

(** ** Confidence scorer ([calculateConfidence]) *)
Module Confidence.
Import Num.

(** The destructured parameter object.  The numeric properties are the
    integers the service passes (a fixed percentage, a string length, the
    analyser's score); any integer is admitted, in range or not. *)
Record params := {
  aiConfidence : Z;
  hasContext : bool;
  hasSelectedText : bool;
  hasVisualContext : bool;
  isVisionMode : bool;
  responseLength : Z;
  hasFormatting : Formatting.quality;
  contentType : option jsstring;
  isVerifiedSource : bool;
}.

(** The defaults of the destructuring pattern. *)
Definition defaults : params := {|
  aiConfidence := 85;
  hasContext := false;
  hasSelectedText := false;
  hasVisualContext := false;
  isVisionMode := false;
  responseLength := 0;
  hasFormatting := {| Formatting.score := 0; Formatting.details := ∅ |};
  contentType := Some (Str.lit "text");
  isVerifiedSource := false;
|}.

Inductive reliability := High | Good | Moderate | Low.

(** A property of the breakdown object.  A weight is the text of a number
    followed by a percent sign; [Percent x] stands for that text. *)
Inductive weight := Percent (x : number).

Inductive entry :=
  | Component (value : option integral) (w : weight) (contribution : integral)
  | Summary (totalScore : integral) (r : reliability).

Record result := {
  finalScore : integral;
  breakdown : list (string * entry);
}.

Section Scorer.
Variable p : params.

(** Base score from the model: 35% weight, 50% for a verified source. *)
Definition aiWeight : number :=
  if isVerifiedSource p then lit_0_50 else lit_0_35.

Definition clampedConfidence : Z := Z.min 100 (Z.max 0 (aiConfidence p)).

Definition aiScore : number := mul (of_Z clampedConfidence) aiWeight.

(** Context quality, capped at 25. *)
Definition contextScore : Z :=
  let s := 0 in
  let s := if hasSelectedText p then s + 12 else s in
  let s := if hasContext p then s + 8 else s in
  let s := if hasVisualContext p then s + 5 else s in
  Z.min 25 s.

(** Response quality. *)
Definition responseScore : Z :=
  if 400 <=? responseLength p then 20
  else if 200 <=? responseLength p then 15
  else if 100 <=? responseLength p then 10
  else 5.

(** Formatting quality: [(hasFormatting.score / 100) * 20]. *)
Definition formattingScore : number :=
  mul (div (of_Z (Formatting.score (hasFormatting p))) (of_Z 100)) (of_Z 20).

(** Verified source bonus. *)
Definition sourceBonus : Z := if isVerifiedSource p then 10 else 0.

(** The sum, added left to right. *)
Definition rawScore : number :=
  add (add (add (add aiScore (of_Z contextScore)) (of_Z responseScore))
           formattingScore)
      (of_Z sourceBonus).

Definition roundedScore : integral := Math_round rawScore.

Definition label : reliability :=
  if geb roundedScore 85 then High
  else if geb roundedScore 70 then Good
  else if geb roundedScore 50 then Moderate
  else Low.

Definition calculateConfidence : result := {|
  finalScore := Math_min 100 (Math_max 0 roundedScore);
  breakdown :=
    [("aiConfidence",
      Component (Some (Math_round (div aiScore aiWeight)))
                (Percent (mul aiWeight (of_Z 100)))
                (Math_round aiScore));
     ("contextQuality",
      Component None (Percent (of_Z 25)) (Int contextScore));
     ("responseQuality",
      Component None (Percent (of_Z 20)) (Int responseScore));
     ("formattingQuality",
      Component None (Percent (of_Z 20)) (Math_round formattingScore));
     ("summary",
      Summary (Math_min 100 (Math_max 0 roundedScore)) label)]%string;
|}.
End Scorer.

(** The property names of the breakdown, in order. *)
Definition keys (b : list (string * entry)) : list string := fst <$> b.

(** The values the integer components can take. *)
Definition clamped_values : list Z := Z.of_nat <$> seq 0 101.
Definition context_values : list Z := [0; 5; 8; 12; 13; 17; 20; 25].
Definition response_values : list Z := [5; 10; 15; 20].

(** The first three terms of the sum, for given component values. *)
Definition partial_sum (verified : bool) (c ctx resp : Z) : number :=
  add (add (mul (of_Z c) (if verified then lit_0_50 else lit_0_35)) (of_Z ctx))
      (of_Z resp).

(** Reading a property of the breakdown. *)
Definition get (k : string) (b : list (string * entry)) : option entry :=
  snd <$> List.find (fun kv => bool_decide (fst kv = k)) b.

End Confidence.

(** ** Effects

    The service talks to three collaborators: the embedding provider, the
    graph store and the tutor provider.  A computation threads the store and
    the log of the calls made so far, and either returns or throws. *)
Module Eff.

Inductive exn :=
  | Error (message : jsstring)          (* new Error(message) *)
  | TypeError                           (* property access on null/undefined *)
  | RequestFailed (status : option Z)   (* transport error; the status, if any *)
  | StoreFailed.                        (* the store driver raised *)

Inductive outcome (A : Type) :=
  | Return (a : A)
  | Throw (e : exn).
Arguments Return {A} a.
Arguments Throw {A} e.

Definition M (S A : Type) : Type := S -> outcome A * S.

Definition ret {S A} (a : A) : M S A := fun s => (Return a, s).

Definition bind {S A B} (m : M S A) (k : A -> M S B) : M S B :=
  fun s => match m s with
           | (Return a, s') => k a s'
           | (Throw e, s') => (Throw e, s')
           end.

Definition throw {S A} (e : exn) : M S A := fun s => (Throw e, s).

(** [try { m } catch (e) { h e }] *)
Definition try_catch {S A} (m : M S A) (h : exn -> M S A) : M S A :=
  fun s => match m s with
           | (Return a, s') => (Return a, s')
           | (Throw e, s') => h e s'
           end.

End Eff.

Notation "'do' x <- m ; k" := (Eff.bind m (fun x => k))
  (at level 10, x name, m at level 100, k at level 200,
   format "'[v' 'do'  x  <-  m ; '/' k ']'").

(** ** The graph store and the statements the service issues *)
Module Store.
Import Num.

Definition vector := list number.

(** Doubt nodes: the exact-match cache. *)
Record doubt := {
  queryKey : jsstring;
  d_query : jsstring;
  d_context : jsstring;
  d_answer : jsstring;
  d_confidence : Z;
  updatedAt : nat;
  relatesTo : gset jsstring;          (* ids of the Content nodes it RELATES_TO *)
}.

(** Question and Answer nodes, addressed by their text. *)
Record question := { embedding : vector; q_timestamp : nat }.
Record answer := { a_confidence : Z; a_source : jsstring; a_timestamp : nat }.

Record graph := {
  doubts : list doubt;
  questions : gmap jsstring question;
  answers : gmap jsstring answer;
  concepts : gset jsstring;                                (* by name *)
  courses : gset jsstring;                                 (* by id *)
  contents : gset jsstring;                                (* by id *)
  ANSWERS : gset (jsstring * jsstring);                    (* Question -> Answer *)
  RELATES_TO_course : gset (jsstring * jsstring);          (* Question -> Course *)
  GENERATED_FROM_RESOURCE : gset (jsstring * jsstring);    (* Question -> Content *)
  RELATES_TO_concept : gset (jsstring * jsstring);         (* Question -> Concept *)
  PART_OF : gset (jsstring * jsstring);                    (* Concept -> Course *)
}.

(** The five statements of the source, by their text. *)
Inductive cypher :=
  | DOUBT_BY_CONTENT      (* MATCH (c:Content {id: $contentId})<-[:RELATES_TO]-(d:Doubt {queryKey: $searchKey}) ... *)
  | DOUBT_GLOBAL          (* MATCH (d:Doubt) WHERE d.queryKey = $searchKey AND d.confidence >= 80 ... *)
  | DOUBT_UPSERT          (* MERGE(d: Doubt { queryKey: $queryKey }) SET ... *)
  | SUBGRAPH_MERGE        (* MERGE (q:Question {text: $query}) ... RETURN q.text as saved *)
  | VECTOR_SEARCH.        (* CALL db.index.vector.queryNodes('doubt_vector_index', 5, $embedding) ... *)

(** The parameter objects passed with them. *)
Record doubt_by_content_params := { dc_contentId : jsstring; dc_searchKey : jsstring }.
Record doubt_global_params := { dg_searchKey : jsstring }.
Record doubt_upsert_params := {
  du_queryKey : jsstring; du_query : jsstring; du_context : jsstring;
  du_answer : jsstring; du_confidence : Z; du_contentId : option jsstring }.
Record subgraph_merge_params := {
  sm_query : jsstring; sm_answer : jsstring; sm_confidence : Z;
  sm_embedding : vector; sm_courseId : option jsstring; sm_contentId : jsstring;
  sm_context : jsstring; sm_selectedText : jsstring }.
Record vector_search_params := { vs_embedding : vector; vs_courseId : option jsstring }.

(** A call, as it is logged. *)
Inductive call :=
  | EmbeddingCall (text : jsstring)
  | DoubtByContent (p : doubt_by_content_params)
  | DoubtGlobal (p : doubt_global_params)
  | DoubtUpsert (p : doubt_upsert_params)
  | SubgraphMerge (p : subgraph_merge_params)
  | VectorSearch (p : vector_search_params).

Record world := {
  db : graph;
  trace : list call;       (* oldest first *)
}.

Definition log (c : call) (w : world) : world :=
  {| db := db w; trace := trace w ++ [c] |}.

(** *** The shape of the statements *)

(** The clauses of Cypher the statements are written in. *)
Inductive clause :=
  | CALL_YIELD          (* CALL ... YIELD ... *)
  | MATCH
  | OPTIONAL_MATCH
  | MERGE
  | SET
  | WITH
  | UNWIND
  | FOREACH
  | WHERE
  | RETURN
  | ORDER_BY
  | LIMIT.

(** The clauses of each statement, in the order of its text. *)
Definition clauses (t : cypher) : list clause :=
  match t with
  | DOUBT_BY_CONTENT =>
      (* MATCH (c:Content ...)<-[:RELATES_TO]-(d:Doubt ...) WHERE d.confidence >= 80
         RETURN ... LIMIT 1 *)
      [MATCH; WHERE; RETURN; LIMIT]
  | DOUBT_GLOBAL =>
      (* MATCH (d:Doubt) WHERE d.queryKey = $searchKey AND d.confidence >= 80
         RETURN ... LIMIT 1 *)
      [MATCH; WHERE; RETURN; LIMIT]
  | DOUBT_UPSERT =>
      (* MERGE(d: Doubt ...) SET ... WITH d OPTIONAL MATCH(c: Content ...)
         FOREACH(ignoreMe IN ... | MERGE(d)-[:RELATES_TO]->(c)) *)
      [MERGE; SET; WITH; OPTIONAL_MATCH; FOREACH]
  | SUBGRAPH_MERGE =>
      (* MERGE (q:Question ...) SET ...
         MERGE (a:Answer ...) SET ...
         MERGE (q)-[:ANSWERS]->(a)
         WITH q, a MATCH (c:Course ...) MERGE (q)-[:RELATES_TO]->(c)
         WITH q, a, c MATCH (r:Content ...) MERGE (q)-[:GENERATED_FROM_RESOURCE]->(r)
         WITH q, c UNWIND split($query, ' ') as word WHERE size(word) > 5
         MERGE (con:Concept ...) MERGE (q)-[:RELATES_TO]->(con) MERGE (con)-[:PART_OF]->(c)
         RETURN q.text as saved *)
      [MERGE; SET; MERGE; SET; MERGE;
       WITH; MATCH; MERGE;
       WITH; MATCH; MERGE;
       WITH; UNWIND; WHERE; MERGE; MERGE; MERGE;
       RETURN]
  | VECTOR_SEARCH =>
      (* CALL db.index.vector.queryNodes(...) YIELD node, score WHERE score >= 0.80
         MATCH (node)-[:ANSWERS]->(a:Answer) RETURN ... ORDER BY score DESC LIMIT 1 *)
      [CALL_YIELD; WHERE; MATCH; RETURN; ORDER_BY; LIMIT]
  end.

(** [WHERE] is no clause of its own in Cypher: it belongs to the [MATCH],
    [OPTIONAL MATCH], [WITH] or [YIELD] written just before it. *)
Definition takes_where (c : clause) : bool :=
  match c with
  | MATCH | OPTIONAL_MATCH | WITH | CALL_YIELD => true
  | _ => false
  end.

(** Whether every [WHERE] follows a clause that takes one. *)
Fixpoint where_placed (prev : option clause) (l : list clause) : bool :=
  match l with
  | [] => true
  | WHERE :: l' =>
      match prev with
      | Some c => takes_where c && where_placed (Some WHERE) l'
      | None => false
      end
  | c :: l' => where_placed (Some c) l'
  end.

(** Whether the store's parser takes the text.  It refuses a [WHERE] after
    anything else, [UNWIND] included, and with it the whole statement: nothing
    of a text it refuses is executed. *)
Definition parses (t : cypher) : bool := where_placed None (clauses t).

(** What stands for the execution of a statement that has none. *)
Definition not_executed (g : graph) : unit * graph := (tt, g).

(** *** What the statements do *)

(** A row of a Doubt lookup: [d.answer as answer, d.confidence as confidence]. *)
Record doubt_row := { r_answer : jsstring; r_confidence : Z }.

Definition doubt_row_of (d : doubt) : doubt_row :=
  {| r_answer := d_answer d; r_confidence := d_confidence d |}.

Definition key_is (k : jsstring) (d : doubt) : bool := bool_decide (queryKey d = k).

(** [MATCH (c:Content {id: $contentId})<-[:RELATES_TO]-(d:Doubt {queryKey: $searchKey})
     WHERE d.confidence >= 80
     RETURN d.answer as answer, d.confidence as confidence LIMIT 1] *)
Definition exec_doubt_by_content (p : doubt_by_content_params) (g : graph)
  : list doubt_row :=
  take 1 (doubt_row_of <$>
    List.filter (fun d =>
      bool_decide (dc_contentId p ∈ contents g)
      && bool_decide (dc_contentId p ∈ relatesTo d)
      && key_is (dc_searchKey p) d
      && (80 <=? d_confidence d)) (doubts g)).

(** [MATCH (d:Doubt) WHERE d.queryKey = $searchKey AND d.confidence >= 80
     RETURN d.answer as answer, d.confidence as confidence LIMIT 1] *)
Definition exec_doubt_global (p : doubt_global_params) (g : graph)
  : list doubt_row :=
  take 1 (doubt_row_of <$>
    List.filter (fun d =>
      key_is (dg_searchKey p) d && (80 <=? d_confidence d)) (doubts g)).

Definition set_doubts (ds : list doubt) (g : graph) : graph :=
  {| doubts := ds; questions := questions g; answers := answers g;
     concepts := concepts g; courses := courses g; contents := contents g;
     ANSWERS := ANSWERS g; RELATES_TO_course := RELATES_TO_course g;
     GENERATED_FROM_RESOURCE := GENERATED_FROM_RESOURCE g;
     RELATES_TO_concept := RELATES_TO_concept g; PART_OF := PART_OF g |}.

(** The Content node the optional match of the upsert finds, if any. *)
Definition matched_content (contentId : option jsstring) (g : graph) : gset jsstring :=
  match contentId with
  | Some c => if bool_decide (c ∈ contents g) then {[ c ]} else ∅
  | None => ∅
  end.

(** [MERGE(d: Doubt { queryKey: $queryKey })
     SET d.query = $query, d.context = $context, d.answer = $answer,
         d.confidence = $confidence, d.updatedAt = datetime()
     WITH d
     OPTIONAL MATCH(c: Content { id: $contentId })
     FOREACH(ignoreMe IN CASE WHEN c IS NOT NULL THEN [1] ELSE [] END |
         MERGE(d)-[:RELATES_TO]->(c))]

    Every Doubt with the key is updated; when there is none, one is created. *)
Definition exec_doubt_upsert (now : nat) (p : doubt_upsert_params) (g : graph) : graph :=
  let set (links : gset jsstring) : doubt :=
    {| queryKey := du_queryKey p; d_query := du_query p; d_context := du_context p;
       d_answer := du_answer p; d_confidence := du_confidence p; updatedAt := now;
       relatesTo := links ∪ matched_content (du_contentId p) g |} in
  if existsb (key_is (du_queryKey p)) (doubts g) then
    set_doubts ((fun d => if key_is (du_queryKey p) d then set (relatesTo d) else d)
                  <$> doubts g) g
  else
    set_doubts (doubts g ++ [set ∅]) g.

Section Statements.
(** [db.index.vector.queryNodes('doubt_vector_index', k, v)]: the store's
    vector index over [Question.embedding], yielding at most [k] questions
    with their similarity scores. *)
Variable queryNodes : gmap jsstring question -> nat -> vector -> list (jsstring * number).

(** A row of the vector search:
    [node.text as question, a.text as answer, score * 100 as confidence]. *)
Record match_row := { m_question : jsstring; m_answer : jsstring; m_score : number }.

(** [ORDER BY score DESC LIMIT 1]: the first row of the highest score. *)
Fixpoint best (rows : list match_row) : option match_row :=
  match rows with
  | [] => None
  | r :: rows' =>
      match best rows' with
      | Some r' => if SFltb (m_score r) (m_score r') then Some r' else Some r
      | None => Some r
      end
  end.

(** [CALL db.index.vector.queryNodes('doubt_vector_index', 5, $embedding)
     YIELD node, score
     WHERE score >= 0.80
     MATCH (node)-[:ANSWERS]->(a:Answer)
     RETURN node.text as question, a.text as answer, score * 100 as confidence
     ORDER BY score DESC LIMIT 1]

    [$courseId] is bound by the caller and occurs nowhere in the text. *)
Definition exec_vector_search (p : vector_search_params) (g : graph)
  : option match_row :=
  let near := List.filter (fun ns => SFleb lit_0_80 (snd ns))
                          (queryNodes (questions g) 5 (vs_embedding p)) in
  let rows :=
    '(node, score) ← near;
    '(q, a) ← elements (ANSWERS g);
    if bool_decide (q = node) && bool_decide (a ∈ dom (answers g))
    then [{| m_question := node; m_answer := a; m_score := score |}]
    else [] in
  best rows.
End Statements.

End Store.

(** ** The exported operations *)
Module Service.
Import Num Eff Store.

(** [null], [true] or [false]: what [saveToKnowledgeGraph] resolves to. *)
Inductive null_or_bool :=
  | Null
  | Bool (b : bool).

(** The embedding provider's reply: [{ success, embedding }]. *)
Record embedding_response := {
  success : bool;
  res_embedding : option vector;
}.

(** What [searchKnowledgeGraph] resolves to. *)
Inductive kg_result :=
  | NoMatch                                                     (* { match: false, confidence: 0 } *)
  | Match (question answer : jsstring) (confidence : number).   (* source: 'KNOWLEDGE_GRAPH' *)

Inductive doubt_source := content_knowledge_base | graph_db.

(** What [searchExistingDoubts] resolves to, when not [null]. *)
Record doubt_hit := {
  answer : jsstring;
  confidence : Z;
  source : doubt_source;
}.

(** The parameter object of [saveToKnowledgeGraph]. *)
Record save_params := {
  sp_query : jsstring;
  sp_answer : jsstring;
  sp_confidence : Z;
  sp_courseId : option jsstring;
  sp_contentId : option jsstring;
  sp_context : option jsstring;
  sp_selectedText : option jsstring;
}.

(** The statement [saveToKnowledgeGraph] binds for a call. *)
Definition merge_of (params : save_params) (e : vector) : subgraph_merge_params :=
  {| sm_query := sp_query params;
     sm_answer := sp_answer params;
     sm_confidence := sp_confidence params;
     sm_embedding := e;
     sm_courseId := sp_courseId params;
     sm_contentId := Str.or_else (sp_contentId params) [];
     sm_context := Str.or_else (sp_context params) [];
     sm_selectedText := Str.or_else (sp_selectedText params) [] |}.

Section Operations.
(** [String.prototype.toLowerCase]. *)
Variable toLowerCase : jsstring -> jsstring.
(** The embedding provider behind [axios.post('http://localhost:8000/embeddings')];
    [None] when the request fails. *)
Variable embeddings : jsstring -> option embedding_response.
(** Whether the store raises on a statement it has parsed. *)
Variable store_raises : cypher -> bool.
Variable queryNodes : gmap jsstring question -> nat -> vector -> list (jsstring * number).
(** [datetime()]. *)
Variable now : nat.

(** Modelled from the spec: [runNeo4jQuery] of [config/neo4j.config.js],
    which is not among the sources.  It sends the statement with its
    parameters to the graph store and resolves to the result, or rejects
    when the store raises; the store raises on every text its parser
    refuses, and on any other when [store_raises] says so. *)
Definition runNeo4jQuery {R} (c : call) (text : cypher)
    (exec : graph -> R * graph) : M world R :=
  fun w =>
    let w' := log c w in
    if negb (parses text) || store_raises text then (Throw StoreFailed, w')
    else let '(r, g) := exec (db w') in
         (Return r, {| db := g; trace := trace w' |}).

(** A statement that only reads. *)
Definition reading {R} (f : graph -> R) (g : graph) : R * graph := (f g, g).
(** A statement that only writes. *)
Definition writing (f : graph -> graph) (g : graph) : unit * graph := (tt, f g).

(** [getEmbedding]: never throws. *)
Definition getEmbedding (text : jsstring) : M world (option vector) :=
  fun w =>
    let w' := log (EmbeddingCall text) w in
    match embeddings text with
    | Some r => (Return (if success r then res_embedding r else None), w')
    | None => (Return None, w')
    end.

(** [searchKnowledgeGraph(query, courseId = null)] *)
Definition searchKnowledgeGraph (query : jsstring) (courseId : option jsstring)
  : M world kg_result :=
  try_catch
    (do embedding <- getEmbedding query;
     match embedding with
     | None => ret NoMatch
     | Some embedding =>
         let params := {| vs_embedding := embedding; vs_courseId := courseId |} in
         do result <- runNeo4jQuery (VectorSearch params) VECTOR_SEARCH
                        (reading (exec_vector_search queryNodes params));
         match result with
         | Some record =>
             ret (Match (m_question record) (m_answer record)
                        (mul (m_score record) (of_Z 100)))
         | None => ret NoMatch
         end
     end)
    (fun _ => ret NoMatch).

(** The key both [searchExistingDoubts] and [saveDoubtToGraph] build:
    [`${query.toLowerCase().trim()}${context ? '|' + context.toLowerCase().trim() : ''}`]. *)
Definition searchKey (query context : jsstring) : jsstring :=
  Str.trim (toLowerCase query)
  ++ (if Str.truthy context then Str.lit "|" ++ Str.trim (toLowerCase context) else []).

Definition queryKey (query context : jsstring) : jsstring :=
  Str.trim (toLowerCase query)
  ++ (if Str.truthy context then Str.lit "|" ++ Str.trim (toLowerCase context) else []).

(** [searchExistingDoubts(query, context = '', contentId = null)] *)
Definition searchExistingDoubts (query context : jsstring) (contentId : option jsstring)
  : M world (option doubt_hit) :=
  try_catch
    (let searchKey := searchKey query context in
     (* 1. an exact match linked to this content *)
     do contentSpecific <-
       match contentId with
       | Some (c :: cs) =>
           let params := {| dc_contentId := c :: cs; dc_searchKey := searchKey |} in
           do records <- runNeo4jQuery (DoubtByContent params) DOUBT_BY_CONTENT
                           (reading (exec_doubt_by_content params));
           match records with
           | r :: _ => ret (Some {| answer := r_answer r;
                                    confidence := r_confidence r;
                                    source := content_knowledge_base |})
           | [] => ret None
           end
       | _ => ret None
       end;
     match contentSpecific with
     | Some hit => ret (Some hit)
     | None =>
         (* 2. the global search *)
         let params := {| dg_searchKey := searchKey |} in
         do records <- runNeo4jQuery (DoubtGlobal params) DOUBT_GLOBAL
                         (reading (exec_doubt_global params));
         match records with
         | r :: _ => ret (Some {| answer := r_answer r;
                                  confidence := r_confidence r;
                                  source := graph_db |})
         | [] => ret None
         end
     end)
    (fun _ => ret None).

(** [saveToKnowledgeGraph(params)] *)
Definition saveToKnowledgeGraph (params : save_params) : M world null_or_bool :=
  (* Confidence threshold check *)
  if sp_confidence params <? 85 then ret Null
  else
    try_catch
      (do embedding <- getEmbedding (sp_query params);
       match embedding with
       | None => ret Null
       | Some embedding =>
           let bound := merge_of params embedding in
           (* the text does not parse: nothing of it is executed *)
           do _ <- runNeo4jQuery (SubgraphMerge bound) SUBGRAPH_MERGE not_executed;
           ret (Bool true)
       end)
      (fun _ => ret (Bool false)).

(** [saveDoubtToGraph(query, answer, confidence, context = '', contentId = null)] *)
Definition saveDoubtToGraph (query answer : jsstring) (confidence : Z)
    (context : jsstring) (contentId : option jsstring) : M world unit :=
  try_catch
    (let queryKey := queryKey query context in
     let params := {| du_queryKey := queryKey; du_query := Str.trim query;
                      du_context := Str.trim context; du_answer := answer;
                      du_confidence := confidence; du_contentId := contentId |} in
     runNeo4jQuery (DoubtUpsert params) DOUBT_UPSERT
       (writing (exec_doubt_upsert now params)))
    (fun _ => ret tt).

End Operations.

End Service.

(** ** The tutor gateway ([askGroq]) *)
Module Tutor.
Import Num Eff.

(** A value [JSON.parse] returns. *)
#[warnings="-register-all"]
Inductive json :=
  | JNull
  | JBool (b : bool)
  | JNum (x : number)
  | JStr (s : jsstring)
  | JArr (items : list json)
  | JObj (members : list (jsstring * json)).

(** The grounding object [gc] of the region-grounded mode: the default
    literal, or whatever the context parsed to. *)
Inductive grounding :=
  | Default                 (* { transcriptSegment: '', selectedTimestamp: '', courseContext: '', facultyResources: '' } *)
  | Parsed (j : json).

(** A message of the request. *)
Inductive content :=
  | Text (s : jsstring)
  | TextAndImage (text image_url : jsstring).

Record message := { role : jsstring; body : content }.

Record request := {
  model : jsstring;
  messages : list message;
  temperature : number;
  max_tokens : Z;
  authorization : jsstring;
  timeout : Z;
}.

(** The provider's answer to the completion request. *)
Inductive completion :=
  | NoMessage                           (* no [choices[0].message] in the payload *)
  | Message (content : option jsstring).

Inductive reply :=
  | Failed (status : option Z)          (* the request rejected; [err.response?.status] *)
  | Replied (data : completion).

(** The calls [askGroq] makes. *)
Inductive net_call :=
  | ImageGet (url : jsstring)
  | CompletionPost (r : request).

Inductive tutor_source := groq_vision | groq_llama.

Record response := {
  explanation : jsstring;
  confidence : integral;
  confidenceBreakdown : list (string * Confidence.entry);
  source : tutor_source;
}.

(** The literal [0.6]: 0x1.3333333333333p-1. *)
Definition lit_0_6 : number := S754_finite false 5404319552844595 (-53).

Definition languageInstruction_hindi (userName : jsstring) : jsstring :=
  Str.lit "
- **LANGUAGE**: STRICT HINGLISH ONLY (Hindi words in English script).
- **CRITICAL**: No Devanagari characters ("
  ++ [2361; 2367; 2306; 2342; 2368]%N
  ++ Str.lit " "
  ++ [2344; 2361; 2368; 2306]%N
  ++ Str.lit ").
- **TONE**: Natural, conversational, and direct. Avoid over-formal "
  ++ Str.dq
  ++ Str.lit "Shuddh Hindi"
  ++ Str.dq
  ++ Str.lit ".
- **GREETING**: Professional one-line greeting using "
  ++ userName
  ++ Str.lit "'s name. No repetitive templates.".

Definition languageInstruction_english (userName : jsstring) : jsstring :=
  Str.lit "
- **LANGUAGE**: FULL ENGLISH ONLY.
- **CRITICAL**: No Hinglish mixing. No "
  ++ Str.dq
  ++ Str.lit "samajh aaya?"
  ++ Str.dq
  ++ Str.lit ".
- **TONE**: Professional academic mentor.
- **GREETING**: Professional one-line greeting using "
  ++ userName
  ++ Str.lit "'s name. No repetitive templates.".

Definition region_prompt (selectedTimestamp transcriptSegment courseContext query : jsstring)
  : jsstring :=
  Str.lit "You are an expert precision tutor. The student is focusing on a SPECIFIC visual region at timestamp "
  ++ selectedTimestamp
  ++ Str.lit ".

[[CONCEPT]] 
Start directly with "
  ++ Str.dq
  ++ Str.lit "### What You Are Seeing in This Frame"
  ++ Str.dq
  ++ Str.lit ". 
- Explain visual elements, nodes, or diagrams in this specific box. 
- Ground your analysis in this transcript segment: "
  ++ Str.dq
  ++ transcriptSegment
  ++ Str.dq
  ++ Str.lit ".
- Add "
  ++ Str.dq
  ++ Str.lit "### Explanation of Key Elements"
  ++ Str.dq
  ++ Str.lit " to break down specific details.
- Add "
  ++ Str.dq
  ++ Str.lit "### How It Connects to Topic"
  ++ Str.dq
  ++ Str.lit " to link this image to "
  ++ courseContext
  ++ Str.lit ".

[[SUMMARY]]
Provide a "
  ++ Str.dq
  ++ Str.lit "### Quick Clarity Summary"
  ++ Str.dq
  ++ Str.lit ".

[[VIDEO: URL]]
Relevant video search: "
  ++ Str.dq
  ++ query
  ++ Str.lit " "
  ++ courseContext
  ++ Str.lit " explanation"
  ++ Str.dq
  ++ Str.lit "

STRICT: No greetings. No "
  ++ Str.dq
  ++ Str.lit "Namaste"
  ++ Str.dq
  ++ Str.lit ". No intro fluff. No code unless the frame itself is a code snippet.".

Definition adaptive_prompt (languageInstruction userName currentContext : jsstring)
  : jsstring :=
  Str.lit "You are a professional academic mentor. Provide a high-quality, relevant response.

LANGUAGE RULES:
"
  ++ languageInstruction
  ++ Str.lit "

ADAPTIVE STRUCTURE (Use ONLY these markers):
1. **Concept Question** (Theory):
   Structure: [[INTRO]] -> [[CONCEPT]] -> [[SUMMARY]] -> [[VIDEO: URL]]
   - Start with a direct professional greeting (no repetition).
   - Use "
  ++ Str.dq
  ++ Str.lit "### Overview"
  ++ Str.dq
  ++ Str.lit " and "
  ++ Str.dq
  ++ Str.lit "### Real-Life Analogy"
  ++ Str.dq
  ++ Str.lit ".
   - **NO CODE** for theoretical topics like networking or OSI layers unless explicitly asked or required for implementation.

2. **Coding Question** (Practical):
   Structure: [[INTRO]] -> [[CONCEPT]] -> [[CODE]] -> [[SUMMARY]] -> [[VIDEO: URL]]
   - Explain the logic with "
  ++ Str.dq
  ++ Str.lit "### Implementation Logic"
  ++ Str.dq
  ++ Str.lit ".
   - **Show code ONLY if it genuinely helps or is requested**.
   - Use the language requested or the one most relevant to the context.

CRITICAL CONSTRAINTS:
- **NO DUMMY CODE**: Do not simulate networking layers or theory with print statements.
- **NO FAKE PREVIEWS**: Do not use "
  ++ Str.dq
  ++ Str.lit "Mastery Tutorial"
  ++ Str.dq
  ++ Str.lit " or "
  ++ Str.dq
  ++ Str.lit "100% Satisfaction"
  ++ Str.dq
  ++ Str.lit " labels.
- **NO UI NOISE**: Do not mention confidence scores or metadata.
- **STRICT: NO URLs IN TEXT**. Only use [[VIDEO: URL]] at the end.
- Use ### for Section Headers (will look blue/bold).
- Use "
  ++ userName
  ++ Str.lit "'s name only once in the intro.

Current Context: "
  ++ currentContext.

Definition unavailable : jsstring := Str.lit "AI Tutor is currently unavailable.".

Definition sentinel : jsstring := Str.lit "STRICT_REGION_CONTEXT:".

(** How the two prompts open. *)
Definition region_opening : jsstring := Str.lit "You are an expert precision tutor.".
Definition adaptive_opening : jsstring := Str.lit "You are a professional academic mentor.".

Section AskGroq.
Variable toLowerCase : jsstring -> jsstring.
(** [JSON.parse]; [None] when it throws a [SyntaxError]. *)
Variable JSON_parse : jsstring -> option json.
(** The text a template literal inserts for a parsed value that is not a
    string (a number, an array, ...). *)
Variable ToString : json -> jsstring.
(** [process.env]. *)
Variable GROQ_API_KEY GROQ_MODEL_env GROQ_VISION_MODEL : option jsstring.
(** [axios.get(url, { responseType: 'arraybuffer' })]; [None] when it rejects. *)
Variable fetch : jsstring -> option (list N).
(** [Buffer.from(data, 'binary').toString('base64')]. *)
Variable base64 : list N -> jsstring.
(** The tutor provider behind [axios.post(GROQ_API_URL, ...)]. *)
Variable provider : request -> reply.

Definition GROQ_MODEL : jsstring :=
  Str.or_else GROQ_MODEL_env (Str.lit "llama-3.3-70b-versatile").

(** [gc.name] inside a template literal. *)
Definition field (gc : grounding) (name : jsstring) : outcome jsstring :=
  match gc with
  | Default => Return []
  | Parsed JNull => Throw TypeError
  | Parsed (JObj members) =>
      match List.find (fun kv => bool_decide (fst kv = name)) (rev members) with
      | Some (_, JStr s) => Return s
      | Some (_, v) => Return (ToString v)
      | None => Return (Str.lit "undefined")
      end
  | Parsed _ => Return (Str.lit "undefined")
  end.

(** The grounding after [try { gc = JSON.parse(rawGrounding); } catch (e) { }]. *)
Definition parse_grounding (context : jsstring) : grounding :=
  let rawGrounding := Str.replace context (Str.lit "STRICT_REGION_CONTEXT: ") [] in
  match JSON_parse rawGrounding with
  | Some j => Parsed j
  | None => Default
  end.

Definition isStrictRegion (context : jsstring) : bool :=
  Str.startsWith context sentinel.

Definition languageInstruction (language userName : jsstring) : jsstring :=
  if bool_decide (toLowerCase language = Str.lit "hindi")
  then languageInstruction_hindi userName
  else languageInstruction_english userName.

(** The construction of [systemPrompt]. *)
Definition systemPrompt (query context language userName selectedText : jsstring)
  : outcome jsstring :=
  if isStrictRegion context then
    let gc := parse_grounding context in
    match field gc (Str.lit "selectedTimestamp"),
          field gc (Str.lit "transcriptSegment"),
          field gc (Str.lit "courseContext") with
    | Return ts, Return seg, Return course => Return (region_prompt ts seg course query)
    | Throw e, _, _ | _, Throw e, _ | _, _, Throw e => Throw e
    end
  else
    Return (adaptive_prompt (languageInstruction language userName) userName
              (Str.or_else (Some selectedText)
                 (Str.or_else (Some context) (Str.lit "General curriculum")))).

Definition lift {A} (o : outcome A) : M (list net_call) A := fun s => (o, s).

Definition text_messages (prompt query : jsstring) : list message :=
  [ {| role := Str.lit "system"; body := Text prompt |};
    {| role := Str.lit "user"; body := Text query |} ].

(** Vision mode: a visual context, a content URL and the type ['image']. *)
Definition isVisionMode (visualContext : bool) (contentUrl contentType : option jsstring)
  : bool :=
  visualContext && Str.truthy_opt contentUrl
  && bool_decide (contentType = Some (Str.lit "image")).

(** The messages of the request: one text-and-image message in vision
    mode when the image can be fetched, the system and user messages
    otherwise. *)
Definition build_messages (vision : bool) (contentUrl : option jsstring)
    (prompt query : jsstring) : M (list net_call) (list message) :=
  match vision, contentUrl with
  | true, Some url =>
      fun s =>
        match fetch url with
        | Some data =>
            let mimeType :=
              if Str.endsWith url (Str.lit ".png")
              then Str.lit "image/png" else Str.lit "image/jpeg" in
            (Return
               [ {| role := Str.lit "user";
                    body := TextAndImage
                      (prompt ++ [10; 10]%N ++ Str.lit "ACTUAL STUDENT QUERY: " ++ query)
                      (Str.lit "data:" ++ mimeType ++ Str.lit ";base64," ++ base64 data) |} ],
             s ++ [ImageGet url])
        | None => (Return (text_messages prompt query), s ++ [ImageGet url])
        end
  | _, _ => ret (text_messages prompt query)
  end.

(** The request and the mapping of a rejection to an error:
    413 and 429 to [API_LIMIT_REACHED], 401 to [INVALID_API_KEY], anything
    else rethrown as it is. *)
Definition post (req : request) : M (list net_call) completion :=
  fun s =>
    match provider req with
    | Replied data => (Return data, s ++ [CompletionPost req])
    | Failed status =>
        (Throw
           (if bool_decide (status = Some 413) || bool_decide (status = Some 429)
            then Error (Str.lit "API_LIMIT_REACHED")
            else if bool_decide (status = Some 401)
            then Error (Str.lit "INVALID_API_KEY")
            else RequestFailed status),
         s ++ [CompletionPost req])
    end.

(** From the provider's payload to the response. *)
Definition respond (context selectedText : jsstring) (visualContext vision : bool)
    (contentType : option jsstring) (data : completion) : M (list net_call) response :=
  match data with
  | NoMessage => throw TypeError
  | Message rawContent =>
      let hasFormatting := Formatting.checkFormattingQuality rawContent in
      match rawContent with
      | None => throw TypeError             (* rawContent.length *)
      | Some text =>
          let confidenceResult := Confidence.calculateConfidence {|
            Confidence.aiConfidence := 85;
            Confidence.hasContext := Str.truthy context;
            Confidence.hasSelectedText := Str.truthy selectedText;
            Confidence.hasVisualContext := visualContext;
            Confidence.isVisionMode := vision;
            Confidence.responseLength := Str.length text;
            Confidence.hasFormatting := hasFormatting;
            Confidence.contentType := contentType;
            Confidence.isVerifiedSource :=
              Confidence.isVerifiedSource Confidence.defaults |} in
          ret {| explanation := text;
                 confidence := Confidence.finalScore confidenceResult;
                 confidenceBreakdown := Confidence.breakdown confidenceResult;
                 source := if vision then groq_vision else groq_llama |}
      end
  end.

(** The body of the [try] block.  ([spatialInfo], [activeModel],
    [isCodingQuery] and [isExplicitCodeRequest] are computed in the source
    and never used; they are left out.) *)
Definition askGroq_try (query context : jsstring) (visualContext : bool)
    (contentUrl contentType : option jsstring)
    (language userName selectedText : jsstring) (userKey : option jsstring)
  : M (list net_call) response :=
  match Str.or_else userKey (Str.or_else GROQ_API_KEY []) with
  | [] => throw (Error (Str.lit "NO_API_KEY"))
  | activeApiKey =>
      let vision := isVisionMode visualContext contentUrl contentType in
      do prompt <- lift (systemPrompt query context language userName selectedText);
      do messages <- build_messages vision contentUrl prompt query;
      do data <- post {|
        model := if vision
                 then Str.or_else GROQ_VISION_MODEL (Str.lit "llama-3.2-11b-vision-preview")
                 else GROQ_MODEL;
        messages := messages;
        temperature := lit_0_6;
        max_tokens := 2048;
        authorization := Str.lit "Bearer " ++ activeApiKey;
        timeout := 30000 |};
      respond context selectedText visualContext vision contentType data
  end.

(** [askGroq]: whatever the [try] block throws is logged and replaced. *)
Definition askGroq (query context : jsstring) (visualContext : bool)
    (contentUrl contentType : option jsstring)
    (language userName selectedText : jsstring) (userKey : option jsstring)
  : M (list net_call) response :=
  try_catch
    (askGroq_try query context visualContext contentUrl contentType
       language userName selectedText userKey)
    (fun error => throw (Error unavailable)).

End AskGroq.

End Tutor.

(** ** Sample inputs and collaborators

    Concrete values on which the operations are evaluated further down. *)
Module Samples.
Import Num Eff Store Service Confidence.

(** [toLowerCase] on the ASCII letters. *)
Definition lower_ascii (s : jsstring) : jsstring :=
  (fun c => if ((65 <=? c) && (c <=? 90))%N then (c + 32)%N else c) <$> s.

(** An embedding provider that always succeeds. *)
Definition embeddings_ok (text : jsstring) : option embedding_response :=
  Some {| success := true; res_embedding := Some [of_Z 1] |}.

(** A store that accepts every statement it can parse, and one that raises
    on every statement. *)
Definition store_up (t : cypher) : bool := false.
Definition store_down (t : cypher) : bool := true.

(** A vector index that scores every stored question 1.0. *)
Definition queryNodes_all (qs : gmap jsstring question) (k : nat) (v : vector)
  : list (jsstring * number) :=
  take k ((fun kv => (fst kv, of_Z 1)) <$> map_to_list qs).

Definition empty_graph : graph := {|
  doubts := []; questions := ∅; answers := ∅; concepts := ∅;
  courses := ∅; contents := ∅; ANSWERS := ∅; RELATES_TO_course := ∅;
  GENERATED_FROM_RESOURCE := ∅; RELATES_TO_concept := ∅; PART_OF := ∅ |}.

Definition empty_world : world := {| db := empty_graph; trace := [] |}.

(** A store holding one Doubt of confidence 79 under the key of the query
    "What is TCP?". *)
Definition weak_doubt : doubt := {|
  Store.queryKey := Str.lit "what is tcp?";
  d_query := Str.lit "What is TCP?";
  d_context := [];
  d_answer := Str.lit "A transport protocol.";
  d_confidence := 79;
  updatedAt := 0;
  relatesTo := {[ Str.lit "content-1" ]} |}.

Definition weak_world : world := {|
  db := set_doubts [weak_doubt]
          {| doubts := []; questions := ∅; answers := ∅; concepts := ∅;
             courses := ∅; contents := {[ Str.lit "content-1" ]}; ANSWERS := ∅;
             RELATES_TO_course := ∅; GENERATED_FROM_RESOURCE := ∅;
             RELATES_TO_concept := ∅; PART_OF := ∅ |};
  trace := [] |}.

(** A store with the course "net-101" and the content "content-1". *)
Definition course_world : world := {|
  db := {| doubts := []; questions := ∅; answers := ∅; concepts := ∅;
           courses := {[ Str.lit "net-101" ]}; contents := {[ Str.lit "content-1" ]};
           ANSWERS := ∅; RELATES_TO_course := ∅; GENERATED_FROM_RESOURCE := ∅;
           RELATES_TO_concept := ∅; PART_OF := ∅ |};
  trace := [] |}.

(** A resolution to save, at a given confidence. *)
Definition resolution (confidence : Z) : save_params := {|
  sp_query := Str.lit "explain routing tables";
  sp_answer := Str.lit "A routing table maps prefixes to next hops.";
  sp_confidence := confidence;
  sp_courseId := Some (Str.lit "net-101");
  sp_contentId := Some (Str.lit "content-1");
  sp_context := None;
  sp_selectedText := None |}.

(** A store in which the question "what is tcp" is answered and related to
    the course "net-101". *)
Definition answered_world : world := {|
  db := {| doubts := [];
           questions := {[ Str.lit "what is tcp" :=
                             {| embedding := [of_Z 1]; q_timestamp := 0 |} ]};
           answers := {[ Str.lit "a transport protocol" :=
                           {| a_confidence := 90; a_source := Str.lit "AI_GENERATED";
                              a_timestamp := 0 |} ]};
           concepts := ∅;
           courses := {[ Str.lit "net-101" ]}; contents := ∅;
           ANSWERS := {[ (Str.lit "what is tcp", Str.lit "a transport protocol") ]};
           RELATES_TO_course := {[ (Str.lit "what is tcp", Str.lit "net-101") ]};
           GENERATED_FROM_RESOURCE := ∅; RELATES_TO_concept := ∅; PART_OF := ∅ |};
  trace := [] |}.

(** *** For the scorer and the analyser *)

(** The scenario of the specification. *)
Definition scenario : params := {|
  aiConfidence := 85;
  hasContext := true;
  hasSelectedText := true;
  hasVisualContext := false;
  isVisionMode := false;
  responseLength := 500;
  hasFormatting := {| Formatting.score := 100; Formatting.details := ∅ |};
  contentType := Some (Str.lit "text");
  isVerifiedSource := false;
|}.

(** 29.75 and 89.75 are binary64 numbers: 119/4 and 359/4. *)
Definition n29_75 : number := div (of_Z 119) (of_Z 4).
Definition n89_75 : number := div (of_Z 359) (of_Z 4).
(** The double just below 29.75, printed 29.749999999999996. *)
Definition n29_75_pred : number := S754_finite false 8373880557142015 (-48).

(** A verified-source call whose bonus is 10. *)
Definition verified_scenario : params := {|
  aiConfidence := 85;
  hasContext := true;
  hasSelectedText := true;
  hasVisualContext := false;
  isVisionMode := false;
  responseLength := 500;
  hasFormatting := {| Formatting.score := 99; Formatting.details := ∅ |};
  contentType := Some (Str.lit "text");
  isVerifiedSource := true;
|}.

(** The analyser scenario of the specification: a main heading, two
    secondary headings, a bullet with bold text, nothing else. *)
Definition formatted_sample : jsstring :=
  Str.lit "### Title" ++ [10%N] ++
  Str.lit "#### First part" ++ [10%N] ++
  Str.lit "- a **bold** point" ++ [10%N] ++
  Str.lit "#### Second part".

(** *** For the tutor gateway *)

(** A [JSON.parse] that rejects every text. *)
Definition parse_nothing (s : jsstring) : option Tutor.json := None.

Definition no_text (j : Tutor.json) : jsstring := [].
Definition no_image (url : jsstring) : option (list N) := None.
Definition no_base64 (data : list N) : jsstring := [].

(** A provider that rejects every request with the given status. *)
Definition provider_status (status : option Z) (r : Tutor.request) : Tutor.reply :=
  Tutor.Failed status.

(** A provider that answers every request with the same text. *)
Definition provider_text (text : jsstring) (r : Tutor.request) : Tutor.reply :=
  Tutor.Replied (Tutor.Message (Some text)).

(** [askGroq] and its [try] block on the question "What is TCP?", with the
    given credentials and provider and every optional argument at its
    default. *)
Definition ask (userKey envKey : option jsstring) (provider : Tutor.request -> Tutor.reply)
  : outcome Tutor.response :=
  fst (Tutor.askGroq lower_ascii parse_nothing no_text envKey None None
         no_image no_base64 provider
         (Str.lit "What is TCP?") [] false None None
         (Str.lit "english") (Str.lit "Student") [] userKey []).

Definition ask_try (userKey envKey : option jsstring) (provider : Tutor.request -> Tutor.reply)
  : outcome Tutor.response :=
  fst (Tutor.askGroq_try lower_ascii parse_nothing no_text envKey None None
         no_image no_base64 provider
         (Str.lit "What is TCP?") [] false None None
         (Str.lit "english") (Str.lit "Student") [] userKey []).

(** A region-grounded context whose payload is not JSON. *)
Definition broken_region_context : jsstring :=
  Str.lit "STRICT_REGION_CONTEXT: {transcriptSegment: oops".

End Samples.

(** ** Tables for the scores [askGroq] can produce *)
Module Tables.
Import Num Confidence.

(** The context component for given flags. *)
Definition context_of (sel ctx vis : bool) : Z :=
  Z.min 25 ((if sel then 12 else 0) + (if ctx then 8 else 0) + (if vis then 5 else 0)).

(** The final score of an unverified call at model confidence 85, as
    [askGroq] makes it, for given flags, response component and formatting
    score. *)
Definition final_of (sel ctx vis : bool) (resp fs : Z) : integral :=
  Math_min 100
    (Math_max 0
       (Math_round
          (add (add (partial_sum false 85 (context_of sel ctx vis) resp)
                    (mul (div (of_Z fs) (of_Z 100)) (of_Z 20)))
               (of_Z 0)))).

(** What holds of every such score: it lies between 35 and 95, reaches 85
    only with selected text and one more source of context, and 80 only with
    selected text or with both other sources. *)
Definition within_bounds (sel ctx vis : bool) (x : integral) : bool :=
  match x with
  | Int n =>
      (35 <=? n) && (n <=? 95)
      && implb (85 <=? n) (sel && (ctx || vis))
      && implb (80 <=? n) (sel || (ctx && vis))
  | _ => false
  end.

(** The parameter object [askGroq] hands to the scorer. *)
Definition scorer_input (context selectedText : jsstring) (visualContext vision : bool)
    (contentType : option jsstring) (text : jsstring) : params :=
  {| aiConfidence := 85;
     hasContext := Str.truthy context;
     hasSelectedText := Str.truthy selectedText;
     hasVisualContext := visualContext;
     isVisionMode := vision;
     responseLength := Str.length text;
     hasFormatting := Formatting.checkFormattingQuality (Some text);
     contentType := contentType;
     isVerifiedSource := false |}.

(** The label that goes with a total. *)
Definition label_of (total : integral) : reliability :=
  if geb total 85 then High
  else if geb total 70 then Good
  else if geb total 50 then Moderate
  else Low.

End Tables.

(** ** The operations as functions of the store

    What each operation returns and how it leaves the graph, written as
    functions of the graph it starts from; [CacheFacts] shows that they agree
    with the operations. *)
Module Views.
Import Num Eff Store Service.

(** The hit built from the first row, if there is one. *)
Definition hit_of (src : doubt_source) (rows : list doubt_row) : option doubt_hit :=
  match rows with
  | r :: _ => Some {| answer := r_answer r; confidence := r_confidence r; source := src |}
  | [] => None
  end.

Section Operations.
Variable toLowerCase : jsstring -> jsstring.
Variable embeddings : jsstring -> option embedding_response.
Variable store_raises : cypher -> bool.
Variable queryNodes : gmap jsstring question -> nat -> vector -> list (jsstring * number).
Variable now : nat.

(** What the embedding provider yields for a text. *)
Definition embedding_of (text : jsstring) : option vector :=
  match embeddings text with
  | Some r => if success r then res_embedding r else None
  | None => None
  end.

(** The result of [searchExistingDoubts]. *)
Definition lookup (query context : jsstring) (contentId : option jsstring) (g : graph)
  : option doubt_hit :=
  let k := searchKey toLowerCase query context in
  let global :=
    if store_raises DOUBT_GLOBAL then None
    else hit_of graph_db (exec_doubt_global {| dg_searchKey := k |} g) in
  match contentId with
  | Some (c :: cs) =>
      if store_raises DOUBT_BY_CONTENT then None
      else
        match hit_of content_knowledge_base
                (exec_doubt_by_content {| dc_contentId := c :: cs; dc_searchKey := k |} g)
        with
        | Some hit => Some hit
        | None => global
        end
  | _ => global
  end.

(** The result of [searchKnowledgeGraph]. *)
Definition semantic (query : jsstring) (courseId : option jsstring) (g : graph)
  : kg_result :=
  match embedding_of query with
  | None => NoMatch
  | Some e =>
      if store_raises VECTOR_SEARCH then NoMatch
      else
        match exec_vector_search queryNodes
                {| vs_embedding := e; vs_courseId := courseId |} g with
        | Some record =>
            Match (m_question record) (m_answer record)
                  (mul (m_score record) (of_Z 100))
        | None => NoMatch
        end
  end.

(** The graph [saveDoubtToGraph] leaves. *)
Definition after_doubt (query answer : jsstring) (confidence : Z)
    (context : jsstring) (contentId : option jsstring) (g : graph) : graph :=
  if store_raises DOUBT_UPSERT then g
  else exec_doubt_upsert now
         {| du_queryKey := queryKey toLowerCase query context;
            du_query := Str.trim query; du_context := Str.trim context;
            du_answer := answer; du_confidence := confidence;
            du_contentId := contentId |} g.
End Operations.

End Views.

(** ** Markup characters *)
Module Markup.

(** The code units one of the analyser's patterns needs: [#], [*], [-], a
    backtick, [[] or a digit. *)
Definition is_markup (c : N) : bool :=
  ((c =? 35) || (c =? 42) || (c =? 45) || (c =? 96) || (c =? 91) || Regex.digit c)%N.

End Markup.

(** ** The analytics routes ([routes/analytics.routes.js])

    The three handlers read the document store through the models [User],
    [Course], [Content] and [Doubt] and answer with one JSON response.  What
    a query resolves to is a parameter; the handlers are the code between
    the queries. *)
Module Analytics.
Import Num Eff.

(** An [ObjectId], by its hexadecimal text ([toString()]). *)
Definition oid := jsstring.

(** The property names of the default export of [services/ai.service.js]
    (lines 488-494), the object the routes import as [aiService]. *)
Definition aiService : list string :=
  ["searchExistingDoubts"; "askGroq"; "saveDoubtToGraph"; "searchKnowledgeGraph";
   "saveToKnowledgeGraph"]%string.

(** [x || d] on a number that may be missing: [d] when [x] is [undefined],
    [null], a zero or NaN. *)
Definition num_or (x : option number) (d : number) : number :=
  match x with
  | Some (S754_finite s m e) => S754_finite s m e
  | Some (S754_infinity s) => S754_infinity s
  | _ => d
  end.

(** A number that may be missing, as an operand: [undefined] counts as NaN. *)
Definition operand (x : option number) : number :=
  match x with Some v => v | None => S754_nan end.

Record progress := {
  coursesCompleted : option number;
  coursesEnrolled : option number;
}.

Record user := {
  branchIds : option (list oid);
  progressStats : option progress;
}.

(** A group of escalated doubts:
    [{ _id: { courseId, contentId }, queries, count, avgConfidence, latestAt }]
    ([latestAt] is never read). *)
Record group := {
  g_courseId : option oid;
  g_contentId : option oid;
  g_queries : list jsstring;
  g_count : Z;
  g_avgConfidence : option number;
}.

(** What [.select('title type')] and [.select('name code')] leave of a
    document ([code] is never read). *)
Record content_doc := { c_id : oid; c_title : option jsstring; c_type : option jsstring }.
Record course_doc := { k_id : oid; k_name : option jsstring }.

(** An entry of [doubtsData]. *)
Record datum := {
  courseName : jsstring;
  contentTitle : jsstring;
  contentType : jsstring;
  queries : list jsstring;
  count : Z;
  avgConfidence : integral;
}.

(** An entry of [materialBreakdown]. *)
Record material := {
  title : jsstring;
  m_courseName : jsstring;
  type_ : jsstring;
  escalationCount : Z;
  m_avgConfidence : integral;
}.

Record insight_stats := {
  totalEscalated : Z;
  coursesAffected : nat;
  s_avgConfidence : integral;
}.

Record student_stats := {
  totalDoubts : Z;
  resolvedDoubts : Z;
  st_coursesEnrolled : number;
  completionRate : number;
}.

(** The queries, as they are logged. *)
Inductive db_call :=
  | UserFindById (id : oid)
  | CourseDistinctIds (branchIds : list oid) (facultyId : oid)
  | DoubtActivityTrend (studentId : oid)
  | DoubtSubjectMastery (studentId : oid)
  | DoubtCount (studentId : oid)
  | DoubtCountResolved (studentId : oid)
  | DoubtEngagement (studentId : oid)
  | DoubtEngagementTrend (courseIds : list oid)
  | DoubtCoursePerformance (courseIds : list oid)
  | DoubtResolutionData (courseIds : list oid)
  | DoubtEscalatedByContent (courseIds : list oid)
  | DoubtCountEscalated (courseIds : list oid)
  | DoubtDistinctCourses (courseIds : list oid)
  | DoubtAvgConfidence (courseIds : list oid)
  | ContentFind (ids : list oid)
  | CourseFind (ids : list (option oid)).

Section Routes.
(** The rows of an aggregation the handlers pass on as they are, and what
    an exported function of [aiService] resolves to. *)
Variables (rows : Type) (payload : Type).

(** The body of a response. *)
Inductive body :=
  | UserNotFound                      (* { success: false, message: 'User not found' } *)
  | Failure (message : jsstring)      (* { success: false, message: error.message } *)
  | StudentData (activityTrend subjectMastery : rows) (stats : student_stats)
                (engagement : rows)
  | NoFacultyCourses                  (* engagementTrend: [], coursePerformance: [], avgResolutionTime: 0 *)
  | FacultyData (engagementTrend coursePerformance : rows) (avgResolutionTime : number)
  | NoCourses                         (* topics: [], materialInsights: [], overallSummary: 'No courses found for this faculty', stats: zeros *)
  | InsightsData (aiInsights : option payload)   (* [None]: topics: [], materialInsights: [], overallSummary: '' *)
                 (materialBreakdown : list material) (stats : insight_stats).

Record res := { status : Z; json : body }.

(** [new mongoose.Types.ObjectId(req.params.id)]; it throws on a text that
    is not an identifier. *)
Variable ObjectId : jsstring -> outcome oid.
(** What the queries resolve to. *)
Variable User_findById : oid -> outcome (option user).
Variable Course_distinct_ids : list oid -> oid -> outcome (option (list oid)).
Variable Doubt_activityTrend Doubt_subjectMastery Doubt_engagement : oid -> outcome rows.
Variable Doubt_count Doubt_countResolved : oid -> outcome Z.
Variable Doubt_engagementTrend Doubt_coursePerformance : list oid -> outcome rows.
(** [avgTime] of the first row of the resolution aggregate, if there is one. *)
Variable Doubt_resolutionData : list oid -> outcome (option (option number)).
Variable Doubt_escalatedByContent : list oid -> outcome (list group).
Variable Doubt_countEscalated : list oid -> outcome Z.
Variable Doubt_distinctCourses : list oid -> outcome (list oid).
(** [avg] of the first row of the confidence aggregate, if there is one. *)
Variable Doubt_avgConfidence : list oid -> outcome (option (option number)).
Variable Content_find : list oid -> outcome (list content_doc).
Variable Course_find : list (option oid) -> outcome (list course_doc).
(** When both lookups of a [Promise.all] reject: the rejection that came
    first. *)
Variable first_rejection : exn -> exn -> exn.
(** What a function exported by [aiService] resolves to. *)
Variable invoke : string -> list datum -> outcome payload.
(** [error.message]. *)
Variable message_of : exn -> jsstring.

Definition query {A} (c : db_call) (r : outcome A) : M (list db_call) A :=
  fun s => (r, s ++ [c]).

Definition settled {A} (o : outcome A) : M (list db_call) A := fun s => (o, s).

(** [res.json(b)] and [res.status(n).json(b)]. *)
Definition res_json (b : body) : M (list db_call) res :=
  ret {| status := 200; json := b |}.
Definition res_status_json (n : Z) (b : body) : M (list db_call) res :=
  ret {| status := n; json := b |}.

(** [catch (error) { res.status(500).json({ success: false, message: error.message }) }] *)
Definition on_error (error : exn) : M (list db_call) res :=
  res_status_json 500 (Failure (message_of error)).

(** [aiService.name(args)]: a [TypeError] when the object has no such
    property. *)
Definition aiService_call (name : string) (args : list datum) : M (list db_call) payload :=
  if bool_decide (name ∈ aiService) then settled (invoke name args)
  else throw TypeError.

(** [router.get('/student/:id', ...)] *)
Definition student (id : jsstring) : M (list db_call) res :=
  try_catch
    (do studentId <- settled (ObjectId id);
     do user <- query (UserFindById studentId) (User_findById studentId);
     match user with
     | None => res_status_json 404 UserNotFound
     | Some user =>
         do activityTrend <- query (DoubtActivityTrend studentId)
                               (Doubt_activityTrend studentId);
         do subjectMastery <- query (DoubtSubjectMastery studentId)
                                (Doubt_subjectMastery studentId);
         do totalDoubts <- query (DoubtCount studentId) (Doubt_count studentId);
         do resolvedDoubts <- query (DoubtCountResolved studentId)
                                (Doubt_countResolved studentId);
         let enrolled :=
           match progressStats user with
           | Some p => coursesEnrolled p
           | None => None
           end in
         let completed :=
           match progressStats user with
           | Some p => coursesCompleted p
           | None => None
           end in
         let stats := {|
           totalDoubts := totalDoubts;
           resolvedDoubts := resolvedDoubts;
           st_coursesEnrolled := num_or enrolled (of_Z 0);
           completionRate :=
             num_or (Some (mul (div (operand completed) (num_or enrolled (of_Z 1)))
                               (of_Z 100)))
                    (of_Z 0) |} in
         do engagement <- query (DoubtEngagement studentId) (Doubt_engagement studentId);
         res_json (StudentData activityTrend subjectMastery stats engagement)
     end)
    on_error.

(** [router.get('/faculty/:id', ...)] *)
Definition faculty (id : jsstring) : M (list db_call) res :=
  try_catch
    (do facultyId <- settled (ObjectId id);
     do user <- query (UserFindById facultyId) (User_findById facultyId);
     match user with
     | None => throw TypeError                       (* user.branchIds *)
     | Some user =>
         let branchIds := match branchIds user with Some b => b | None => [] end in
         do relevantCourseIds <- query (CourseDistinctIds branchIds facultyId)
                                   (Course_distinct_ids branchIds facultyId);
         match relevantCourseIds with
         | None | Some [] => res_json NoFacultyCourses
         | Some ids =>
             do engagementTrend <- query (DoubtEngagementTrend ids)
                                     (Doubt_engagementTrend ids);
             do coursePerformance <- query (DoubtCoursePerformance ids)
                                       (Doubt_coursePerformance ids);
             do resolutionData <- query (DoubtResolutionData ids)
                                    (Doubt_resolutionData ids);
             res_json (FacultyData engagementTrend coursePerformance
                         (num_or (match resolutionData with
                                  | Some avgTime => avgTime
                                  | None => None
                                  end) (of_Z 0)))
         end
     end)
    on_error.

(** [contentMap] and [courseMap]: a later document replaces an earlier one
    of the same identifier. *)
Definition contentMap (contents : list content_doc) : gmap oid content_doc :=
  foldl (fun m c => <[c_id c := c]> m) ∅ contents.
Definition courseMap (courses : list course_doc) : gmap oid course_doc :=
  foldl (fun m c => <[k_id c := c]> m) ∅ courses.

(** An entry of [doubtsData]. *)
Definition datum_of (contents : gmap oid content_doc) (courses : gmap oid course_doc)
    (g : group) : datum :=
  let content :=
    match g_contentId g with
    | Some id => if Str.truthy id then contents !! id else None
    | None => None
    end in
  {| courseName :=
       Str.or_else (match g_courseId g with
                    | Some id => match courses !! id with
                                 | Some c => k_name c
                                 | None => None
                                 end
                    | None => match courses !! Str.lit "undefined" with
                              | Some c => k_name c
                              | None => None
                              end
                    end) (Str.lit "Unknown Course");
     contentTitle :=
       Str.or_else (match content with Some c => c_title c | None => None end)
                   (Str.lit "General Query");
     contentType :=
       Str.or_else (match content with Some c => c_type c | None => None end)
                   (Str.lit "unknown");
     queries := g_queries g;
     count := g_count g;
     avgConfidence := Math_round (num_or (g_avgConfidence g) (of_Z 0)) |}.

Definition material_of (d : datum) : material :=
  {| title := contentTitle d;
     m_courseName := courseName d;
     type_ := contentType d;
     escalationCount := count d;
     m_avgConfidence := avgConfidence d |}.

(** [await Promise.all([Content.find(...), Course.find(...)])] *)
Definition find_both (contentIds : list oid) (courseIds : list (option oid))
  : M (list db_call) (list content_doc * list course_doc) :=
  fun s =>
    (match Content_find contentIds, Course_find courseIds with
     | Return contents, Return courses => Return (contents, courses)
     | Throw e, Return _ | Return _, Throw e => Throw e
     | Throw e, Throw e' => Throw (first_rejection e e')
     end,
     s ++ [ContentFind contentIds; CourseFind courseIds]).

(** [router.get('/faculty/:id/difficulty-insights', ...)] *)
Definition difficulty_insights (id : jsstring) : M (list db_call) res :=
  try_catch
    (do facultyId <- settled (ObjectId id);
     do user <- query (UserFindById facultyId) (User_findById facultyId);
     let branchIds :=
       match user with
       | Some u => match branchIds u with Some b => b | None => [] end
       | None => []
       end in
     do relevantCourseIds <- query (CourseDistinctIds branchIds facultyId)
                               (Course_distinct_ids branchIds facultyId);
     match relevantCourseIds with
     | None | Some [] => res_json NoCourses
     | Some ids =>
         (* 1. escalated doubts grouped by content *)
         do escalatedByContent <- query (DoubtEscalatedByContent ids)
                                    (Doubt_escalatedByContent ids);
         (* 2. overall stats *)
         do totalEscalated <- query (DoubtCountEscalated ids) (Doubt_countEscalated ids);
         do coursesAffected <- query (DoubtDistinctCourses ids)
                                 (Doubt_distinctCourses ids);
         do avgConfData <- query (DoubtAvgConfidence ids) (Doubt_avgConfidence ids);
         (* 3. course and content names *)
         let contentIds :=
           omap (fun e => match g_contentId e with
                          | Some id => if Str.truthy id then Some id else None
                          | None => None
                          end) escalatedByContent in
         let courseIds := g_courseId <$> escalatedByContent in
         do found <- find_both contentIds courseIds;
         let contentMap := contentMap (fst found) in
         let courseMap := courseMap (snd found) in
         (* 4. data for the analysis *)
         let doubtsData := datum_of contentMap courseMap <$> escalatedByContent in
         (* 5. topic analysis *)
         do aiInsights <-
           match doubtsData with
           | _ :: _ =>
               do r <- aiService_call "analyzeDifficultyTopics" doubtsData;
               ret (Some r)
           | [] => ret None
           end;
         (* 6. raw material breakdown *)
         let materialBreakdown := material_of <$> doubtsData in
         res_json (InsightsData aiInsights materialBreakdown
                     {| totalEscalated := totalEscalated;
                        coursesAffected := List.length coursesAffected;
                        s_avgConfidence :=
                          Math_round (num_or (match avgConfData with
                                              | Some avg => avg
                                              | None => None
                                              end) (of_Z 0)) |})
     end)
    on_error.
End Routes.

Arguments UserNotFound {rows payload}.
Arguments Failure {rows payload} message.
Arguments NoFacultyCourses {rows payload}.
Arguments NoCourses {rows payload}.
Arguments InsightsData {rows payload} aiInsights materialBreakdown stats.
Arguments status {rows payload} r.
Arguments json {rows payload} r.

End Analytics.

(** ** More sample inputs *)
Module MoreSamples.
Import Num Eff Store Service Samples.

(** A store holding one Doubt of confidence 92 under the key of the query
    "What is TCP?", related to the content "content-1". *)
Definition strong_doubt : doubt := {|
  Store.queryKey := Str.lit "what is tcp?";
  d_query := Str.lit "What is TCP?";
  d_context := [];
  d_answer := Str.lit "A transport protocol.";
  d_confidence := 92;
  updatedAt := 0;
  relatesTo := {[ Str.lit "content-1" ]} |}.

Definition strong_world : world := {|
  db := set_doubts [strong_doubt] (db course_world);
  trace := [] |}.

(** An embedding provider that cannot be reached. *)
Definition embeddings_down (text : jsstring) : option embedding_response := None.

(** An image question: a highlighted region of a picture. *)
Definition picture_url : jsstring := Str.lit "https://cdn.example/frames/router.png".

Definition ask_about_picture (provider : Tutor.request -> Tutor.reply)
  : outcome Tutor.response * list Tutor.net_call :=
  Tutor.askGroq lower_ascii parse_nothing no_text None None None
    no_image no_base64 provider
    (Str.lit "What is shown here?") [] true (Some picture_url) (Some (Str.lit "image"))
    (Str.lit "english") (Str.lit "Student") [] (Some (Str.lit "gsk_live")) [].

(** A [JSON.parse] that knows the text [null] only. *)
Definition parse_null (s : jsstring) : option Tutor.json :=
  if bool_decide (s = Str.lit "null") then Some Tutor.JNull else None.

Definition null_region_context : jsstring := Str.lit "STRICT_REGION_CONTEXT: null".

(** A text with a secondary heading only, and one with a code fence only. *)
Definition subtitle_only : jsstring := Str.lit "#### Details".
Definition fence_only : jsstring := Str.lit "```" ++ [10%N] ++ Str.lit "x = 1" ++ [10%N] ++ Str.lit "```".

(** *** For the analytics routes *)

Definition faculty_id : Analytics.oid := Str.lit "65f0c0ffee0000000000a001".
Definition course_id : Analytics.oid := Str.lit "65f0c0ffee0000000000c001".

(** A faculty with one course and one group of three escalated doubts on a
    content that is no longer stored. *)
Definition one_group : Analytics.group := {|
  Analytics.g_courseId := Some course_id;
  Analytics.g_contentId := None;
  Analytics.g_queries := [Str.lit "why is the window halved?"];
  Analytics.g_count := 3;
  Analytics.g_avgConfidence := Some (of_Z 42) |}.

Definition known_user (id : Analytics.oid) : outcome (option Analytics.user) :=
  Return (Some {| Analytics.branchIds := None; Analytics.progressStats := None |}).
Definition no_user (id : Analytics.oid) : outcome (option Analytics.user) := Return None.
Definition one_course (branchIds : list Analytics.oid) (facultyId : Analytics.oid)
  : outcome (option (list Analytics.oid)) := Return (Some [course_id]).
Definition any_id (id : jsstring) : outcome Analytics.oid := Return id.
Definition no_rows {A} (ids : A) : outcome unit := Return tt.
Definition zero {A} (ids : A) : outcome Z := Return 0.
Definition three {A} (ids : A) : outcome Z := Return 3.
Definition one_escalation (ids : list Analytics.oid) : outcome (list Analytics.group) :=
  Return [one_group].
Definition affected_courses (ids : list Analytics.oid) : outcome (list Analytics.oid) :=
  Return [course_id].
Definition no_number {A} (ids : A) : outcome (option (option number)) := Return None.
Definition no_contents (ids : list Analytics.oid) : outcome (list Analytics.content_doc) :=
  Return [].
Definition no_courses (ids : list (option Analytics.oid))
  : outcome (list Analytics.course_doc) := Return [].
Definition either (e e' : exn) : exn := e.
Definition never_invoked (name : string) (args : list Analytics.datum) : outcome unit :=
  Throw TypeError.
Definition text_of (e : exn) : jsstring :=
  match e with
  | Error message => message
  | TypeError => Str.lit "TypeError"
  | RequestFailed _ => Str.lit "Request failed"
  | StoreFailed => Str.lit "Store failed"
  end.

End MoreSamples.

(** * Properties *)

(** ** Binary64 arithmetic *)
Module NumFacts.
Import Num.

(** *** The arithmetic never manufactures a NaN out of proper operands *)

Lemma shr_1_nonneg r : shr_nonneg r -> shr_nonneg (shr_1 r).
Proof.
  destruct r as [m r s]. unfold shr_nonneg. simpl.
  destruct m as [|p|p]; [simpl; lia | destruct p; simpl; lia | lia].
Qed.

Lemma iter_pos_shr_1_nonneg p : forall r,
  shr_nonneg r -> shr_nonneg (iter_pos shr_1 p r).
Proof.
  induction p as [p IH|p IH|]; intros r Hr; simpl.
  - apply IH, IH, shr_1_nonneg, Hr.
  - apply IH, IH, Hr.
  - apply shr_1_nonneg, Hr.
Qed.

Lemma shr_nonneg_fst r e n : shr_nonneg r -> shr_nonneg (fst (shr r e n)).
Proof.
  intros Hr. destruct n; simpl; auto using iter_pos_shr_1_nonneg.
Qed.

Lemma shr_record_of_loc_nonneg m l : 0 <= m -> shr_nonneg (shr_record_of_loc m l).
Proof.
  intros Hm. destruct l as [|[]]; exact Hm.
Qed.

Lemma shr_fexp_nonneg m e l : 0 <= m -> shr_nonneg (fst (shr_fexp prec emax m e l)).
Proof.
  intros Hm. unfold shr_fexp. apply shr_nonneg_fst, shr_record_of_loc_nonneg, Hm.
Qed.

Lemma round_nearest_even_nonneg m l : 0 <= m -> 0 <= round_nearest_even m l.
Proof.
  intros Hm. destruct l as [|[]]; simpl; try lia.
  destruct (Z.even m); lia.
Qed.

Lemma binary_round_aux_not_nan sx mx ex lx :
  0 <= mx -> is_nan (binary_round_aux prec emax sx mx ex lx) = false.
Proof.
  intros Hm. unfold binary_round_aux.
  pose proof (shr_fexp_nonneg mx ex lx Hm) as H1.
  destruct (shr_fexp prec emax mx ex lx) as [r1 e1]. simpl in H1.
  pose proof (shr_fexp_nonneg
                (round_nearest_even (shr_m r1) (loc_of_shr_record r1)) e1 loc_Exact
                (round_nearest_even_nonneg _ _ H1)) as H2.
  destruct (shr_fexp prec emax _ e1 loc_Exact) as [r2 e2]. simpl in H2.
  unfold shr_nonneg in H2.
  destruct (shr_m r2) as [|p|p]; [reflexivity | | lia].
  destruct (e2 <=? emax - prec); reflexivity.
Qed.

Lemma binary_round_not_nan sx mx ex :
  is_nan (binary_round prec emax sx mx ex) = false.
Proof.
  unfold binary_round.
  destruct (shl_align mx ex _) as [mz ez].
  apply binary_round_aux_not_nan. lia.
Qed.

Lemma of_Z_not_nan z : is_nan (of_Z z) = false.
Proof.
  unfold of_Z, binary_normalize.
  destruct z; [reflexivity | apply binary_round_not_nan ..].
Qed.

Lemma add_not_nan x y :
  is_nan x = false -> is_finite y = true -> is_nan (add x y) = false.
Proof.
  intros Hx Hy. unfold add.
  destruct x as [sx|sx| |sx mx ex], y as [sy|sy| |sy my ey];
    try discriminate; try reflexivity.
  - destruct sx, sy; reflexivity.
  - simpl. unfold binary_normalize.
    destruct (_ + _); [reflexivity | apply binary_round_not_nan ..].
Qed.

Lemma add_finite_not_nan x y :
  is_finite x = true -> is_nan y = false -> is_nan (add x y) = false.
Proof.
  intros Hx Hy. unfold add.
  destruct x as [sx|sx| |sx mx ex], y as [sy|sy| |sy my ey];
    try discriminate; try reflexivity.
  - destruct sx, sy; reflexivity.
  - simpl. unfold binary_normalize.
    destruct (_ + _); [reflexivity | apply binary_round_not_nan ..].
Qed.

Lemma mul_not_nan x y :
  is_nan x = false -> is_proper y = true -> is_nan (mul x y) = false.
Proof.
  intros Hx Hy. unfold mul.
  destruct y as [sy|sy| |sy my ey]; try discriminate.
  destruct x as [sx|sx| |sx mx ex]; try discriminate; try reflexivity.
  simpl. apply binary_round_aux_not_nan. lia.
Qed.

Lemma div_not_nan x y :
  is_nan x = false -> is_proper y = true -> is_nan (div x y) = false.
Proof.
  intros Hx Hy. unfold div.
  destruct y as [sy|sy| |sy my ey]; try discriminate.
  destruct x as [sx|sx| |sx mx ex]; try discriminate; try reflexivity.
  simpl. unfold SFdiv_core_binary.
  set (m' := match _ with Z0 => _ | Zpos _ => _ | Zneg _ => _ end).
  assert (Hm' : 0 <= m').
  { subst m'. destruct (_ - _); [lia | | lia]. apply Z.shiftl_nonneg. lia. }
  pose proof (Z.div_pos m' (Zpos my) Hm' ltac:(lia)) as Hq.
  unfold Z.div in Hq.
  destruct (Z.div_eucl m' (Zpos my)) as [q r]. simpl in Hq.
  apply binary_round_aux_not_nan, Hq.
Qed.

Lemma Math_round_not_nan x : is_nan x = false -> Math_round x <> NotANumber.
Proof.
  destruct x as [s|s| |s m e]; try discriminate; intros _.
  - destruct s; discriminate.
  - simpl. destruct e; discriminate.
Qed.

(** The literals of the source are the doubles nearest to their decimals:
    the correctly rounded quotients. *)
Lemma literals_correctly_rounded :
  lit_0_35 = div (of_Z 35) (of_Z 100)
  /\ lit_0_50 = div (of_Z 1) (of_Z 2)
  /\ lit_0_80 = div (of_Z 8) (of_Z 10)
  /\ Tutor.lit_0_6 = div (of_Z 6) (of_Z 10).
Proof. vm_compute. repeat split; reflexivity. Qed.

(** [Math.round] on a few numbers: ties go up, also below zero. *)
Lemma Math_round_examples :
  Math_round (div (of_Z 5) (of_Z 2)) = Int 3
  /\ Math_round (div (of_Z (-5)) (of_Z 2)) = Int (-2)
  /\ Math_round (div (of_Z 7) (of_Z 3)) = Int 2
  /\ Math_round (div (of_Z (-7)) (of_Z 3)) = Int (-2)
  /\ Math_round (of_Z 90) = Int 90
  /\ Math_round (div (of_Z 1) (of_Z 0)) = PosInf.
Proof. vm_compute. repeat split; reflexivity. Qed.

End NumFacts.

(** ** The confidence scorer *)
Module ConfidenceFacts.
Import Num NumFacts Confidence Samples.

Lemma clampedConfidence_range p : 0 <= clampedConfidence p <= 100.
Proof. unfold clampedConfidence. lia. Qed.

Lemma clampedConfidence_cases p :
  clampedConfidence p =
    if aiConfidence p <? 0 then 0
    else if 100 <? aiConfidence p then 100
    else aiConfidence p.
Proof.
  unfold clampedConfidence.
  destruct (Z.ltb_spec (aiConfidence p) 0), (Z.ltb_spec 100 (aiConfidence p)); lia.
Qed.

Lemma clampedConfidence_In p : In (clampedConfidence p) clamped_values.
Proof.
  pose proof (clampedConfidence_range p) as H.
  unfold clamped_values. apply in_map_iff.
  exists (Z.to_nat (clampedConfidence p)). split; [lia |].
  apply in_seq. lia.
Qed.

Lemma contextScore_In p : In (contextScore p) context_values.
Proof.
  unfold contextScore, context_values.
  destruct (hasSelectedText p), (hasContext p), (hasVisualContext p); simpl; tauto.
Qed.

Lemma responseScore_In p : In (responseScore p) response_values.
Proof.
  unfold responseScore, response_values.
  repeat match goal with |- context [if ?b then _ else _] => destruct b end;
    simpl; tauto.
Qed.

Lemma partial_sums_finite :
  forallb (fun v =>
    forallb (fun c =>
      forallb (fun ctx =>
        forallb (fun resp => is_finite (partial_sum v c ctx resp))
                response_values)
        context_values)
      clamped_values)
    [true; false] = true.
Proof. vm_compute. reflexivity. Qed.

Lemma forallb_In {A} (f : A -> bool) (l : list A) (x : A) :
  forallb f l = true -> In x l -> f x = true.
Proof. intros H. now apply forallb_forall. Qed.

Lemma partial_sum_finite p :
  is_finite (partial_sum (isVerifiedSource p) (clampedConfidence p)
                         (contextScore p) (responseScore p)) = true.
Proof.
  assert (Hv : In (isVerifiedSource p) [true; false])
    by (destruct (isVerifiedSource p); simpl; tauto).
  pose proof (forallb_In _ _ _ partial_sums_finite Hv) as H1. cbv beta in H1.
  pose proof (forallb_In _ _ _ H1 (clampedConfidence_In p)) as H2. cbv beta in H2.
  pose proof (forallb_In _ _ _ H2 (contextScore_In p)) as H3. cbv beta in H3.
  exact (forallb_In _ _ _ H3 (responseScore_In p)).
Qed.

Lemma rawScore_partial_sum p :
  rawScore p =
    add (add (partial_sum (isVerifiedSource p) (clampedConfidence p)
                          (contextScore p) (responseScore p))
             (formattingScore p))
        (of_Z (sourceBonus p)).
Proof. reflexivity. Qed.

Lemma formattingScore_not_nan p : is_nan (formattingScore p) = false.
Proof.
  unfold formattingScore.
  apply mul_not_nan; [| reflexivity].
  apply div_not_nan; [| reflexivity].
  apply of_Z_not_nan.
Qed.

Lemma rawScore_not_nan p : is_nan (rawScore p) = false.
Proof.
  rewrite rawScore_partial_sum.
  apply add_not_nan.
  - apply add_finite_not_nan; [apply partial_sum_finite | apply formattingScore_not_nan].
  - unfold sourceBonus. destruct (isVerifiedSource p); reflexivity.
Qed.

Lemma clamp_integral x :
  x <> NotANumber -> exists n, Math_min 100 (Math_max 0 x) = Int n /\ 0 <= n <= 100.
Proof.
  intros Hx. destruct x as [z| | |]; simpl.
  - exists (Z.min 100 (Z.max 0 z)). split; [reflexivity | lia].
  - exists 100. split; [reflexivity | lia].
  - exists 0. split; [reflexivity | lia].
  - contradiction.
Qed.

(** C4.  Whatever the inputs, in range or not, [finalScore] is an integer
    between 0 and 100, and the AI component is the weight applied to the model
    confidence clamped to 0..100: a confidence below 0 counts as 0, one above
    100 as 100. *)
Theorem calculateConfidence_finalScore_in_range (p : params) :
  (exists n, finalScore (calculateConfidence p) = Int n /\ 0 <= n <= 100)
  /\ aiScore p =
       mul (of_Z (if aiConfidence p <? 0 then 0
                  else if 100 <? aiConfidence p then 100
                  else aiConfidence p))
           (aiWeight p).
Proof.
  split.
  - simpl. apply clamp_integral. unfold roundedScore.
    apply Math_round_not_nan, rawScore_not_nan.
  - unfold aiScore. now rewrite clampedConfidence_cases.
Qed.

(** Out-of-range model confidences: 150 scores as 100 does, -10 as 0 does. *)
Lemma aiScore_out_of_range (p : params) :
  let with_ai a := {| aiConfidence := a; hasContext := hasContext p;
                      hasSelectedText := hasSelectedText p;
                      hasVisualContext := hasVisualContext p;
                      isVisionMode := isVisionMode p;
                      responseLength := responseLength p;
                      hasFormatting := hasFormatting p;
                      contentType := contentType p;
                      isVerifiedSource := isVerifiedSource p |} in
  aiScore (with_ai 150) = aiScore (with_ai 100)
  /\ aiScore (with_ai (-10)) = aiScore (with_ai 0).
Proof. split; reflexivity. Qed.

(** C5, as stated, fails on the AI component: the product of 85 and the
    double nearest to 0.35 is not 29.75. *)
Lemma scenario_aiScore_is_not_29_75 : aiScore scenario <> n29_75.
Proof. vm_compute. discriminate. Qed.

(** C5, amended.  In the scenario the AI component is the double next below
    29.75 (reported rounded, as 30), the context, response and formatting
    components are 20 each, the bonus is 0, the sum comes out as exactly
    89.75, the final score is 90 and the label is High. *)
Theorem scenario_scores :
  aiScore scenario = n29_75_pred
  /\ SFpred prec emax n29_75 = n29_75_pred
  /\ Confidence.get "aiConfidence" (breakdown (calculateConfidence scenario))
     = Some (Component (Some (Int 85)) (Percent (of_Z 35)) (Int 30))
  /\ contextScore scenario = 20
  /\ responseScore scenario = 20
  /\ formattingScore scenario = of_Z 20
  /\ sourceBonus scenario = 0
  /\ rawScore scenario = n89_75
  /\ Math_round n89_75 = Int 90
  /\ finalScore (calculateConfidence scenario) = Int 90
  /\ label scenario = High.
Proof. vm_compute. repeat split; reflexivity. Qed.

(** C8, as stated, fails: the breakdown has four component entries and a
    summary, none of them for the verified-source bonus (here 10), and the
    contributions it reports are rounded (43 for 42.5, 20 for 19.8). *)
Lemma breakdown_omits_bonus_and_rounds :
  let b := breakdown (calculateConfidence verified_scenario) in
  keys b = ["aiConfidence"; "contextQuality"; "responseQuality";
            "formattingQuality"; "summary"]%string
  /\ sourceBonus verified_scenario = 10
  /\ (forall k v w c, In (k, Component v w c) b -> c <> Int 10)
  /\ (exists v w, Confidence.get "aiConfidence" b = Some (Component v w (Int 43)))
  /\ aiScore verified_scenario = div (of_Z 85) (of_Z 2)
  /\ of_integral (Int 43) <> aiScore verified_scenario
  /\ (exists v w, Confidence.get "formattingQuality" b = Some (Component v w (Int 20)))
  /\ of_integral (Int 20) <> formattingScore verified_scenario.
Proof.
  cbv zeta. repeat split.
  - intros k v w c H. vm_compute in H.
    repeat (destruct H as [H|H]; [inversion H; discriminate |]). contradiction.
  - eexists _, _. vm_compute. reflexivity.
  - vm_compute. discriminate.
  - eexists _, _. vm_compute. reflexivity.
  - vm_compute. discriminate.
Qed.

(** C8, amended.  For every input the breakdown consists of exactly the
    entries [aiConfidence], [contextQuality], [responseQuality],
    [formattingQuality] and [summary]; each component entry carries its
    weight (35% or 50%, 25%, 20%, 20%) and its contribution rounded to the
    nearest integer, and the summary carries the clamped total and the
    reliability label. *)
Theorem breakdown_reports_rounded_components (p : params) :
  let b := breakdown (calculateConfidence p) in
  keys b = ["aiConfidence"; "contextQuality"; "responseQuality";
            "formattingQuality"; "summary"]%string
  /\ Confidence.get "aiConfidence" b
     = Some (Component (Some (Math_round (div (aiScore p) (aiWeight p))))
                       (Percent (of_Z (if isVerifiedSource p then 50 else 35)))
                       (Math_round (aiScore p)))
  /\ Confidence.get "contextQuality" b
     = Some (Component None (Percent (of_Z 25)) (Int (contextScore p)))
  /\ Confidence.get "responseQuality" b
     = Some (Component None (Percent (of_Z 20)) (Int (responseScore p)))
  /\ Confidence.get "formattingQuality" b
     = Some (Component None (Percent (of_Z 20)) (Math_round (formattingScore p)))
  /\ Confidence.get "summary" b
     = Some (Summary (finalScore (calculateConfidence p)) (label p)).
Proof.
  cbv zeta. repeat split.
  unfold Confidence.get. simpl. unfold aiWeight.
  destruct (isVerifiedSource p); reflexivity.
Qed.

End ConfidenceFacts.

(** ** The formatting analyser *)
Module FormattingFacts.
Import Formatting.

(** C6, as stated, fails: for a missing text the [details] object is empty,
    so no flag is present in it, let alone present and false. *)
Lemma missing_text_has_no_flags :
  ~ (forall f, In f flag_names ->
       details (checkFormattingQuality None) !! f = Some (Flag false)).
Proof.
  intros H. specialize (H "hasMainTitle"%string).
  simpl in H. rewrite lookup_empty in H.
  assert (Hnone : (None : option detail) = Some (Flag false)) by (apply H; tauto).
  discriminate Hnone.
Qed.

(** C6, amended.  For a missing ([null], [undefined]) or empty text the
    analyser returns score 0 and an empty [details] object: no flag and no
    count is present in it. *)
Theorem falsy_text_scores_zero (text : option jsstring) :
  Str.truthy_opt text = false ->
  score (checkFormattingQuality text) = 0
  /\ details (checkFormattingQuality text) = ∅
  /\ forall f, details (checkFormattingQuality text) !! f = None.
Proof.
  intros Hfalsy.
  assert (Hq : checkFormattingQuality text = {| score := 0; details := ∅ |}).
  { destruct text as [[|c s]|]; [reflexivity | discriminate Hfalsy | reflexivity]. }
  rewrite Hq. simpl. split; [reflexivity |]. split; [reflexivity |].
  intros f. apply lookup_empty.
Qed.

Lemma falsy_text_scores_zero_witness :
  Str.truthy_opt (Some []) = false
  /\ score (checkFormattingQuality (Some [])) = 0
  /\ details (checkFormattingQuality (Some [])) = ∅
  /\ forall f, details (checkFormattingQuality (Some [])) !! f = None.
Proof.
  split; [reflexivity | apply (falsy_text_scores_zero (Some [])); reflexivity].
Defined.

(** By contrast, a text that is not empty gets all eight flags. *)
Lemma truthy_text_has_every_flag (text : jsstring) (f : string) :
  Str.truthy text = true -> In f flag_names ->
  exists b, details (checkFormattingQuality (Some text)) !! f = Some (Flag b).
Proof.
  intros Ht Hf. destruct text as [|c s]; [discriminate Ht |].
  unfold checkFormattingQuality. cbn [details].
  unfold flag_names in Hf. simpl in Hf.
  repeat (destruct Hf as [<-|Hf]; [eexists; reflexivity |]).
  contradiction.
Qed.

Lemma sample_score : score (checkFormattingQuality (Some Samples.formatted_sample)) = 65.
Proof. vm_compute. reflexivity. Qed.

Lemma score_bounds (text : option jsstring) :
  0 <= score (checkFormattingQuality text) <= 100.
Proof.
  destruct text as [[|c s]|]; simpl; try lia.
  unfold points.
  repeat match goal with |- context [if ?b then _ else _] => destruct b end; lia.
Qed.

(** The score never leaves 0..100. *)
Lemma score_range (text : option jsstring) :
  0 <= score (checkFormattingQuality text) <= 100.
Proof.
  destruct text as [[|c s]|]; simpl; try lia.
  unfold points.
  repeat match goal with |- context [if ?b then _ else _] => destruct b end; lia.
Qed.

End FormattingFacts.

(** ** The store-backed operations *)
Module ServiceFacts.
Import Num Eff Store Service.

Lemma filter_nil {A} (P : A -> bool) (l : list A) :
  (forall x, In x l -> P x = false) -> List.filter P l = [].
Proof.
  induction l as [|a l IH]; intros H; simpl; [reflexivity |].
  rewrite (H a) by (simpl; tauto). apply IH. intros x Hx. apply H. simpl; tauto.
Qed.

(** [LIMIT 1] of a filtered scan: nothing, or the row of a stored node that
    passes the filter. *)
Lemma first_row {A B} (P : A -> bool) (f : A -> B) (l : list A) :
  (take 1 (f <$> List.filter P l) = [] /\ forall x, In x l -> P x = false)
  \/ (exists x, In x l /\ P x = true /\ take 1 (f <$> List.filter P l) = [f x]).
Proof.
  induction l as [|a l IH]; simpl.
  - left. split; [reflexivity | intros x []].
  - destruct (P a) eqn:Ha.
    + right. exists a. simpl. rewrite take_0. tauto.
    + destruct IH as [[H1 H2]|(x & Hx & HP & Hr)].
      * left. split; [exact H1 |]. intros x [<-|Hx]; auto.
      * right. exists x. tauto.
Qed.

Section Operations.
Variable toLowerCase : jsstring -> jsstring.
Variable embeddings : jsstring -> option embedding_response.
Variable store_raises : cypher -> bool.
Variable queryNodes : gmap jsstring question -> nat -> vector -> list (jsstring * number).
Variable now : nat.

Abbreviation searchKey := (Service.searchKey toLowerCase).
Abbreviation searchExistingDoubts := (Service.searchExistingDoubts toLowerCase store_raises).
Abbreviation saveDoubtToGraph := (Service.saveDoubtToGraph toLowerCase store_raises now).
Abbreviation searchKnowledgeGraph :=
  (Service.searchKnowledgeGraph embeddings store_raises queryNodes).
Abbreviation saveToKnowledgeGraph :=
  (Service.saveToKnowledgeGraph embeddings store_raises).

(** *** Exact-match lookup *)

Lemma doubt_by_content_below_threshold (c k : jsstring) (g : graph) :
  (forall d, In d (doubts g) -> Store.queryKey d = k -> d_confidence d < 80) ->
  exec_doubt_by_content {| dc_contentId := c; dc_searchKey := k |} g = [].
Proof.
  intros H. unfold exec_doubt_by_content. rewrite filter_nil; [reflexivity |].
  intros d Hd. cbn [dc_contentId dc_searchKey]. unfold key_is.
  destruct (bool_decide (c ∈ contents g)); [| reflexivity].
  destruct (bool_decide (c ∈ relatesTo d)); [| reflexivity].
  case_bool_decide as Hk; [| reflexivity].
  specialize (H d Hd Hk). simpl. apply Z.leb_gt. exact H.
Qed.

Lemma doubt_global_below_threshold (k : jsstring) (g : graph) :
  (forall d, In d (doubts g) -> Store.queryKey d = k -> d_confidence d < 80) ->
  exec_doubt_global {| dg_searchKey := k |} g = [].
Proof.
  intros H. unfold exec_doubt_global. rewrite filter_nil; [reflexivity |].
  intros d Hd. cbn [dg_searchKey]. unfold key_is.
  case_bool_decide as Hk; [| reflexivity].
  specialize (H d Hd Hk). simpl. apply Z.leb_gt. exact H.
Qed.

(** C3.  When every stored Doubt that carries the lookup key has a
    confidence below 80, neither the content-scoped statement nor the
    global one yields a row, and [searchExistingDoubts] resolves to [null],
    whatever content identifier is passed and whether or not the store
    raises. *)
Theorem searchExistingDoubts_below_threshold
    (query context : jsstring) (contentId : option jsstring) (w : world) :
  (forall d, In d (doubts (db w)) ->
     Store.queryKey d = searchKey query context -> d_confidence d < 80) ->
  (forall c, exec_doubt_by_content
               {| dc_contentId := c; dc_searchKey := searchKey query context |} (db w) = [])
  /\ exec_doubt_global {| dg_searchKey := searchKey query context |} (db w) = []
  /\ fst (searchExistingDoubts query context contentId w) = Return None.
Proof.
  intros H.
  pose proof (fun c => doubt_by_content_below_threshold c _ _ H) as Hc.
  pose proof (doubt_global_below_threshold _ _ H) as Hg.
  split; [exact Hc |]. split; [exact Hg |].
  unfold Service.searchExistingDoubts, try_catch, bind, runNeo4jQuery, reading, ret.
  destruct contentId as [[|c cs]|];
    cbn -[exec_doubt_by_content exec_doubt_global Service.searchKey];
    repeat (first [ rewrite Hc | rewrite Hg
                  | match goal with
                    | |- context [store_raises ?t] => destruct (store_raises t)
                    end ];
            cbn -[exec_doubt_by_content exec_doubt_global Service.searchKey]);
    reflexivity.
Qed.

(** *** Semantic search *)

(** C9.  The course identifier passed to [searchKnowledgeGraph] does not
    reach the result: for the same query, the same embedding provider and
    the same store, any two course identifiers (null included) give the
    same result and leave the same store.  The statement is executed from
    the embedding alone. *)
Theorem searchKnowledgeGraph_ignores_courseId
    (query : jsstring) (courseId courseId' : option jsstring) (w : world) :
  fst (searchKnowledgeGraph query courseId w)
  = fst (searchKnowledgeGraph query courseId' w)
  /\ db (snd (searchKnowledgeGraph query courseId w))
     = db (snd (searchKnowledgeGraph query courseId' w))
  /\ forall e,
       exec_vector_search queryNodes {| vs_embedding := e; vs_courseId := courseId |} (db w)
       = exec_vector_search queryNodes {| vs_embedding := e; vs_courseId := courseId' |} (db w).
Proof.
  unfold Service.searchKnowledgeGraph, try_catch, bind, getEmbedding,
    runNeo4jQuery, reading, ret.
  destruct (embeddings query) as [[[] [e|]]|]; cbn [success res_embedding log db trace];
    try (destruct (store_raises VECTOR_SEARCH); cbn [log db trace]);
    repeat split;
    try (change (exec_vector_search queryNodes {| vs_embedding := e; vs_courseId := courseId |} (db w))
           with (exec_vector_search queryNodes {| vs_embedding := e; vs_courseId := courseId' |} (db w));
         destruct (exec_vector_search _ _ _); reflexivity).
Qed.

(** *** The Doubt cache: one key for writing and reading *)

(** After the upsert every Doubt with the key carries the new answer and
    confidence, and there is one. *)
Lemma upsert_sets_every_match (p : doubt_upsert_params) (g : graph) (d : doubt) :
  In d (doubts (exec_doubt_upsert now p g)) ->
  key_is (du_queryKey p) d = true ->
  d_answer d = du_answer p /\ d_confidence d = du_confidence p.
Proof.
  unfold exec_doubt_upsert.
  destruct (existsb (key_is (du_queryKey p)) (doubts g)) eqn:Hex; cbn [doubts set_doubts].
  - intros Hd Hk. apply in_map_iff in Hd as (d0 & <- & Hd0).
    destruct (key_is (du_queryKey p) d0) eqn:Hk0; [split; reflexivity |].
    congruence.
  - intros Hd Hk. apply in_app_iff in Hd as [Hd|[<-|[]]]; [| split; reflexivity].
    assert (Hf : existsb (key_is (du_queryKey p)) (doubts g) = true)
      by (apply existsb_exists; eauto).
    congruence.
Qed.

Lemma upsert_leaves_a_match (p : doubt_upsert_params) (g : graph) :
  exists d, In d (doubts (exec_doubt_upsert now p g))
            /\ key_is (du_queryKey p) d = true.
Proof.
  unfold exec_doubt_upsert.
  destruct (existsb (key_is (du_queryKey p)) (doubts g)) eqn:Hex; cbn [doubts set_doubts].
  - apply existsb_exists in Hex as (d0 & Hd0 & Hk0).
    eexists. split; [apply in_map_iff; exists d0; split; [reflexivity | exact Hd0] |].
    rewrite Hk0. unfold key_is. cbn [Store.queryKey]. now apply bool_decide_eq_true.
  - eexists. split; [apply in_app_iff; right; left; reflexivity |].
    unfold key_is. cbn [Store.queryKey]. now apply bool_decide_eq_true.
Qed.

(** A Doubt saved with a confidence of 80 or more is found again under the
    same query and context, whatever content identifier the lookup passes. *)
Lemma saved_doubt_is_found (query answer : jsstring) (confidence : Z)
    (context : jsstring) (contentId contentId' : option jsstring) (w : world) :
  (forall t, store_raises t = false) -> 80 <= confidence ->
  exists src,
    fst (searchExistingDoubts query context contentId'
           (snd (saveDoubtToGraph query answer confidence context contentId w)))
    = Return (Some {| Service.answer := answer;
                      Service.confidence := confidence; source := src |}).
Proof.
  intros Hup Hconf.
  unfold Service.saveDoubtToGraph, Service.searchExistingDoubts, try_catch, bind,
    runNeo4jQuery, writing, reading, ret.
  rewrite !Hup. cbn [snd fst log db trace].
  change (Service.searchKey toLowerCase query context)
    with (Service.queryKey toLowerCase query context).
  set (k := Service.queryKey toLowerCase query context).
  set (p := {| du_queryKey := k |}).
  set (g := exec_doubt_upsert now p (db w)).
  assert (Hset : forall d, In d (doubts g) -> key_is k d = true ->
                   d_answer d = answer /\ d_confidence d = confidence)
    by (intros d; apply (upsert_sets_every_match p)).
  assert (Hglobal : exists d, In d (doubts g) /\ key_is k d = true)
    by apply (upsert_leaves_a_match p).
  assert (Hrow : forall d, In d (doubts g) -> key_is k d = true ->
                   doubt_row_of d = {| r_answer := answer; r_confidence := confidence |}).
  { intros d Hd Hk. destruct (Hset d Hd Hk) as [Ha Hc].
    unfold doubt_row_of. now rewrite Ha, Hc. }
  assert (Hg : exec_doubt_global {| dg_searchKey := k |} g
               = [{| r_answer := answer; r_confidence := confidence |}]).
  { unfold exec_doubt_global. cbn [dg_searchKey].
    destruct (first_row (fun d => key_is k d && (80 <=? d_confidence d))
                doubt_row_of (doubts g)) as [[_ Hnone]|(d & Hd & HP & ->)].
    - destruct Hglobal as (d & Hd & Hk). specialize (Hnone d Hd).
      rewrite Hk in Hnone. destruct (Hset d Hd Hk) as [_ Hc]. rewrite Hc in Hnone.
      simpl in Hnone. apply Z.leb_gt in Hnone. lia.
    - apply andb_prop in HP as [Hk _]. now rewrite (Hrow d Hd Hk). }
  assert (Hc : forall c,
             exec_doubt_by_content {| dc_contentId := c; dc_searchKey := k |} g = []
             \/ exec_doubt_by_content {| dc_contentId := c; dc_searchKey := k |} g
                = [{| r_answer := answer; r_confidence := confidence |}]).
  { intros c. unfold exec_doubt_by_content. cbn [dc_contentId dc_searchKey].
    match goal with |- context [List.filter ?P _] =>
      destruct (first_row P doubt_row_of (doubts g)) as [[-> _]|(d & Hd & HP & ->)]
    end; [left; reflexivity | right].
    apply andb_prop in HP as [HP _]. apply andb_prop in HP as [_ Hk].
    now rewrite (Hrow d Hd Hk). }
  clearbody g k.
  destruct contentId' as [[|c cs]|];
    cbn -[exec_doubt_by_content exec_doubt_global];
    try (destruct (Hc (c :: cs)) as [-> | ->]);
    cbn -[exec_doubt_by_content exec_doubt_global];
    rewrite ?Hg; eexists; reflexivity.
Qed.

(** The rows of the two lookups after an upsert of confidence 80 or more. *)
Lemma global_after_upsert (p : doubt_upsert_params) (g : graph) :
  80 <= du_confidence p ->
  exec_doubt_global {| dg_searchKey := du_queryKey p |} (exec_doubt_upsert now p g)
  = [{| r_answer := du_answer p; r_confidence := du_confidence p |}].
Proof.
  intros Hconf. unfold exec_doubt_global. cbn [dg_searchKey].
  destruct (first_row (fun d => key_is (du_queryKey p) d && (80 <=? d_confidence d))
              doubt_row_of (doubts (exec_doubt_upsert now p g)))
    as [[_ Hnone]|(d & Hd & HP & ->)].
  - destruct (upsert_leaves_a_match p g) as (d & Hd & Hk).
    specialize (Hnone d Hd). rewrite Hk in Hnone.
    destruct (upsert_sets_every_match p g d Hd Hk) as [_ Hc]. rewrite Hc in Hnone.
    simpl in Hnone. apply Z.leb_gt in Hnone. lia.
  - apply andb_prop in HP as [Hk _].
    destruct (upsert_sets_every_match p g d Hd Hk) as [Ha Hc].
    unfold doubt_row_of. now rewrite Ha, Hc.
Qed.

Lemma by_content_after_upsert (p : doubt_upsert_params) (g : graph) (c : jsstring) :
  exec_doubt_by_content {| dc_contentId := c; dc_searchKey := du_queryKey p |}
    (exec_doubt_upsert now p g) = []
  \/ exec_doubt_by_content {| dc_contentId := c; dc_searchKey := du_queryKey p |}
       (exec_doubt_upsert now p g)
     = [{| r_answer := du_answer p; r_confidence := du_confidence p |}].
Proof.
  unfold exec_doubt_by_content. cbn [dc_contentId dc_searchKey].
  match goal with |- context [List.filter ?P _] =>
    destruct (first_row P doubt_row_of (doubts (exec_doubt_upsert now p g)))
      as [[-> _]|(d & Hd & HP & ->)]
  end; [left; reflexivity | right].
  apply andb_prop in HP as [HP _]. apply andb_prop in HP as [_ Hk].
  destruct (upsert_sets_every_match p g d Hd Hk) as [Ha Hc].
  unfold doubt_row_of. now rewrite Ha, Hc.
Qed.

(** The lookup, from the rows of its two statements. *)
Lemma lookup_from_rows (query context : jsstring) (contentId : option jsstring)
    (w : world) (row : doubt_row) :
  (forall t, store_raises t = false) ->
  exec_doubt_global {| dg_searchKey := searchKey query context |} (db w) = [row] ->
  (forall c, exec_doubt_by_content
               {| dc_contentId := c; dc_searchKey := searchKey query context |} (db w) = []
             \/ exec_doubt_by_content
                  {| dc_contentId := c; dc_searchKey := searchKey query context |} (db w)
                = [row]) ->
  exists src,
    fst (searchExistingDoubts query context contentId w)
    = Return (Some {| Service.answer := r_answer row;
                      Service.confidence := r_confidence row; source := src |}).
Proof.
  intros Hup Hg Hc.
  unfold Service.searchExistingDoubts, try_catch, bind, runNeo4jQuery, reading, ret.
  destruct contentId as [[|c cs]|];
    cbn -[exec_doubt_by_content exec_doubt_global Service.searchKey];
    rewrite ?Hup;
    cbn -[exec_doubt_by_content exec_doubt_global Service.searchKey];
    try (destruct (Hc (c :: cs)) as [-> | ->]);
    cbn -[exec_doubt_by_content exec_doubt_global Service.searchKey];
    rewrite ?Hup;
    cbn -[exec_doubt_by_content exec_doubt_global Service.searchKey];
    rewrite ?Hg; eexists; reflexivity.
Qed.

(** The lookup when no Doubt under the key reaches 80. *)
Lemma lookup_below_threshold (query context : jsstring) (contentId : option jsstring)
    (w : world) :
  (forall d, In d (doubts (db w)) ->
     Store.queryKey d = searchKey query context -> d_confidence d < 80) ->
  fst (searchExistingDoubts query context contentId w) = Return None.
Proof.
  intros H.
  pose proof (fun c => doubt_by_content_below_threshold c _ _ H) as Hc.
  pose proof (doubt_global_below_threshold _ _ H) as Hg.
  unfold Service.searchExistingDoubts, try_catch, bind, runNeo4jQuery, reading, ret.
  destruct contentId as [[|c cs]|];
    cbn -[exec_doubt_by_content exec_doubt_global Service.searchKey];
    repeat (first [ rewrite Hc | rewrite Hg
                  | match goal with
                    | |- context [store_raises ?t] => destruct (store_raises t)
                    end ];
            cbn -[exec_doubt_by_content exec_doubt_global Service.searchKey]);
    reflexivity.
Qed.

(** The graph an accepted upsert leaves. *)
Lemma saveDoubtToGraph_accepted (query answer : jsstring) (confidence : Z)
    (context : jsstring) (contentId : option jsstring) (w : world) :
  store_raises DOUBT_UPSERT = false ->
  db (snd (saveDoubtToGraph query answer confidence context contentId w))
  = exec_doubt_upsert now
      {| du_queryKey := searchKey query context; du_query := Str.trim query;
         du_context := Str.trim context; du_answer := answer;
         du_confidence := confidence; du_contentId := contentId |} (db w).
Proof.
  intros Hup.
  unfold Service.saveDoubtToGraph, try_catch, bind, runNeo4jQuery, writing, ret.
  cbn -[exec_doubt_upsert Service.queryKey]. rewrite Hup. reflexivity.
Qed.

(** C10, amended.  For every query and context, the key
    [searchExistingDoubts] looks up is the key [saveDoubtToGraph] upserts
    under: the lowercased, trimmed query, followed by ['|'] and the
    lowercased, trimmed context exactly when the raw context is a non-empty
    string.  The upsert binds that key; the lookup issues at least one
    statement and every statement it issues binds that key; after an upsert
    the store accepted, a Doubt with the saved answer and confidence sits
    under it.  A Doubt written for a pair with a confidence of 80 or more is
    what the lookup returns for the same pair, whatever content identifier
    it passes, when the store raises on neither; one written with a lower
    confidence is not returned: the lookup resolves to [null]. *)
Theorem lookup_key_is_upsert_key (query context : jsstring) :
  searchKey query context = Service.queryKey toLowerCase query context
  /\ searchKey query context
     = Str.trim (toLowerCase query)
       ++ (if Str.truthy context
           then Str.lit "|" ++ Str.trim (toLowerCase context) else [])
  /\ (forall answer confidence contentId w,
        exists p, trace (snd (saveDoubtToGraph query answer confidence context contentId w))
                  = trace w ++ [DoubtUpsert p]
                  /\ du_queryKey p = searchKey query context)
  /\ (forall contentId w,
        exists calls,
          trace (snd (searchExistingDoubts query context contentId w)) = trace w ++ calls
          /\ calls <> []
          /\ forall c, In c calls ->
               (exists id, c = DoubtByContent {| dc_contentId := id;
                                                 dc_searchKey := searchKey query context |})
               \/ c = DoubtGlobal {| dg_searchKey := searchKey query context |})
  /\ (forall answer confidence contentId w,
        store_raises DOUBT_UPSERT = false ->
        exists d,
          In d (doubts (db (snd (saveDoubtToGraph query answer confidence
                                   context contentId w))))
          /\ Store.queryKey d = searchKey query context
          /\ d_answer d = answer /\ d_confidence d = confidence)
  /\ (forall answer confidence contentId contentId' w,
        (forall t, store_raises t = false) -> 80 <= confidence ->
        exists src,
          fst (searchExistingDoubts query context contentId'
                 (snd (saveDoubtToGraph query answer confidence context contentId w)))
          = Return (Some {| Service.answer := answer;
                            Service.confidence := confidence; source := src |}))
  /\ (forall answer confidence contentId contentId' w,
        store_raises DOUBT_UPSERT = false -> confidence < 80 ->
        fst (searchExistingDoubts query context contentId'
               (snd (saveDoubtToGraph query answer confidence context contentId w)))
        = Return None).
Proof.
  split; [reflexivity |]. split; [reflexivity |].
  split; [| split; [| split; [| split]]].
  - intros answer confidence contentId w.
    unfold Service.saveDoubtToGraph, try_catch, bind, runNeo4jQuery, writing, ret.
    cbn -[exec_doubt_upsert Service.queryKey].
    eexists. destruct (store_raises DOUBT_UPSERT); cbn [snd log db trace];
      (split; [reflexivity | reflexivity]).
  - intros contentId w.
    unfold Service.searchExistingDoubts, try_catch, bind, runNeo4jQuery, reading, ret.
    destruct contentId as [[|c0 cs]|];
      cbn -[exec_doubt_by_content exec_doubt_global Service.searchKey];
      repeat (match goal with
              | |- context [store_raises ?t] => destruct (store_raises t)
              | |- context [match exec_doubt_by_content ?p ?g with _ => _ end] =>
                  destruct (exec_doubt_by_content p g)
              | |- context [match exec_doubt_global ?p ?g with _ => _ end] =>
                  destruct (exec_doubt_global p g)
              end;
              cbn -[exec_doubt_by_content exec_doubt_global Service.searchKey]);
      rewrite <- ?app_assoc; eexists; (split; [reflexivity |]);
      (split; [discriminate |]);
      intros c Hc; cbn [In app] in Hc;
      repeat (destruct Hc as [Hc|Hc]); subst; eauto; contradiction.
  - intros answer confidence contentId w Hup.
    rewrite (saveDoubtToGraph_accepted _ _ _ _ _ _ Hup).
    set (p := {| du_queryKey := _ |}).
    destruct (upsert_leaves_a_match p (db w)) as (d & Hd & Hk).
    exists d. split; [exact Hd |].
    split; [unfold key_is in Hk; now apply bool_decide_eq_true in Hk |].
    exact (upsert_sets_every_match p (db w) d Hd Hk).
  - intros answer confidence contentId contentId' w Hup Hconf.
    set (p := {| du_queryKey := searchKey query context; du_query := Str.trim query;
                 du_context := Str.trim context; du_answer := answer;
                 du_confidence := confidence; du_contentId := contentId |}).
    apply (lookup_from_rows query context contentId' _
             {| r_answer := answer; r_confidence := confidence |} Hup);
      rewrite (saveDoubtToGraph_accepted _ _ _ _ _ _ (Hup DOUBT_UPSERT)); fold p.
    + exact (global_after_upsert p (db w) Hconf).
    + intros c. exact (by_content_after_upsert p (db w) c).
  - intros answer confidence contentId contentId' w Hup Hlow.
    apply lookup_below_threshold.
    rewrite (saveDoubtToGraph_accepted _ _ _ _ _ _ Hup).
    intros d Hd Hk.
    destruct (upsert_sets_every_match _ _ d Hd) as [_ Hc].
    + unfold key_is. now apply bool_decide_eq_true.
    + rewrite Hc. exact Hlow.
Qed.

(** *** The knowledge writer *)

(** C2, amended.  Below 85 the writer resolves to [null] and touches
    neither the embedding provider nor the store.  From 85 on, once the
    embedding is obtained, it sends exactly one statement to the store, the
    subgraph merge with the parameters of the call, and it resolves to
    [false], the store unchanged, when the store rejects the statement. *)
Theorem saveToKnowledgeGraph_admission (params : save_params) (w : world) :
  (sp_confidence params < 85 ->
     saveToKnowledgeGraph params w = (Return Null, w))
  /\ (85 <= sp_confidence params ->
      forall e,
        embeddings (sp_query params) = Some {| success := true; res_embedding := Some e |} ->
        let p := merge_of params e in
        let out := saveToKnowledgeGraph params w in
        trace (snd out) = trace w ++ [EmbeddingCall (sp_query params); SubgraphMerge p]
        /\ (store_raises SUBGRAPH_MERGE = true ->
             fst out = Return (Bool false) /\ db (snd out) = db w)).
Proof using embeddings store_raises.
  split.
  - intros Hlow. unfold Service.saveToKnowledgeGraph.
    apply Z.ltb_lt in Hlow. rewrite Hlow. reflexivity.
  - intros Hhigh e He. cbv zeta.
    unfold Service.saveToKnowledgeGraph.
    apply Z.ltb_ge in Hhigh. rewrite Hhigh.
    unfold try_catch, bind, getEmbedding, runNeo4jQuery, ret.
    rewrite He. cbn [success res_embedding].
    fold (merge_of params e).
    destruct (store_raises SUBGRAPH_MERGE) eqn:Hs; cbn;
      rewrite <- app_assoc; (split; [reflexivity |]);
      intros H; try discriminate H; split; reflexivity.
Qed.

End Operations.

(** *** The theorems at sample inputs *)
Import Samples.

Lemma searchExistingDoubts_below_threshold_witness :
  fst (Service.searchExistingDoubts lower_ascii store_up (Str.lit "What is TCP?") []
         (Some (Str.lit "content-1")) weak_world) = Return None
  /\ fst (Service.searchExistingDoubts lower_ascii store_up (Str.lit "What is TCP?") []
            None weak_world) = Return None.
Proof.
  assert (H : forall d, In d (doubts (db weak_world)) ->
                Store.queryKey d = Service.searchKey lower_ascii (Str.lit "What is TCP?") [] ->
                d_confidence d < 80).
  { intros d [<-|[]] _. simpl. lia. }
  split.
  - apply (searchExistingDoubts_below_threshold lower_ascii store_up
             (Str.lit "What is TCP?") [] (Some (Str.lit "content-1")) weak_world H).
  - apply (searchExistingDoubts_below_threshold lower_ascii store_up
             (Str.lit "What is TCP?") [] None weak_world H).
Defined.

(** The weak Doubt does sit under the lookup key. *)
Lemma weak_doubt_key :
  Store.queryKey weak_doubt = Service.searchKey lower_ascii (Str.lit "What is TCP?") [].
Proof. vm_compute. reflexivity. Qed.

(** C10, as stated, fails: a Doubt written with a confidence of 40 sits in the
    store under the key of its pair, and the lookup for the same pair
    resolves to [null]. *)
Lemma low_confidence_doubt_is_not_retrievable :
  let saved := snd (Service.saveDoubtToGraph lower_ascii store_up 0
                      (Str.lit "What is TCP?") (Str.lit "Not sure.") 40
                      (Str.lit " Lecture 3 ") None empty_world) in
  (exists d, In d (doubts (db saved))
             /\ Store.queryKey d
                = Service.searchKey lower_ascii (Str.lit "What is TCP?") (Str.lit " Lecture 3 ")
             /\ d_answer d = Str.lit "Not sure.")
  /\ fst (Service.searchExistingDoubts lower_ascii store_up
            (Str.lit "What is TCP?") (Str.lit " Lecture 3 ") None saved)
     = Return None.
Proof.
  cbv zeta. split; [| vm_compute; reflexivity].
  eexists. split; [left; reflexivity |]. split; vm_compute; reflexivity.
Qed.

Lemma lookup_key_is_upsert_key_witness :
  (exists d,
     In d (doubts (db (snd (Service.saveDoubtToGraph lower_ascii store_up 0
                              (Str.lit "What is TCP?") (Str.lit "A protocol.") 90
                              (Str.lit " Lecture 3 ") None empty_world))))
     /\ Store.queryKey d = Str.lit "what is tcp?|lecture 3"
     /\ d_answer d = Str.lit "A protocol." /\ d_confidence d = 90)
  /\ (exists src,
        fst (Service.searchExistingDoubts lower_ascii store_up
               (Str.lit "What is TCP?") (Str.lit " Lecture 3 ") (Some (Str.lit "content-1"))
               (snd (Service.saveDoubtToGraph lower_ascii store_up 0
                       (Str.lit "What is TCP?") (Str.lit "A protocol.") 90
                       (Str.lit " Lecture 3 ") None empty_world)))
        = Return (Some {| Service.answer := Str.lit "A protocol.";
                          Service.confidence := 90; source := src |}))
  /\ fst (Service.searchExistingDoubts lower_ascii store_up
            (Str.lit "What is TCP?") (Str.lit " Lecture 3 ") None
            (snd (Service.saveDoubtToGraph lower_ascii store_up 0
                    (Str.lit "What is TCP?") (Str.lit "Not sure.") 79
                    (Str.lit " Lecture 3 ") None empty_world)))
     = Return None.
Proof.
  destruct (lookup_key_is_upsert_key lower_ascii store_up 0
              (Str.lit "What is TCP?") (Str.lit " Lecture 3 "))
    as (_ & _ & _ & _ & Hstored & Hfound & Hmissed).
  split; [| split].
  - apply (Hstored (Str.lit "A protocol.") 90 None empty_world). reflexivity.
  - apply (Hfound (Str.lit "A protocol.") 90 None (Some (Str.lit "content-1")) empty_world).
    + intros t. reflexivity.
    + lia.
  - apply (Hmissed (Str.lit "Not sure.") 79 None None empty_world).
    + reflexivity.
    + lia.
Defined.

Lemma saved_doubt_is_found_witness :
  exists src,
    fst (Service.searchExistingDoubts lower_ascii store_up (Str.lit "what is tcp? ")
           (Str.lit "LECTURE 3") (Some (Str.lit "content-1"))
           (snd (Service.saveDoubtToGraph lower_ascii store_up 0
                   (Str.lit "What is TCP?") (Str.lit "A protocol.") 90
                   (Str.lit " Lecture 3 ") None empty_world)))
    = Return (Some {| Service.answer := Str.lit "A protocol.";
                      Service.confidence := 90; source := src |}).
Proof.
  apply (saved_doubt_is_found lower_ascii store_up 0
           (Str.lit "What is TCP?") (Str.lit "A protocol.") 90
           (Str.lit " Lecture 3 ") None (Some (Str.lit "content-1")) empty_world).
  - intros t. reflexivity.
  - lia.
Defined.

(** C2, as stated, fails twice over: at confidence 84 the writer resolves to
    [null], which is not [false]; and at confidence 85 with an embedding in
    hand it resolves to [false], not [true], when the store raises. *)
Lemma saveToKnowledgeGraph_null_and_false :
  fst (Service.saveToKnowledgeGraph embeddings_ok store_up
         (resolution 84) course_world) = Return Null
  /\ Null <> Bool false
  /\ fst (Service.saveToKnowledgeGraph embeddings_ok store_down
            (resolution 85) course_world) = Return (Bool false)
  /\ Bool false <> Bool true.
Proof.
  split; [reflexivity |]. split; [discriminate |].
  split; [reflexivity | discriminate].
Qed.

Lemma saveToKnowledgeGraph_admission_witness :
  Service.saveToKnowledgeGraph embeddings_ok store_down
    (resolution 84) course_world = (Return Null, course_world)
  /\ let out := Service.saveToKnowledgeGraph embeddings_ok store_down
                   (resolution 85) course_world in
     trace (snd out)
     = trace course_world
       ++ [EmbeddingCall (Str.lit "explain routing tables");
           SubgraphMerge (merge_of (resolution 85) [of_Z 1])]
     /\ fst out = Return (Bool false)
     /\ db (snd out) = db course_world.
Proof.
  pose proof (saveToKnowledgeGraph_admission embeddings_ok store_down
                (resolution 84) course_world) as [Hlow _].
  pose proof (saveToKnowledgeGraph_admission embeddings_ok store_down
                (resolution 85) course_world) as [_ Hhigh].
  split; [apply Hlow; simpl; lia |].
  specialize (Hhigh ltac:(simpl; lia) [of_Z 1] eq_refl).
  cbv zeta in Hhigh. destruct Hhigh as (Htrace & Hfalse).
  cbv zeta. split; [exact Htrace |]. exact (Hfalse eq_refl).
Defined.

(** A question related to the course "net-101" is matched by a search made
    for the course "db-202". *)
Lemma semantic_match_crosses_courses :
  fst (Service.searchKnowledgeGraph embeddings_ok store_up queryNodes_all
         (Str.lit "tcp?") (Some (Str.lit "db-202")) answered_world)
  = Return (Match (Str.lit "what is tcp") (Str.lit "a transport protocol") (of_Z 100)).
Proof. vm_compute. reflexivity. Qed.

End ServiceFacts.

(** ** The tutor gateway *)
Module TutorFacts.
Import Num Eff Tutor.

Lemma strip_app (p t : jsstring) : Str.strip p (p ++ t) = Some t.
Proof.
  induction p as [|a p IH]; simpl; [now destruct t |].
  now rewrite N.eqb_refl.
Qed.

(** Removing a pattern the string starts with leaves what follows it. *)
Lemma replace_prefix (p t : jsstring) : Str.replace (p ++ t) p [] = t.
Proof.
  destruct p as [|a p]; simpl.
  - now destruct t.
  - now rewrite N.eqb_refl, strip_app.
Qed.

Lemma replace_cons (c : N) (s pat : jsstring) :
  Str.strip pat (c :: s) = None ->
  Str.replace (c :: s) pat [] = c :: Str.replace s pat [].
Proof. intros H. simpl. destruct pat; [discriminate H | now rewrite H]. Qed.

(** A context that starts with the sentinel without the space after it
    keeps its first letter when the pattern with the space is removed. *)
Lemma replace_keeps_sentinel (t : jsstring) :
  Str.strip [32%N] t = None ->
  exists rest,
    Str.replace (sentinel ++ t) (Str.lit "STRICT_REGION_CONTEXT: ") [] = 83%N :: rest.
Proof.
  intros Ht. eexists. apply replace_cons.
  change (Str.strip [32%N] t = None). exact Ht.
Qed.

Lemma region_prompt_opening ts seg course query :
  Str.startsWith (region_prompt ts seg course query) region_opening = true.
Proof. reflexivity. Qed.

Lemma adaptive_prompt_opening instruction userName current :
  Str.startsWith (adaptive_prompt instruction userName current) adaptive_opening = true
  /\ Str.startsWith (adaptive_prompt instruction userName current) region_opening = false.
Proof. split; reflexivity. Qed.

Section AskGroq.
Variable toLowerCase : jsstring -> jsstring.
Variable JSON_parse : jsstring -> option json.
Variable ToString : json -> jsstring.
Variable GROQ_API_KEY GROQ_MODEL_env GROQ_VISION_MODEL : option jsstring.
Variable fetch : jsstring -> option (list N).
Variable base64 : list N -> jsstring.
Variable provider : request -> reply.

Abbreviation systemPrompt := (Tutor.systemPrompt toLowerCase JSON_parse ToString).
Abbreviation askGroq :=
  (Tutor.askGroq toLowerCase JSON_parse ToString GROQ_API_KEY GROQ_MODEL_env
     GROQ_VISION_MODEL fetch base64 provider).

(** The fields of the default grounding object are empty strings. *)
Lemma field_default name : field ToString Default name = Return [].
Proof. reflexivity. Qed.

Lemma systemPrompt_region query context language userName selectedText :
  isStrictRegion context = true ->
  (exists e, systemPrompt query context language userName selectedText = Throw e)
  \/ (exists ts seg course,
        systemPrompt query context language userName selectedText
        = Return (region_prompt ts seg course query)).
Proof.
  intros Hs. unfold Tutor.systemPrompt. rewrite Hs.
  destruct (field _ _ (Str.lit "selectedTimestamp")) as [ts|e]; [| left; eauto].
  destruct (field _ _ (Str.lit "transcriptSegment")) as [seg|e]; [| left; eauto].
  destruct (field _ _ (Str.lit "courseContext")) as [course|e]; [| left; eauto].
  right. eauto.
Qed.

Lemma systemPrompt_adaptive query context language userName selectedText :
  isStrictRegion context = false ->
  systemPrompt query context language userName selectedText
  = Return (adaptive_prompt (languageInstruction toLowerCase language userName)
              userName
              (Str.or_else (Some selectedText)
                 (Str.or_else (Some context) (Str.lit "General curriculum")))).
Proof. intros Hs. unfold Tutor.systemPrompt. now rewrite Hs. Qed.

(** A payload that does not parse leaves the default grounding object. *)
Lemma systemPrompt_unparsed query context language userName selectedText :
  isStrictRegion context = true ->
  JSON_parse (Str.replace context (Str.lit "STRICT_REGION_CONTEXT: ") []) = None ->
  systemPrompt query context language userName selectedText
  = Return (region_prompt [] [] [] query).
Proof.
  intros Hs Hparse. unfold Tutor.systemPrompt, parse_grounding.
  now rewrite Hs, Hparse.
Qed.

(** C7.  The prompt [askGroq] builds is the region-grounded one exactly
    when the context starts with ['STRICT_REGION_CONTEXT:'], and the
    adaptive one otherwise; only the region-grounded construction can
    throw.  When the context starts with the sentinel and the text handed
    to [JSON.parse] (the context without ['STRICT_REGION_CONTEXT: ']) does
    not parse, the construction returns the region-grounded prompt with an
    empty timestamp, transcript segment and course context; so it does in
    particular for ['STRICT_REGION_CONTEXT: '] followed by a payload that
    does not parse, and, [JSON.parse] rejecting a text that starts with the
    letter S and ignoring a leading space, whenever the text after the
    sentinel does not parse. *)
Theorem region_mode_iff_sentinel
    (query context language userName selectedText : jsstring) :
  (forall prompt,
     systemPrompt query context language userName selectedText = Return prompt ->
     (Str.startsWith prompt region_opening = true
      <-> Str.startsWith context sentinel = true)
     /\ (Str.startsWith context sentinel = true ->
         exists ts seg course, prompt = region_prompt ts seg course query)
     /\ (Str.startsWith context sentinel = false ->
         prompt = adaptive_prompt (languageInstruction toLowerCase language userName)
                    userName
                    (Str.or_else (Some selectedText)
                       (Str.or_else (Some context) (Str.lit "General curriculum")))))
  /\ (forall e,
        systemPrompt query context language userName selectedText = Throw e ->
        Str.startsWith context sentinel = true)
  /\ (Str.startsWith context sentinel = true ->
      JSON_parse (Str.replace context (Str.lit "STRICT_REGION_CONTEXT: ") []) = None ->
      systemPrompt query context language userName selectedText
      = Return (region_prompt [] [] [] query))
  /\ (forall payload,
        context = Str.lit "STRICT_REGION_CONTEXT: " ++ payload ->
        JSON_parse payload = None ->
        systemPrompt query context language userName selectedText
        = Return (region_prompt [] [] [] query))
  /\ ((forall t, JSON_parse (83%N :: t) = None) ->
      (forall t, JSON_parse (32%N :: t) = JSON_parse t) ->
      forall after,
        context = sentinel ++ after ->
        JSON_parse after = None ->
        systemPrompt query context language userName selectedText
        = Return (region_prompt [] [] [] query)).
Proof.
  split; [| split; [| split; [| split]]].
  - intros prompt Hp.
    destruct (isStrictRegion context) eqn:Hs.
    + destruct (systemPrompt_region query context language userName selectedText Hs)
        as [(e & He)|(ts & seg & course & Hr)]; [congruence |].
      rewrite Hr in Hp. injection Hp as <-.
      unfold isStrictRegion in Hs. rewrite Hs.
      split; [| split].
      * split; intros _; [reflexivity | apply region_prompt_opening].
      * intros _. eauto.
      * intros H. discriminate H.
    + rewrite (systemPrompt_adaptive query context language userName selectedText Hs) in Hp.
      injection Hp as <-.
      unfold isStrictRegion in Hs. rewrite Hs.
      split; [| split].
      * split; intros H; [| discriminate H].
        rewrite <- (proj2 (adaptive_prompt_opening
                             (languageInstruction toLowerCase language userName) userName
                             (Str.or_else (Some selectedText)
                                (Str.or_else (Some context) (Str.lit "General curriculum"))))).
        exact H.
      * intros H. discriminate H.
      * intros _. reflexivity.
  - intros e He.
    destruct (isStrictRegion context) eqn:Hs; [exact Hs |].
    rewrite (systemPrompt_adaptive query context language userName selectedText Hs) in He.
    discriminate He.
  - intros Hs Hparse. apply systemPrompt_unparsed; assumption.
  - intros payload -> Hparse. apply systemPrompt_unparsed; [reflexivity |].
    now rewrite replace_prefix.
  - intros HS Hspace after -> Hparse.
    apply systemPrompt_unparsed; [reflexivity |].
    destruct (Str.strip [32%N] after) as [payload|] eqn:Hafter.
    + destruct after as [|c after]; [discriminate Hafter |].
      cbn [Str.strip] in Hafter.
      destruct (32 =? c)%N eqn:Hc; [| discriminate Hafter].
      apply N.eqb_eq in Hc as <-.
      change (sentinel ++ 32%N :: after)
        with (Str.lit "STRICT_REGION_CONTEXT: " ++ after).
      rewrite replace_prefix, <- Hspace. exact Hparse.
    + destruct (replace_keeps_sentinel after Hafter) as [rest ->]. apply HS.
Qed.

(** [askGroq] either returns a response or throws the one generic error. *)
Lemma askGroq_throws_only_unavailable
    (query context : jsstring) (visualContext : bool)
    (contentUrl contentType : option jsstring)
    (language userName selectedText : jsstring) (userKey : option jsstring)
    (s : list net_call) :
  (exists r, fst (askGroq query context visualContext contentUrl contentType
                    language userName selectedText userKey s) = Return r)
  \/ fst (askGroq query context visualContext contentUrl contentType
            language userName selectedText userKey s) = Throw (Error unavailable).
Proof.
  unfold Tutor.askGroq, try_catch, throw.
  destruct (askGroq_try _ _ _ _ _ _ _ _ _ _ _ _ _ _ _ _ _ _ _) as [[r|e'] s'];
    simpl; eauto.
Qed.

(** Vision mode: the answer is attributed to the vision model exactly when
    a visual context, a content URL and the content type ['image'] come
    together. *)
Lemma askGroq_vision_mode
    (query context : jsstring) (visualContext : bool)
    (contentUrl contentType : option jsstring)
    (language userName selectedText : jsstring) (userKey : option jsstring)
    (s : list net_call) (r : response) :
  fst (askGroq query context visualContext contentUrl contentType
         language userName selectedText userKey s) = Return r ->
  (source r = groq_vision
   <-> visualContext = true /\ Str.truthy_opt contentUrl = true
       /\ contentType = Some (Str.lit "image")).
Proof.
  unfold Tutor.askGroq, try_catch, askGroq_try, bind.
  destruct (Str.or_else userKey _) as [|k ks]; [discriminate |].
  destruct (lift _ s) as [[prompt|e] s1]; [| discriminate].
  destruct (build_messages _ _ _ _ _ _ s1) as [[messages|e] s2]; [| discriminate].
  destruct (post _ _ s2) as [[data|e] s3]; [| discriminate].
  unfold respond, throw, ret.
  destruct data as [|[text|]]; try discriminate.
  destruct r as [ex cf bd src]. cbn [fst source]. intros H.
  pose proof (f_equal (fun o => match o with
                                | Return x => Some (source x)
                                | Throw _ => None
                                end) H) as Hsource.
  cbv beta iota delta [source] in Hsource. clear H.
  injection Hsource as <-.
  unfold isVisionMode.
  destruct visualContext, (Str.truthy_opt contentUrl);
    try (case_bool_decide as Hc); cbn [andb]; split; intros H;
    try discriminate H; try tauto; destruct H as (? & ? & ?); congruence.
Qed.

End AskGroq.

(** *** At sample inputs *)
Import Samples.

Lemma region_mode_iff_sentinel_witness :
  Str.startsWith broken_region_context sentinel = true
  /\ parse_nothing (Str.replace broken_region_context
                      (Str.lit "STRICT_REGION_CONTEXT: ") []) = None
  /\ Tutor.systemPrompt lower_ascii parse_nothing no_text
       (Str.lit "What is shown here?") broken_region_context
       (Str.lit "english") (Str.lit "Student") []
     = Return (region_prompt [] [] [] (Str.lit "What is shown here?")).
Proof.
  split; [reflexivity |]. split; [reflexivity |].
  apply (region_mode_iff_sentinel lower_ascii parse_nothing no_text
           (Str.lit "What is shown here?") broken_region_context
           (Str.lit "english") (Str.lit "Student") []); reflexivity.
Defined.

(** C1 on the code.  Without any credential, and with a provider answering
    401, 429, 413 or 500, the [try] block throws four different errors
    ([NO_API_KEY], [INVALID_API_KEY], [API_LIMIT_REACHED], the transport
    error); [askGroq] replaces every one of them by the same
    ["AI Tutor is currently unavailable."], so its caller cannot tell them
    apart. *)
Theorem askGroq_masks_every_failure :
  let key := Some (Str.lit "gsk_live") in
  ask_try None None (provider_status None) = Throw (Error (Str.lit "NO_API_KEY"))
  /\ ask_try key None (provider_status (Some 401)) = Throw (Error (Str.lit "INVALID_API_KEY"))
  /\ ask_try key None (provider_status (Some 429)) = Throw (Error (Str.lit "API_LIMIT_REACHED"))
  /\ ask_try key None (provider_status (Some 413)) = Throw (Error (Str.lit "API_LIMIT_REACHED"))
  /\ ask_try key None (provider_status (Some 500)) = Throw (RequestFailed (Some 500))
  /\ ask None None (provider_status None) = Throw (Error unavailable)
  /\ ask key None (provider_status (Some 401)) = Throw (Error unavailable)
  /\ ask key None (provider_status (Some 429)) = Throw (Error unavailable)
  /\ ask key None (provider_status (Some 413)) = Throw (Error unavailable)
  /\ ask key None (provider_status (Some 500)) = Throw (Error unavailable).
Proof. vm_compute. repeat split; reflexivity. Qed.

(** A call that succeeds, for comparison. *)
Lemma askGroq_success :
  exists r,
    ask (Some (Str.lit "gsk_live")) None (provider_text (Str.lit "### TCP" ++ [10%N] ++ Str.lit "- reliable"))
    = Return r
    /\ confidence r = Int 41
    /\ source r = groq_llama.
Proof. eexists. vm_compute. repeat split; reflexivity. Qed.

Lemma askGroq_vision_mode_witness :
  exists r,
    ask (Some (Str.lit "gsk_live")) None (provider_text (Str.lit "TCP is a protocol.")) = Return r
    /\ (source r = groq_vision
        <-> false = true /\ Str.truthy_opt None = true
            /\ None = Some (Str.lit "image")).
Proof.
  eexists. split.
  - vm_compute. reflexivity.
  - apply (askGroq_vision_mode lower_ascii parse_nothing no_text None None None
             no_image no_base64 (provider_text (Str.lit "TCP is a protocol."))
             (Str.lit "What is TCP?") [] false None None
             (Str.lit "english") (Str.lit "Student") [] (Some (Str.lit "gsk_live")) []).
    vm_compute. reflexivity.
Defined.

End TutorFacts.

(** ** What the scores of a call can be *)
Module ScoringFacts.
Import Num NumFacts Confidence Tables Eff Tutor.

Lemma score_table :
  forallb (fun sel =>
    forallb (fun ctx =>
      forallb (fun vis =>
        forallb (fun resp =>
          forallb (fun fs => within_bounds sel ctx vis (final_of sel ctx vis resp fs))
                  clamped_values)
          response_values)
        [true; false])
      [true; false])
    [true; false] = true.
Proof. vm_compute. reflexivity. Qed.

Lemma bool_In (b : bool) : In b [true; false].
Proof. destruct b; simpl; tauto. Qed.

Lemma percent_In (z : Z) : 0 <= z <= 100 -> In z clamped_values.
Proof.
  intros H. unfold clamped_values. apply in_map_iff.
  exists (Z.to_nat z). split; [lia | apply in_seq; lia].
Qed.

Lemma finalScore_final_of (p : params) :
  aiConfidence p = 85 -> isVerifiedSource p = false ->
  finalScore (calculateConfidence p)
  = final_of (hasSelectedText p) (hasContext p) (hasVisualContext p)
             (responseScore p) (Formatting.score (hasFormatting p)).
Proof.
  intros Hai Hv. cbn [finalScore calculateConfidence].
  unfold roundedScore. rewrite ConfidenceFacts.rawScore_partial_sum.
  unfold final_of, clampedConfidence, sourceBonus, formattingScore.
  rewrite Hai, Hv.
  replace (contextScore p)
    with (context_of (hasSelectedText p) (hasContext p) (hasVisualContext p))
    by (unfold contextScore, context_of;
        destruct (hasSelectedText p), (hasContext p), (hasVisualContext p); reflexivity).
  reflexivity.
Qed.

Lemma final_of_within_bounds (sel ctx vis : bool) (resp fs : Z) :
  In resp response_values -> 0 <= fs <= 100 ->
  within_bounds sel ctx vis (final_of sel ctx vis resp fs) = true.
Proof.
  intros Hresp Hfs.
  pose proof (ConfidenceFacts.forallb_In _ _ _ score_table (bool_In sel)) as H1.
  cbv beta in H1.
  pose proof (ConfidenceFacts.forallb_In _ _ _ H1 (bool_In ctx)) as H2. cbv beta in H2.
  pose proof (ConfidenceFacts.forallb_In _ _ _ H2 (bool_In vis)) as H3. cbv beta in H3.
  pose proof (ConfidenceFacts.forallb_In _ _ _ H3 Hresp) as H4. cbv beta in H4.
  exact (ConfidenceFacts.forallb_In _ _ _ H4 (percent_In fs Hfs)).
Qed.

(** The scorer at model confidence 85 on an analysed text. *)
Lemma scored_text_bounds (context selectedText : jsstring) (visualContext vision : bool)
    (contentType : option jsstring) (text : jsstring) :
  exists n,
    finalScore (calculateConfidence
                  (scorer_input context selectedText visualContext vision contentType text))
    = Int n
    /\ 35 <= n <= 95
    /\ (85 <= n -> Str.truthy selectedText = true
                   /\ (Str.truthy context = true \/ visualContext = true))
    /\ (80 <= n -> Str.truthy selectedText = true
                   \/ (Str.truthy context = true /\ visualContext = true)).
Proof.
  rewrite finalScore_final_of by reflexivity.
  cbn [scorer_input hasSelectedText hasContext hasVisualContext hasFormatting].
  pose proof (final_of_within_bounds (Str.truthy selectedText) (Str.truthy context)
                visualContext _ _
                (ConfidenceFacts.responseScore_In
                   (scorer_input context selectedText visualContext vision contentType text))
                (FormattingFacts.score_bounds (Some text))) as H.
  destruct (final_of _ _ _ _ _) as [n| | |]; try discriminate H.
  exists n. split; [reflexivity |].
  unfold within_bounds in H.
  apply andb_prop in H as [H H80]. apply andb_prop in H as [H H85].
  apply andb_prop in H as [Hlo Hhi].
  apply Z.leb_le in Hlo, Hhi.
  split; [lia |]. split.
  - intros Hn. apply Z.leb_le in Hn. rewrite Hn in H85. simpl in H85.
    apply andb_prop in H85 as [Hs Hc]. apply orb_prop in Hc. tauto.
  - intros Hn. apply Z.leb_le in Hn. rewrite Hn in H80. simpl in H80.
    apply orb_prop in H80 as [Hs|Hc]; [tauto |].
    apply andb_prop in Hc. tauto.
Qed.

(** The label the scorer attaches is the label of the total it reports:
    clamping the total to 0..100 never moves it across 50, 70 or 85. *)
Lemma label_matches_total (p : params) :
  label p = label_of (finalScore (calculateConfidence p)).
Proof.
  cbn [finalScore calculateConfidence]. unfold label, label_of.
  pose proof (Math_round_not_nan _ (ConfidenceFacts.rawScore_not_nan p)) as Hn.
  fold (roundedScore p) in Hn.
  destruct (roundedScore p) as [z| | |]; [| reflexivity | reflexivity | contradiction].
  cbn [Math_max Math_min geb].
  repeat match goal with
         | |- context [?a <=? ?b] => destruct (Z.leb_spec a b)
         end; try reflexivity; lia.
Qed.

Lemma value_table :
  forallb (fun v =>
    forallb (fun c =>
      match Math_round (div (mul (of_Z c) (if v : bool then lit_0_50 else lit_0_35))
                            (if v then lit_0_50 else lit_0_35)) with
      | Int z => z =? c
      | _ => false
      end) clamped_values) [true; false] = true.
Proof. vm_compute. reflexivity. Qed.

(** The [value] the breakdown reports for the model confidence is the
    confidence clamped to 0..100: dividing the weighted score by the weight
    and rounding gives it back, for either weight. *)
Lemma breakdown_value_is_clamped_confidence (p : params) :
  exists w c,
    Confidence.get "aiConfidence" (breakdown (calculateConfidence p))
    = Some (Component (Some (Int (Z.min 100 (Z.max 0 (aiConfidence p))))) w c).
Proof.
  assert (H : Math_round (div (aiScore p) (aiWeight p)) = Int (clampedConfidence p)).
  { unfold aiScore, aiWeight.
    pose proof (ConfidenceFacts.forallb_In _ _ _ value_table
                  (bool_In (isVerifiedSource p))) as H1. cbv beta in H1.
    pose proof (ConfidenceFacts.forallb_In _ _ _ H1
                  (ConfidenceFacts.clampedConfidence_In p)) as H2. cbv beta in H2.
    destruct (Math_round _) as [z| | |]; try discriminate H2.
    apply Z.eqb_eq in H2. now subst. }
  eexists _, _. unfold Confidence.get. simpl. rewrite H. reflexivity.
Qed.

End ScoringFacts.

(** ** The calls [askGroq] makes and what it returns *)
Module CallFacts.
Import Num Confidence Tables Eff Tutor.

Lemma Return_inj {A} (a b : A) : Return a = Return b -> a = b.
Proof.
  intros H.
  exact (f_equal (fun o => match o with Return x => x | Throw _ => a end) H).
Qed.

Section AskGroq.
Variable toLowerCase : jsstring -> jsstring.
Variable JSON_parse : jsstring -> option json.
Variable ToString : json -> jsstring.
Variable GROQ_API_KEY GROQ_MODEL_env GROQ_VISION_MODEL : option jsstring.
Variable fetch : jsstring -> option (list N).
Variable base64 : list N -> jsstring.
Variable provider : request -> reply.

Abbreviation askGroq :=
  (Tutor.askGroq toLowerCase JSON_parse ToString GROQ_API_KEY GROQ_MODEL_env
     GROQ_VISION_MODEL fetch base64 provider).

(** The key in use: the caller's when it is not empty, the environment's
    otherwise. *)
Abbreviation activeApiKey userKey := (Str.or_else userKey (Str.or_else GROQ_API_KEY [])).

Lemma build_messages_calls vision contentUrl prompt query s :
  exists msgs pre,
    build_messages fetch base64 vision contentUrl prompt query s = (Return msgs, s ++ pre)
    /\ (pre = []
        \/ exists url, vision = true /\ contentUrl = Some url /\ pre = [ImageGet url]).
Proof.
  unfold build_messages.
  destruct vision, contentUrl as [url|];
    try (eexists _, []; rewrite app_nil_r; split; [reflexivity | left; reflexivity]).
  destruct (fetch url); eexists _, [ImageGet url];
    (split; [reflexivity | right; eauto]).
Qed.

(** What a call that returns has done: it asked the provider once, with
    the caller's key if that is not empty and the environment's otherwise,
    after at most one download of the image, and the explanation it
    returns is the text the provider sent. *)
Lemma askGroq_returns_provider_text
    (query context : jsstring) (visualContext : bool)
    (contentUrl contentType : option jsstring)
    (language userName selectedText : jsstring) (userKey : option jsstring)
    (s : list net_call) (r : response) :
  fst (askGroq query context visualContext contentUrl contentType
         language userName selectedText userKey s) = Return r ->
  exists req pre,
    snd (askGroq query context visualContext contentUrl contentType
           language userName selectedText userKey s)
    = s ++ pre ++ [CompletionPost req]
    /\ (pre = [] \/ exists url, contentUrl = Some url /\ pre = [ImageGet url])
    /\ provider req = Replied (Message (Some (explanation r)))
    /\ authorization req = Str.lit "Bearer " ++ activeApiKey userKey
    /\ activeApiKey userKey <> []
    /\ max_tokens req = 2048 /\ timeout req = 30000.
Proof.
  unfold Tutor.askGroq, try_catch, askGroq_try, bind.
  destruct (Str.or_else userKey _) as [|k ks] eqn:Hk; [discriminate |].
  unfold lift.
  destruct (systemPrompt _ _ _ _ _ _ _ _) as [prompt|e]; [| discriminate].
  destruct (build_messages_calls
              (isVisionMode visualContext contentUrl contentType)
              contentUrl prompt query s) as (msgs & pre & -> & Hpre).
  unfold post.
  match goal with |- context [provider ?q] => set (req := q) end.
  destruct (provider req) as [status|data] eqn:Hreq; [discriminate |].
  unfold respond, throw, ret.
  destruct data as [|[text|]]; try discriminate.
  cbn [fst snd]. intros H.
  pose proof (f_equal (fun o => match o with
                                | Return x => Some (explanation x)
                                | Throw _ => None
                                end) H) as Hex.
  cbv beta iota delta [explanation] in Hex. clear H.
  injection Hex as Hex.
  exists req, pre. rewrite <- app_assoc.
  split; [reflexivity |]. split.
  { destruct Hpre as [->|(url & _ & -> & ->)]; eauto. }
  split; [rewrite Hreq; do 3 f_equal; exact Hex |].
  split; [reflexivity |]. split; [discriminate |]. split; reflexivity.
Qed.

(** Without a key, the caller's own or the environment's, nobody is
    called. *)
Lemma askGroq_without_key_calls_nobody
    (query context : jsstring) (visualContext : bool)
    (contentUrl contentType : option jsstring)
    (language userName selectedText : jsstring) (userKey : option jsstring)
    (s : list net_call) :
  Str.truthy_opt userKey = false -> Str.truthy_opt GROQ_API_KEY = false ->
  askGroq query context visualContext contentUrl contentType
    language userName selectedText userKey s
  = (Throw (Error unavailable), s).
Proof.
  intros Hu He. unfold Tutor.askGroq, try_catch, askGroq_try.
  replace (Str.or_else userKey (Str.or_else GROQ_API_KEY [])) with (@nil N);
    [reflexivity |].
  destruct userKey as [[|c u]|], GROQ_API_KEY as [[|c' k]|];
    try discriminate; reflexivity.
Qed.

(** Every call sequence: nothing, or one completion request, preceded in
    vision mode by one download of the content URL; a completion request
    carries the active key, the vision model exactly in vision mode, and
    the fixed sampling parameters. *)
Lemma askGroq_call_sequence
    (query context : jsstring) (visualContext : bool)
    (contentUrl contentType : option jsstring)
    (language userName selectedText : jsstring) (userKey : option jsstring)
    (s : list net_call) :
  exists calls,
    snd (askGroq query context visualContext contentUrl contentType
           language userName selectedText userKey s) = s ++ calls
    /\ (calls = []
        \/ (exists req, calls = [CompletionPost req])
        \/ (exists url req,
              isVisionMode visualContext contentUrl contentType = true
              /\ contentUrl = Some url
              /\ calls = [ImageGet url; CompletionPost req]))
    /\ forall req, In (CompletionPost req) calls ->
         authorization req = Str.lit "Bearer " ++ activeApiKey userKey
         /\ model req
            = (if isVisionMode visualContext contentUrl contentType
               then Str.or_else GROQ_VISION_MODEL (Str.lit "llama-3.2-11b-vision-preview")
               else Str.or_else GROQ_MODEL_env (Str.lit "llama-3.3-70b-versatile"))
         /\ temperature req = lit_0_6 /\ max_tokens req = 2048.
Proof.
  unfold Tutor.askGroq, try_catch, askGroq_try, bind.
  destruct (Str.or_else userKey _) as [|k ks] eqn:Hk.
  { exists []. rewrite app_nil_r. split; [reflexivity |].
    split; [tauto | intros req []]. }
  unfold lift.
  destruct (systemPrompt _ _ _ _ _ _ _ _) as [prompt|e].
  2:{ exists []. rewrite app_nil_r. split; [reflexivity |].
      split; [tauto | intros req []]. }
  destruct (build_messages_calls
              (isVisionMode visualContext contentUrl contentType)
              contentUrl prompt query s) as (msgs & pre & -> & Hpre).
  unfold post.
  match goal with |- context [provider ?q] => set (req := q) end.
  exists (pre ++ [CompletionPost req]). rewrite app_assoc.
  split.
  { destruct (provider req) as [status|data]; [reflexivity |].
    unfold respond, throw, ret. destruct data as [|[text|]]; reflexivity. }
  split.
  { destruct Hpre as [->|(url & Hv & -> & ->)]; [right; left; eauto |].
    right; right. exists url, req. auto. }
  intros req' Hin. apply in_app_iff in Hin as [Hin|[Hin|[]]].
  { destruct Hpre as [->|(url & _ & _ & ->)]; [destruct Hin |].
    destruct Hin as [Hin|[]]. discriminate Hin. }
  injection Hin as <-. repeat split.
Qed.

(** The confidence of an answer: [askGroq] scores every answer at a model
    confidence of 85 without the verified-source bonus, so the confidence
    it returns lies between 35 and 95; it reaches 85 only when text was
    selected and a context or a visual context came with it, and 80 only
    with selected text or with both a context and a visual context. *)
Lemma askGroq_confidence_bounds
    (query context : jsstring) (visualContext : bool)
    (contentUrl contentType : option jsstring)
    (language userName selectedText : jsstring) (userKey : option jsstring)
    (s : list net_call) (r : response) :
  fst (askGroq query context visualContext contentUrl contentType
         language userName selectedText userKey s) = Return r ->
  exists n,
    confidence r = Int n
    /\ 35 <= n <= 95
    /\ (85 <= n -> Str.truthy selectedText = true
                   /\ (Str.truthy context = true \/ visualContext = true))
    /\ (80 <= n -> Str.truthy selectedText = true
                   \/ (Str.truthy context = true /\ visualContext = true)).
Proof.
  unfold Tutor.askGroq, try_catch, askGroq_try, bind.
  destruct (Str.or_else userKey _) as [|k ks]; [discriminate |].
  destruct (lift _ s) as [[prompt|e] s1]; [| discriminate].
  destruct (build_messages _ _ _ _ _ _ s1) as [[messages|e] s2]; [| discriminate].
  destruct (post _ _ s2) as [[data|e] s3]; [| discriminate].
  unfold respond, throw, ret.
  destruct data as [|[text|]]; try discriminate.
  cbn [fst]. intros H. apply Return_inj in H. subst r.
  exact (ScoringFacts.scored_text_bounds context selectedText visualContext
           (isVisionMode visualContext contentUrl contentType) contentType text).
Qed.

(** An image that cannot be downloaded does not fail the call: the question
    is sent as the system and user text messages, still to the vision
    model, and the answer is still attributed to it. *)
Lemma askGroq_image_failure_falls_back
    (query context : jsstring) (visualContext : bool)
    (url : jsstring) (contentType : option jsstring)
    (language userName selectedText : jsstring) (userKey : option jsstring)
    (s : list net_call) (prompt : jsstring) :
  isVisionMode visualContext (Some url) contentType = true ->
  fetch url = None ->
  activeApiKey userKey <> [] ->
  systemPrompt toLowerCase JSON_parse ToString query context language userName selectedText
  = Return prompt ->
  let req := {| model := Str.or_else GROQ_VISION_MODEL
                           (Str.lit "llama-3.2-11b-vision-preview");
                messages := text_messages prompt query;
                temperature := lit_0_6;
                max_tokens := 2048;
                authorization := Str.lit "Bearer " ++ activeApiKey userKey;
                timeout := 30000 |} in
  snd (askGroq query context visualContext (Some url) contentType
         language userName selectedText userKey s)
  = s ++ [ImageGet url; CompletionPost req]
  /\ forall text,
       provider req = Replied (Message (Some text)) ->
       exists r,
         fst (askGroq query context visualContext (Some url) contentType
                language userName selectedText userKey s) = Return r
         /\ explanation r = text /\ source r = groq_vision.
Proof.
  intros Hv Hfetch Hkey Hprompt. cbv zeta.
  unfold Tutor.askGroq, try_catch, askGroq_try, bind.
  destruct (Str.or_else userKey _) as [|k ks]; [contradiction |].
  unfold lift. rewrite Hprompt, Hv.
  unfold build_messages. rewrite Hfetch.
  unfold post.
  match goal with |- context [provider ?q] => set (req := q) end.
  rewrite <- app_assoc. cbn [app].
  split.
  - destruct (provider req) as [status|data]; [reflexivity |].
    unfold respond, throw, ret. destruct data as [|[text|]]; reflexivity.
  - intros text ->. unfold respond, ret. cbn [fst].
    eexists. split; [reflexivity |]. split; reflexivity.
Qed.

(** With a region-grounded context the language and the user name play no
    part: the call made and the outcome are the same for any two of
    them. *)
Lemma region_mode_ignores_language
    (query context : jsstring) (visualContext : bool)
    (contentUrl contentType : option jsstring)
    (language userName language' userName' selectedText : jsstring)
    (userKey : option jsstring) (s : list net_call) :
  Str.startsWith context sentinel = true ->
  askGroq query context visualContext contentUrl contentType
    language userName selectedText userKey s
  = askGroq query context visualContext contentUrl contentType
      language' userName' selectedText userKey s.
Proof.
  intros Hs. unfold Tutor.askGroq, askGroq_try.
  assert (Hp : systemPrompt toLowerCase JSON_parse ToString
                 query context language userName selectedText
               = systemPrompt toLowerCase JSON_parse ToString
                   query context language' userName' selectedText).
  { unfold systemPrompt, isStrictRegion. now rewrite Hs. }
  now rewrite Hp.
Qed.

(** In the adaptive mode the prompt quotes the selected text when there is
    one, and then nothing of the context reaches the provider: with
    selected text, two contexts that are not region-grounded lead to the
    same prompt. *)
Lemma selected_text_replaces_context
    (query context context' language userName selectedText : jsstring) :
  Str.truthy selectedText = true ->
  Str.startsWith context sentinel = false ->
  Str.startsWith context' sentinel = false ->
  systemPrompt toLowerCase JSON_parse ToString
    query context language userName selectedText
  = systemPrompt toLowerCase JSON_parse ToString
      query context' language userName selectedText.
Proof.
  intros Hsel Hc Hc'. unfold systemPrompt, isStrictRegion. rewrite Hc, Hc'.
  destruct selectedText as [|c sel]; [discriminate Hsel | reflexivity].
Qed.

(** A region-grounded context whose payload parses to [null] (the JSON
    text [null]) fails the call before anybody is contacted: the grounding
    object is replaced by [null] and reading its first field throws. *)
Lemma null_grounding_fails_the_call
    (query context : jsstring) (visualContext : bool)
    (contentUrl contentType : option jsstring)
    (language userName selectedText : jsstring) (userKey : option jsstring)
    (s : list net_call) :
  Str.startsWith context sentinel = true ->
  JSON_parse (Str.replace context (Str.lit "STRICT_REGION_CONTEXT: ") []) = Some JNull ->
  askGroq query context visualContext contentUrl contentType
    language userName selectedText userKey s
  = (Throw (Error unavailable), s).
Proof.
  intros Hs Hp. unfold Tutor.askGroq, try_catch, askGroq_try, bind.
  destruct (Str.or_else userKey _) as [|k ks]; [reflexivity |].
  assert (Hprompt : systemPrompt toLowerCase JSON_parse ToString
                      query context language userName selectedText = Throw TypeError).
  { unfold systemPrompt, isStrictRegion, parse_grounding. now rewrite Hs, Hp. }
  unfold lift. now rewrite Hprompt.
Qed.

End AskGroq.

(** *** At sample inputs *)
Import Samples MoreSamples.

Lemma askGroq_returns_provider_text_witness :
  exists r,
    ask (Some (Str.lit "gsk_user")) (Some (Str.lit "gsk_env"))
        (provider_text (Str.lit "TCP is a protocol.")) = Return r
    /\ exists req pre,
         snd (Tutor.askGroq lower_ascii parse_nothing no_text (Some (Str.lit "gsk_env"))
                None None no_image no_base64 (provider_text (Str.lit "TCP is a protocol."))
                (Str.lit "What is TCP?") [] false None None
                (Str.lit "english") (Str.lit "Student") [] (Some (Str.lit "gsk_user")) [])
         = [] ++ pre ++ [CompletionPost req]
         /\ (pre = [] \/ exists url, None = Some url /\ pre = [ImageGet url])
         /\ provider_text (Str.lit "TCP is a protocol.") req
            = Replied (Message (Some (explanation r)))
         /\ authorization req
            = Str.lit "Bearer "
              ++ Str.or_else (Some (Str.lit "gsk_user"))
                   (Str.or_else (Some (Str.lit "gsk_env")) [])
         /\ Str.or_else (Some (Str.lit "gsk_user"))
              (Str.or_else (Some (Str.lit "gsk_env")) []) <> []
         /\ max_tokens req = 2048 /\ timeout req = 30000.
Proof.
  eexists. split.
  - vm_compute. reflexivity.
  - apply (askGroq_returns_provider_text lower_ascii parse_nothing no_text
             (Some (Str.lit "gsk_env")) None None no_image no_base64
             (provider_text (Str.lit "TCP is a protocol."))
             (Str.lit "What is TCP?") [] false None None
             (Str.lit "english") (Str.lit "Student") [] (Some (Str.lit "gsk_user")) []).
    vm_compute. reflexivity.
Defined.

Lemma askGroq_without_key_calls_nobody_witness :
  Tutor.askGroq lower_ascii parse_nothing no_text (Some []) None None
    no_image no_base64 (provider_text (Str.lit "TCP is a protocol."))
    (Str.lit "What is TCP?") [] false None None
    (Str.lit "english") (Str.lit "Student") [] None []
  = (Throw (Error unavailable), []).
Proof.
  apply (askGroq_without_key_calls_nobody lower_ascii parse_nothing no_text
           (Some []) None None no_image no_base64
           (provider_text (Str.lit "TCP is a protocol."))); reflexivity.
Defined.

Lemma askGroq_confidence_bounds_witness :
  exists r,
    ask (Some (Str.lit "gsk_live")) None (provider_text (Str.lit "TCP is a protocol."))
    = Return r
    /\ exists n,
         confidence r = Int n
         /\ 35 <= n <= 95
         /\ (85 <= n -> Str.truthy [] = true /\ (Str.truthy [] = true \/ false = true))
         /\ (80 <= n -> Str.truthy [] = true \/ (Str.truthy [] = true /\ false = true)).
Proof.
  eexists. split.
  - vm_compute. reflexivity.
  - apply (askGroq_confidence_bounds lower_ascii parse_nothing no_text None None None
             no_image no_base64 (provider_text (Str.lit "TCP is a protocol."))
             (Str.lit "What is TCP?") [] false None None
             (Str.lit "english") (Str.lit "Student") [] (Some (Str.lit "gsk_live")) []).
    vm_compute. reflexivity.
Defined.

Lemma askGroq_image_failure_falls_back_witness :
  let prompt :=
    adaptive_prompt (languageInstruction lower_ascii (Str.lit "english") (Str.lit "Student"))
      (Str.lit "Student") (Str.lit "General curriculum") in
  let req := {| model := Str.lit "llama-3.2-11b-vision-preview";
                messages := text_messages prompt (Str.lit "What is shown here?");
                temperature := lit_0_6;
                max_tokens := 2048;
                authorization := Str.lit "Bearer gsk_live";
                timeout := 30000 |} in
  snd (ask_about_picture (provider_text (Str.lit "A router.")))
  = [ImageGet picture_url; CompletionPost req]
  /\ forall text,
       provider_text (Str.lit "A router.") req = Replied (Message (Some text)) ->
       exists r,
         fst (ask_about_picture (provider_text (Str.lit "A router."))) = Return r
         /\ explanation r = text /\ source r = groq_vision.
Proof.
  apply (askGroq_image_failure_falls_back lower_ascii parse_nothing no_text None None None
           no_image no_base64 (provider_text (Str.lit "A router."))
           (Str.lit "What is shown here?") [] true picture_url (Some (Str.lit "image"))
           (Str.lit "english") (Str.lit "Student") [] (Some (Str.lit "gsk_live")) []
           (adaptive_prompt
              (languageInstruction lower_ascii (Str.lit "english") (Str.lit "Student"))
              (Str.lit "Student") (Str.lit "General curriculum"))).
  - vm_compute. reflexivity.
  - reflexivity.
  - vm_compute. discriminate.
  - reflexivity.
Defined.

Lemma region_mode_ignores_language_witness :
  Str.startsWith broken_region_context sentinel = true
  /\ Tutor.askGroq lower_ascii parse_nothing no_text None None None
       no_image no_base64 (provider_text (Str.lit "A router."))
       (Str.lit "What is shown here?") broken_region_context false None None
       (Str.lit "hindi") (Str.lit "Asha") [] (Some (Str.lit "gsk_live")) []
     = Tutor.askGroq lower_ascii parse_nothing no_text None None None
         no_image no_base64 (provider_text (Str.lit "A router."))
         (Str.lit "What is shown here?") broken_region_context false None None
         (Str.lit "english") (Str.lit "Student") [] (Some (Str.lit "gsk_live")) [].
Proof.
  split; [reflexivity |].
  apply (region_mode_ignores_language lower_ascii parse_nothing no_text None None None
           no_image no_base64 (provider_text (Str.lit "A router."))).
  reflexivity.
Defined.

Lemma selected_text_replaces_context_witness :
  Tutor.systemPrompt lower_ascii parse_nothing no_text
    (Str.lit "What is TCP?") (Str.lit "Lecture 3: transport layer")
    (Str.lit "english") (Str.lit "Student") (Str.lit "three-way handshake")
  = Tutor.systemPrompt lower_ascii parse_nothing no_text
      (Str.lit "What is TCP?") [] (Str.lit "english") (Str.lit "Student")
      (Str.lit "three-way handshake").
Proof.
  apply (selected_text_replaces_context lower_ascii parse_nothing no_text
           (Str.lit "What is TCP?") (Str.lit "Lecture 3: transport layer") []
           (Str.lit "english") (Str.lit "Student") (Str.lit "three-way handshake"));
    reflexivity.
Defined.

Lemma null_grounding_fails_the_call_witness :
  Tutor.askGroq lower_ascii parse_null no_text None None None
    no_image no_base64 (provider_text (Str.lit "A router."))
    (Str.lit "What is shown here?") null_region_context false None None
    (Str.lit "english") (Str.lit "Student") [] (Some (Str.lit "gsk_live")) []
  = (Throw (Error unavailable), []).
Proof.
  apply (null_grounding_fails_the_call lower_ascii parse_null no_text None None None
           no_image no_base64 (provider_text (Str.lit "A router."))); reflexivity.
Defined.

End CallFacts.

(** ** The two caches: what a lookup can return and what a save changes *)
Module CacheFacts.
Import Num Eff Store Service Views.

Lemma in_take_1 {A} (x : A) (l : list A) : In x (take 1 l) -> In x l.
Proof. destruct l as [|y l]; simpl; [tauto |]. intros [->|[]]. now left. Qed.

Section Operations.
Variable toLowerCase : jsstring -> jsstring.
Variable embeddings : jsstring -> option embedding_response.
Variable store_raises : cypher -> bool.
Variable queryNodes : gmap jsstring question -> nat -> vector -> list (jsstring * number).
Variable now : nat.

Abbreviation searchKey := (Service.searchKey toLowerCase).
Abbreviation searchExistingDoubts := (Service.searchExistingDoubts toLowerCase store_raises).
Abbreviation saveDoubtToGraph := (Service.saveDoubtToGraph toLowerCase store_raises now).
Abbreviation searchKnowledgeGraph :=
  (Service.searchKnowledgeGraph embeddings store_raises queryNodes).
Abbreviation saveToKnowledgeGraph :=
  (Service.saveToKnowledgeGraph embeddings store_raises).
Abbreviation runNeo4jQuery := (Service.runNeo4jQuery store_raises).
Abbreviation lookup := (Views.lookup toLowerCase store_raises).
Abbreviation semantic := (Views.semantic embeddings store_raises queryNodes).
Abbreviation after_doubt := (Views.after_doubt toLowerCase store_raises now).

(** *** The operations as functions of the store *)

Lemma run_reading {R} (c : call) (t : cypher) (f : graph -> R) (w : world) :
  parses t = true ->
  runNeo4jQuery c t (reading f) w
  = (if store_raises t then Throw StoreFailed else Return (f (db w)), log c w).
Proof.
  intros Ht. unfold Service.runNeo4jQuery, reading. rewrite Ht.
  destruct (store_raises t); reflexivity.
Qed.

Lemma run_writing (c : call) (t : cypher) (f : graph -> graph) (w : world) :
  parses t = true ->
  runNeo4jQuery c t (writing f) w
  = if store_raises t then (Throw StoreFailed, log c w)
    else (Return tt, {| db := f (db w); trace := trace w ++ [c] |}).
Proof.
  intros Ht. unfold Service.runNeo4jQuery, writing. rewrite Ht.
  destruct (store_raises t); reflexivity.
Qed.

(** A statement the parser refuses is rejected, whatever the store holds. *)
Lemma run_refused {R} (c : call) (t : cypher) (exec : graph -> R * graph) (w : world) :
  parses t = false ->
  runNeo4jQuery c t exec w = (Throw StoreFailed, log c w).
Proof. intros Ht. unfold Service.runNeo4jQuery. now rewrite Ht. Qed.

Lemma getEmbedding_spec (text : jsstring) (w : world) :
  getEmbedding embeddings text w
  = (Return (embedding_of embeddings text), log (EmbeddingCall text) w).
Proof. unfold getEmbedding, embedding_of. destruct (embeddings text); reflexivity. Qed.

Lemma searchExistingDoubts_lookup (query context : jsstring)
    (contentId : option jsstring) (w : world) :
  fst (searchExistingDoubts query context contentId w)
  = Return (lookup query context contentId (db w))
  /\ db (snd (searchExistingDoubts query context contentId w)) = db w.
Proof.
  unfold Service.searchExistingDoubts, Views.lookup, try_catch, bind.
  set (k := searchKey query context).
  assert (Hglobal : forall w0, db w0 = db w ->
    let m := match runNeo4jQuery (DoubtGlobal {| dg_searchKey := k |}) DOUBT_GLOBAL
                     (reading (exec_doubt_global {| dg_searchKey := k |})) w0 with
             | (Return records, s') =>
                 match records with
                 | r :: _ => ret (Some {| answer := r_answer r;
                                          confidence := r_confidence r;
                                          source := graph_db |})
                 | [] => ret None
                 end s'
             | (Throw e, s') => (Throw e, s')
             end in
    let out := match m with
               | (Return a, s') => (Return a, s')
               | (Throw _, s') => ret None s'
               end in
    fst out = Return (if store_raises DOUBT_GLOBAL then None
                      else hit_of graph_db (exec_doubt_global {| dg_searchKey := k |} (db w)))
    /\ db (snd out) = db w).
  { intros w0 Hdb. cbv zeta. rewrite run_reading, Hdb by reflexivity.
    destruct (store_raises DOUBT_GLOBAL); [split; [reflexivity | exact Hdb] |].
    destruct (exec_doubt_global _ (db w)); split; first [reflexivity | exact Hdb]. }
  destruct contentId as [[|c cs]|]; try (apply (Hglobal w eq_refl)).
  rewrite run_reading by reflexivity.
  destruct (store_raises DOUBT_BY_CONTENT); [split; reflexivity |].
  destruct (exec_doubt_by_content _ (db w)) as [|r rows]; [| split; reflexivity].
  apply (Hglobal (log _ w) eq_refl).
Qed.

Lemma searchKnowledgeGraph_semantic (query : jsstring) (courseId : option jsstring)
    (w : world) :
  fst (searchKnowledgeGraph query courseId w) = Return (semantic query courseId (db w))
  /\ db (snd (searchKnowledgeGraph query courseId w)) = db w.
Proof.
  unfold Service.searchKnowledgeGraph, Views.semantic, try_catch, bind.
  rewrite getEmbedding_spec.
  destruct (embedding_of embeddings query) as [e|]; [| split; reflexivity].
  rewrite run_reading by reflexivity. cbn [db log].
  destruct (store_raises VECTOR_SEARCH); [split; reflexivity |].
  destruct (exec_vector_search _ _ _); split; reflexivity.
Qed.

Lemma saveDoubtToGraph_after (query answer : jsstring) (confidence : Z)
    (context : jsstring) (contentId : option jsstring) (w : world) :
  db (snd (saveDoubtToGraph query answer confidence context contentId w))
  = after_doubt query answer confidence context contentId (db w).
Proof.
  unfold Service.saveDoubtToGraph, Views.after_doubt, try_catch.
  rewrite run_writing by reflexivity. destruct (store_raises DOUBT_UPSERT); reflexivity.
Qed.

Lemma saveToKnowledgeGraph_after (params : save_params) (w : world) :
  db (snd (saveToKnowledgeGraph params w)) = db w.
Proof.
  unfold Service.saveToKnowledgeGraph, try_catch, bind.
  destruct (sp_confidence params <? 85); [reflexivity |].
  rewrite getEmbedding_spec.
  destruct (embedding_of embeddings (sp_query params)) as [e|]; [| reflexivity].
  rewrite run_refused by reflexivity. reflexivity.
Qed.

(** *** What a lookup can return *)

Lemma row_of_stored_doubt (P : doubt -> bool) (g : graph) (src : doubt_source)
    (hit : doubt_hit) :
  hit_of src (take 1 (doubt_row_of <$> List.filter P (doubts g))) = Some hit ->
  exists d, In d (doubts g) /\ P d = true
            /\ answer hit = d_answer d /\ confidence hit = d_confidence d
            /\ source hit = src.
Proof.
  destruct (ServiceFacts.first_row P doubt_row_of (doubts g))
    as [[-> _]|(d & Hd & HP & ->)]; [discriminate |].
  cbn. intros [= <-]. exists d. auto.
Qed.

(** A hit of the exact-match lookup is the answer and confidence of a
    stored Doubt that carries the lookup key and has a confidence of 80 or
    more; a hit attributed to the content knowledge base comes from a Doubt
    related to the Content node of the identifier passed. *)
Lemma cached_answer_is_stored (query context : jsstring)
    (contentId : option jsstring) (w : world) (hit : doubt_hit) :
  fst (searchExistingDoubts query context contentId w) = Return (Some hit) ->
  exists d,
    In d (doubts (db w))
    /\ Store.queryKey d = searchKey query context
    /\ answer hit = d_answer d /\ confidence hit = d_confidence d
    /\ 80 <= confidence hit
    /\ (source hit = content_knowledge_base ->
        exists c, contentId = Some c /\ Str.truthy c = true
                  /\ c ∈ contents (db w) /\ c ∈ relatesTo d).
Proof using Type.
  rewrite (proj1 (searchExistingDoubts_lookup query context contentId w)).
  intros [= H]. unfold Views.lookup in H.
  set (k := searchKey query context) in *.
  assert (Hglobal :
    (if store_raises DOUBT_GLOBAL then None
     else hit_of graph_db (exec_doubt_global {| dg_searchKey := k |} (db w))) = Some hit ->
    exists d,
      In d (doubts (db w)) /\ Store.queryKey d = k
      /\ answer hit = d_answer d /\ confidence hit = d_confidence d
      /\ 80 <= confidence hit
      /\ (source hit = content_knowledge_base ->
          exists c, contentId = Some c /\ Str.truthy c = true
                    /\ c ∈ contents (db w) /\ c ∈ relatesTo d)).
  { destruct (store_raises DOUBT_GLOBAL); [discriminate |].
    unfold exec_doubt_global. intros Hh.
    apply row_of_stored_doubt in Hh as (d & Hd & HP & Ha & Hc & Hs).
    cbn [dg_searchKey] in HP. apply andb_prop in HP as [Hk H80].
    apply bool_decide_eq_true in Hk. apply Z.leb_le in H80.
    exists d. repeat split; auto; [lia |].
    intros Hsrc. congruence. }
  destruct contentId as [[|c cs]|]; try (apply Hglobal; exact H).
  destruct (store_raises DOUBT_BY_CONTENT); [discriminate |].
  destruct (hit_of content_knowledge_base _) as [h|] eqn:Hh.
  - injection H as ->. unfold exec_doubt_by_content in Hh.
    apply row_of_stored_doubt in Hh as (d & Hd & HP & Ha & Hc & Hs).
    cbn [dc_contentId dc_searchKey] in HP.
    apply andb_prop in HP as [HP H80]. apply andb_prop in HP as [HP Hk].
    apply andb_prop in HP as [Hcont Hrel].
    apply bool_decide_eq_true in Hk, Hcont, Hrel. apply Z.leb_le in H80.
    exists d. repeat split; auto; [lia |].
    intros _. exists (c :: cs). auto.
  - destruct (Hglobal H) as (d & Hd & Hk & Ha & Hc & H80 & Hsrc).
    exists d. repeat split; auto.
Qed.

(** *** Lookups do not change the store *)

(** Neither lookup writes: whether it hits, misses or fails, the graph is
    the one it started from. *)
Lemma lookups_leave_the_graph (query context : jsstring)
    (contentId courseId : option jsstring) (w : world) :
  db (snd (searchExistingDoubts query context contentId w)) = db w
  /\ db (snd (searchKnowledgeGraph query courseId w)) = db w.
Proof.
  split; [apply searchExistingDoubts_lookup | apply searchKnowledgeGraph_semantic].
Qed.

(** *** The two caches do not see each other *)

Lemma lookup_ext (query context : jsstring) (contentId : option jsstring) (g g' : graph) :
  doubts g' = doubts g -> contents g' = contents g ->
  lookup query context contentId g' = lookup query context contentId g.
Proof.
  intros Hd Hc. unfold Views.lookup, exec_doubt_by_content, exec_doubt_global.
  now rewrite Hd, Hc.
Qed.

Lemma semantic_ext (query : jsstring) (courseId : option jsstring) (g g' : graph) :
  questions g' = questions g -> answers g' = answers g -> ANSWERS g' = ANSWERS g ->
  semantic query courseId g' = semantic query courseId g.
Proof.
  intros Hq Ha He. unfold Views.semantic, exec_vector_search.
  now rewrite Hq, Ha, He.
Qed.

Lemma after_doubt_rest (query answer : jsstring) (confidence : Z)
    (context : jsstring) (contentId : option jsstring) (g : graph) :
  let g' := after_doubt query answer confidence context contentId g in
  questions g' = questions g /\ answers g' = answers g /\ concepts g' = concepts g
  /\ courses g' = courses g /\ contents g' = contents g /\ ANSWERS g' = ANSWERS g
  /\ RELATES_TO_course g' = RELATES_TO_course g
  /\ GENERATED_FROM_RESOURCE g' = GENERATED_FROM_RESOURCE g
  /\ RELATES_TO_concept g' = RELATES_TO_concept g /\ PART_OF g' = PART_OF g.
Proof.
  cbv zeta. unfold Views.after_doubt, exec_doubt_upsert.
  destruct (store_raises DOUBT_UPSERT); [repeat split |].
  destruct (existsb _ _); repeat split.
Qed.

(** A resolution written by [saveToKnowledgeGraph] is never served by
    [searchExistingDoubts], and a Doubt written by [saveDoubtToGraph] is
    never served by [searchKnowledgeGraph]: each lookup answers after the
    other cache's save exactly as it did before. *)
Lemma caches_are_independent (params : save_params)
    (query context answer : jsstring) (confidence : Z)
    (contentId courseId : option jsstring)
    (query' context' : jsstring) (contentId' : option jsstring) (w : world) :
  fst (searchExistingDoubts query' context' contentId'
         (snd (saveToKnowledgeGraph params w)))
  = fst (searchExistingDoubts query' context' contentId' w)
  /\ fst (searchKnowledgeGraph query' courseId
            (snd (saveDoubtToGraph query answer confidence context contentId w)))
     = fst (searchKnowledgeGraph query' courseId w).
Proof.
  split.
  - rewrite !(proj1 (searchExistingDoubts_lookup _ _ _ _)), saveToKnowledgeGraph_after.
    reflexivity.
  - rewrite !(proj1 (searchKnowledgeGraph_semantic _ _ _)), saveDoubtToGraph_after.
    f_equal. apply semantic_ext; apply after_doubt_rest.
Qed.

(** *** What a save does to later lookups *)

(** A save with a confidence below 80 that the store accepts leaves the
    key without an answer to serve, also when a confident answer was cached
    under it before. *)
Lemma low_confidence_save_evicts (query answer : jsstring) (confidence : Z)
    (context : jsstring) (contentId contentId' : option jsstring) (w : world) :
  store_raises DOUBT_UPSERT = false -> confidence < 80 ->
  fst (searchExistingDoubts query context contentId'
         (snd (saveDoubtToGraph query answer confidence context contentId w)))
  = Return None.
Proof.
  intros Hup Hlow.
  rewrite (proj1 (searchExistingDoubts_lookup _ _ _ _)), saveDoubtToGraph_after.
  unfold Views.after_doubt. rewrite Hup.
  change (Service.queryKey toLowerCase query context) with (searchKey query context).
  set (k := searchKey query context).
  set (p := {| du_queryKey := k |}).
  assert (Hbelow : forall d, In d (doubts (exec_doubt_upsert now p (db w))) ->
                     Store.queryKey d = k -> d_confidence d < 80).
  { intros d Hd Hk.
    destruct (ServiceFacts.upsert_sets_every_match now p (db w) d Hd) as [_ Hc].
    - unfold key_is. now apply bool_decide_eq_true.
    - rewrite Hc. exact Hlow. }
  unfold Views.lookup. fold k.
  rewrite (ServiceFacts.doubt_global_below_threshold k _ Hbelow).
  destruct contentId' as [[|c cs]|]; cbn [hit_of];
    try (destruct (store_raises DOUBT_GLOBAL); reflexivity).
  rewrite (ServiceFacts.doubt_by_content_below_threshold (c :: cs) k _ Hbelow).
  cbn [hit_of].
  destruct (store_raises DOUBT_BY_CONTENT), (store_raises DOUBT_GLOBAL); reflexivity.
Qed.

Lemma filter_fmap_frame {A} (P : A -> bool) (f : A -> A) (l : list A) :
  (forall x, In x l -> f x = x \/ (P x = false /\ P (f x) = false)) ->
  List.filter P (f <$> l) = List.filter P l.
Proof.
  induction l as [|a l IH]; intros H; [reflexivity |].
  cbn [fmap list_fmap List.filter].
  change (list_fmap A A f l) with (f <$> l).
  rewrite IH by (intros x Hx; apply H; now right).
  destruct (H a (or_introl eq_refl)) as [-> | [-> ->]]; reflexivity.
Qed.

Lemma upsert_frame (P : doubt -> bool) (p : doubt_upsert_params) (g : graph) :
  (forall d, Store.queryKey d = du_queryKey p -> P d = false) ->
  List.filter P (doubts (exec_doubt_upsert now p g)) = List.filter P (doubts g).
Proof.
  intros HP. unfold exec_doubt_upsert.
  destruct (existsb _ _); cbn [doubts set_doubts].
  - apply filter_fmap_frame. intros d _. unfold key_is.
    case_bool_decide as Hk; [right | left; reflexivity].
    split; apply HP; [exact Hk | reflexivity].
  - rewrite List.filter_app. cbn [List.filter].
    rewrite HP by reflexivity. apply app_nil_r.
Qed.

(** A save changes the lookup of no other key: a query and context whose
    key differs from the saved one get the answer they got before. *)
Lemma save_keeps_other_keys (query answer : jsstring) (confidence : Z)
    (context : jsstring) (contentId : option jsstring)
    (query' context' : jsstring) (contentId' : option jsstring) (w : world) :
  searchKey query' context' <> searchKey query context ->
  fst (searchExistingDoubts query' context' contentId'
         (snd (saveDoubtToGraph query answer confidence context contentId w)))
  = fst (searchExistingDoubts query' context' contentId' w).
Proof.
  intros Hk.
  rewrite !(proj1 (searchExistingDoubts_lookup _ _ _ _)), saveDoubtToGraph_after.
  f_equal. unfold Views.after_doubt.
  destruct (store_raises DOUBT_UPSERT); [reflexivity |].
  change (Service.queryKey toLowerCase query context) with (searchKey query context).
  set (p := {| du_queryKey := searchKey query context |}).
  assert (Hcont : contents (exec_doubt_upsert now p (db w)) = contents (db w)).
  { unfold exec_doubt_upsert. destruct (existsb _ _); reflexivity. }
  unfold Views.lookup, exec_doubt_by_content, exec_doubt_global.
  cbn [dc_contentId dc_searchKey dg_searchKey].
  rewrite Hcont.
  rewrite (upsert_frame
             (fun d => key_is (searchKey query' context') d && (80 <=? d_confidence d)) p).
  2:{ intros d Hd. unfold key_is. rewrite bool_decide_eq_false_2; [reflexivity |].
      rewrite Hd. cbn [du_queryKey p]. congruence. }
  destruct contentId' as [[|c cs]|]; try reflexivity.
  rewrite (upsert_frame
             (fun d => bool_decide (c :: cs ∈ contents (db w))
                       && bool_decide (c :: cs ∈ relatesTo d)
                       && key_is (searchKey query' context') d
                       && (80 <=? d_confidence d)) p).
  2:{ intros d Hd. unfold key_is.
      rewrite (bool_decide_eq_false_2 (Store.queryKey d = searchKey query' context')).
      - now rewrite andb_false_r.
      - rewrite Hd. cbn [du_queryKey p]. congruence. }
  reflexivity.
Qed.

(** *** Invariants of the writers *)

Lemma upsert_keys (p : doubt_upsert_params) (g : graph) :
  Store.queryKey <$> doubts (exec_doubt_upsert now p g)
  = (Store.queryKey <$> doubts g)
    ++ (if existsb (key_is (du_queryKey p)) (doubts g) then [] else [du_queryKey p]).
Proof.
  unfold exec_doubt_upsert.
  destruct (existsb _ _) eqn:Hex; cbn [doubts set_doubts].
  - rewrite app_nil_r, <- list_fmap_compose. apply list_fmap_ext.
    intros i d _. cbn. unfold key_is. case_bool_decide as Hk; [| reflexivity].
    cbn. now rewrite Hk.
  - now rewrite fmap_app.
Qed.

(** The saves keep the Doubt keys unique: when no two Doubts share a key
    before [saveDoubtToGraph] or [saveToKnowledgeGraph], none do after, and
    [saveDoubtToGraph] adds at most one Doubt. *)
Lemma saves_keep_keys_unique (query answer : jsstring) (confidence : Z)
    (context : jsstring) (contentId : option jsstring)
    (params : save_params) (w : world) :
  NoDup (Store.queryKey <$> doubts (db w)) ->
  NoDup (Store.queryKey
           <$> doubts (db (snd (saveDoubtToGraph query answer confidence
                                  context contentId w))))
  /\ (List.length (doubts (db (snd (saveDoubtToGraph query answer confidence
                                     context contentId w))))
      <= S (List.length (doubts (db w))))%nat
  /\ NoDup (Store.queryKey <$> doubts (db (snd (saveToKnowledgeGraph params w)))).
Proof.
  intros Hnd. rewrite saveDoubtToGraph_after, saveToKnowledgeGraph_after.
  split; [| split; [| exact Hnd]]; unfold Views.after_doubt;
    destruct (store_raises DOUBT_UPSERT); try exact Hnd; try lia.
  - rewrite upsert_keys.
    destruct (existsb _ _) eqn:Hex; [now rewrite app_nil_r |].
    apply NoDup_app. split; [exact Hnd |]. split; [| apply NoDup_singleton].
    intros k Hk Hk'. apply list_elem_of_singleton in Hk' as ->.
    apply list_elem_of_fmap in Hk as (d & Hd & Hin).
    assert (Hf : existsb (key_is (Service.queryKey toLowerCase query context))
                   (doubts (db w)) = true).
    { apply existsb_exists. exists d. split; [now apply list_elem_of_In |].
      unfold key_is. apply bool_decide_eq_true. exact (eq_sym Hd). }
    cbn [du_queryKey] in Hex. congruence.
  - pose proof (f_equal (@List.length _)
                  (upsert_keys {| du_queryKey := Service.queryKey toLowerCase query context;
                                  du_query := Str.trim query;
                                  du_context := Str.trim context;
                                  du_answer := answer; du_confidence := confidence;
                                  du_contentId := contentId |} (db w))) as Hlen.
    rewrite length_app, !length_fmap in Hlen. rewrite Hlen.
    destruct (existsb _ _); simpl; lia.
Qed.

(** *** The knowledge writer's statement *)

(** Of the five statements only the subgraph merge is refused by the
    parser. *)
Lemma only_the_merge_is_refused (t : cypher) :
  parses t = false <-> t = SUBGRAPH_MERGE.
Proof. destruct t; split; intros H; first [reflexivity | discriminate H]. Qed.

(** The knowledge writer never stores anything.  Its statement puts a
    [WHERE] after [UNWIND], which the store's parser refuses, so for every
    call the graph is left as it was and the result is never [true]; with
    a confidence of 85 or more and an embedding in hand the result is
    [false], whether or not the store would raise on a statement it had
    parsed. *)
Lemma knowledge_writer_never_stores (params : save_params) (w : world) :
  db (snd (saveToKnowledgeGraph params w)) = db w
  /\ fst (saveToKnowledgeGraph params w) <> Return (Bool true)
  /\ (85 <= sp_confidence params ->
      forall e,
        embeddings (sp_query params) = Some {| success := true; res_embedding := Some e |} ->
        fst (saveToKnowledgeGraph params w) = Return (Bool false)).
Proof.
  split; [apply saveToKnowledgeGraph_after |].
  unfold Service.saveToKnowledgeGraph, try_catch, bind.
  destruct (sp_confidence params <? 85) eqn:Hc.
  - split; [discriminate |]. intros H. apply Z.ltb_lt in Hc. lia.
  - rewrite getEmbedding_spec. unfold embedding_of.
    destruct (embeddings (sp_query params)) as [[[] [e|]]|];
      cbn [success res_embedding];
      rewrite ?run_refused by reflexivity;
      (split; [discriminate |]); intros _ e' He'; first [discriminate He' | reflexivity].
Qed.

(** *** Failures of the collaborators *)

(** None of the four store-backed operations throws: a failing embedding
    provider or a raising store ends in a returned miss, [null], [false] or
    [undefined]. *)
Lemma store_operations_never_throw (query context answer : jsstring) (confidence : Z)
    (contentId courseId : option jsstring) (params : save_params) (w : world) :
  (exists r, fst (searchKnowledgeGraph query courseId w) = Return r)
  /\ (exists r, fst (searchExistingDoubts query context contentId w) = Return r)
  /\ (exists r, fst (saveToKnowledgeGraph params w) = Return r)
  /\ fst (saveDoubtToGraph query answer confidence context contentId w) = Return tt.
Proof.
  split; [eexists; apply searchKnowledgeGraph_semantic |].
  split; [eexists; apply searchExistingDoubts_lookup |].
  split.
  - unfold Service.saveToKnowledgeGraph, try_catch, bind.
    destruct (sp_confidence params <? 85); [eexists; reflexivity |].
    rewrite getEmbedding_spec.
    destruct (embedding_of embeddings (sp_query params)); [| eexists; reflexivity].
    rewrite run_refused by reflexivity. eexists; reflexivity.
  - unfold Service.saveDoubtToGraph, try_catch. rewrite run_writing by reflexivity.
    destruct (store_raises DOUBT_UPSERT); reflexivity.
Qed.

(** Without an embedding (the provider unreachable, answering without
    success, or without a vector) the semantic lookup misses and the
    knowledge writer resolves to [null], as it does below the threshold;
    each asks the provider once and sends nothing to the store. *)
Lemma without_embedding_nothing_is_stored (params : save_params)
    (query : jsstring) (courseId : option jsstring) (w : world) :
  (forall r, embeddings query = Some r -> success r = false \/ res_embedding r = None) ->
  searchKnowledgeGraph query courseId w = (Return NoMatch, log (EmbeddingCall query) w)
  /\ (sp_query params = query -> 85 <= sp_confidence params ->
      saveToKnowledgeGraph params w = (Return Null, log (EmbeddingCall query) w)).
Proof.
  intros Hno.
  assert (He : embedding_of embeddings query = None).
  { unfold embedding_of. destruct (embeddings query) as [r|]; [| reflexivity].
    destruct (Hno r eq_refl) as [-> | Hr]; [reflexivity |].
    rewrite Hr. now destruct (success r). }
  split.
  - unfold Service.searchKnowledgeGraph, try_catch, bind.
    now rewrite getEmbedding_spec, He.
  - intros Hq Hconf. unfold Service.saveToKnowledgeGraph, try_catch, bind.
    apply Z.ltb_ge in Hconf. rewrite Hconf, Hq, getEmbedding_spec, He. reflexivity.
Qed.

(** *** What the semantic lookup can return *)

Lemma best_In (rows : list match_row) (r : match_row) :
  best rows = Some r -> In r rows.
Proof.
  revert r. induction rows as [|a rows IH]; intros r; [discriminate |].
  cbn [best]. destruct (best rows) as [r'|].
  - destruct (SFltb _ _); intros [= <-]; [right; now apply IH | now left].
  - intros [= <-]. now left.
Qed.

(** A semantic match is a stored Question that the vector index returned
    for the embedding of the query with a score of at least 0.80, together
    with an Answer node that Question is linked to; the confidence is the
    score times 100. *)
Lemma semantic_match_is_stored (query : jsstring) (courseId : option jsstring)
    (w : world) (question answer : jsstring) (confidence : number) :
  fst (searchKnowledgeGraph query courseId w)
  = Return (Match question answer confidence) ->
  exists e score,
    embeddings query = Some {| success := true; res_embedding := Some e |}
    /\ In (question, score) (queryNodes (questions (db w)) 5 e)
    /\ SFleb lit_0_80 score = true
    /\ (question, answer) ∈ ANSWERS (db w)
    /\ answer ∈ dom (answers (db w))
    /\ confidence = mul score (of_Z 100).
Proof.
  rewrite (proj1 (searchKnowledgeGraph_semantic _ _ _)).
  unfold Views.semantic, embedding_of.
  destruct (embeddings query) as [[[] [e|]]|]; try discriminate.
  destruct (store_raises VECTOR_SEARCH); [discriminate |].
  cbn [success res_embedding].
  match goal with
  | |- context [exec_vector_search ?a ?b ?c] =>
      destruct (exec_vector_search a b c) as [r|] eqn:Hr; [| discriminate]
  end.
  intros [= <- <- <-]. unfold exec_vector_search in Hr.
  apply best_In, list_elem_of_In in Hr.
  apply list_elem_of_bind in Hr as ([node score] & Hrow & Hnear).
  apply list_elem_of_bind in Hrow as ([q a] & Hrow & Hedge).
  apply list_elem_of_In, filter_In in Hnear as [Hnear Hscore].
  apply elem_of_elements in Hedge.
  destruct (bool_decide (q = node)) eqn:Hq; [| now apply elem_of_nil in Hrow].
  destruct (bool_decide (a ∈ dom (answers (db w)))) eqn:Ha;
    [| now apply elem_of_nil in Hrow].
  apply bool_decide_eq_true in Hq, Ha. subst q.
  apply list_elem_of_singleton in Hrow as ->.
  exists e, score. cbn [m_question m_answer m_score vs_embedding] in *. auto 10.
Qed.

End Operations.

(** *** At sample inputs *)
Import Samples MoreSamples.

Lemma cached_answer_is_stored_witness :
  let hit := {| answer := Str.lit "A transport protocol."; confidence := 92;
                source := content_knowledge_base |} in
  fst (Service.searchExistingDoubts lower_ascii store_up (Str.lit "What is TCP?") []
         (Some (Str.lit "content-1")) strong_world) = Return (Some hit)
  /\ exists d,
       In d (doubts (db strong_world))
       /\ Store.queryKey d = Service.searchKey lower_ascii (Str.lit "What is TCP?") []
       /\ answer hit = d_answer d /\ confidence hit = d_confidence d
       /\ 80 <= confidence hit
       /\ (source hit = content_knowledge_base ->
           exists c, Some (Str.lit "content-1") = Some c /\ Str.truthy c = true
                     /\ c ∈ contents (db strong_world) /\ c ∈ relatesTo d).
Proof.
  cbv zeta. split; [vm_compute; reflexivity |].
  apply (cached_answer_is_stored lower_ascii store_up (Str.lit "What is TCP?") []
           (Some (Str.lit "content-1")) strong_world).
  vm_compute. reflexivity.
Defined.

Lemma low_confidence_save_evicts_witness :
  fst (Service.searchExistingDoubts lower_ascii store_up (Str.lit "What is TCP?") [] None
         strong_world)
  = Return (Some {| answer := Str.lit "A transport protocol."; confidence := 92;
                    source := graph_db |})
  /\ fst (Service.searchExistingDoubts lower_ascii store_up (Str.lit "What is TCP?") [] None
            (snd (Service.saveDoubtToGraph lower_ascii store_up 7
                    (Str.lit "what is TCP?  ") (Str.lit "Not sure.") 40 [] None
                    strong_world)))
     = Return None.
Proof.
  split; [vm_compute; reflexivity |].
  change (Service.searchExistingDoubts lower_ascii store_up (Str.lit "What is TCP?") [] None)
    with (Service.searchExistingDoubts lower_ascii store_up (Str.lit "what is TCP?  ") [] None).
  apply (low_confidence_save_evicts lower_ascii store_up 7
           (Str.lit "what is TCP?  ") (Str.lit "Not sure.") 40 [] None None strong_world);
    [reflexivity | lia].
Defined.

Lemma save_keeps_other_keys_witness :
  Service.searchKey lower_ascii (Str.lit "What is TCP?") []
  <> Service.searchKey lower_ascii (Str.lit "What is UDP?") []
  /\ fst (Service.searchExistingDoubts lower_ascii store_up (Str.lit "What is TCP?") [] None
            (snd (Service.saveDoubtToGraph lower_ascii store_up 7
                    (Str.lit "What is UDP?") (Str.lit "A datagram protocol.") 90 [] None
                    strong_world)))
     = fst (Service.searchExistingDoubts lower_ascii store_up (Str.lit "What is TCP?") []
              None strong_world).
Proof.
  assert (H : Service.searchKey lower_ascii (Str.lit "What is TCP?") []
              <> Service.searchKey lower_ascii (Str.lit "What is UDP?") [])
    by (vm_compute; discriminate).
  split; [exact H |].
  exact (save_keeps_other_keys lower_ascii store_up 7
           (Str.lit "What is UDP?") (Str.lit "A datagram protocol.") 90 [] None
           (Str.lit "What is TCP?") [] None strong_world H).
Defined.

Lemma saves_keep_keys_unique_witness :
  NoDup (Store.queryKey <$> doubts (db strong_world))
  /\ NoDup (Store.queryKey
              <$> doubts (db (snd (Service.saveDoubtToGraph lower_ascii store_up 7
                                     (Str.lit "What is UDP?") (Str.lit "A datagram protocol.")
                                     90 [] None strong_world))))
  /\ (List.length (doubts (db (snd (Service.saveDoubtToGraph lower_ascii store_up 7
                                      (Str.lit "What is UDP?")
                                      (Str.lit "A datagram protocol.")
                                      90 [] None strong_world))))
      <= S (List.length (doubts (db strong_world))))%nat
  /\ NoDup (Store.queryKey
              <$> doubts (db (snd (Service.saveToKnowledgeGraph embeddings_ok store_up
                                     (resolution 90) strong_world)))).
Proof.
  assert (H : NoDup (Store.queryKey <$> doubts (db strong_world)))
    by (vm_compute; apply NoDup_singleton).
  split; [exact H |].
  exact (saves_keep_keys_unique lower_ascii embeddings_ok store_up 7
           (Str.lit "What is UDP?") (Str.lit "A datagram protocol.") 90 [] None
           (resolution 90) strong_world H).
Defined.

Lemma knowledge_writer_never_stores_witness :
  db (snd (Service.saveToKnowledgeGraph embeddings_ok store_up (resolution 90) course_world))
  = db course_world
  /\ fst (Service.saveToKnowledgeGraph embeddings_ok store_up (resolution 90) course_world)
     <> Return (Bool true)
  /\ fst (Service.saveToKnowledgeGraph embeddings_ok store_up (resolution 90) course_world)
     = Return (Bool false).
Proof.
  destruct (knowledge_writer_never_stores embeddings_ok store_up (resolution 90) course_world)
    as (Hdb & Hnot & Hfalse).
  split; [exact Hdb |]. split; [exact Hnot |].
  apply (Hfalse ltac:(simpl; lia) [of_Z 1]). reflexivity.
Defined.

Lemma without_embedding_nothing_is_stored_witness :
  Service.searchKnowledgeGraph embeddings_down store_up queryNodes_all
    (Str.lit "explain routing tables") None answered_world
  = (Return NoMatch, log (EmbeddingCall (Str.lit "explain routing tables")) answered_world)
  /\ (sp_query (resolution 90) = Str.lit "explain routing tables" ->
      85 <= sp_confidence (resolution 90) ->
      Service.saveToKnowledgeGraph embeddings_down store_up
        (resolution 90) answered_world
      = (Return Null, log (EmbeddingCall (Str.lit "explain routing tables")) answered_world)).
Proof.
  apply (without_embedding_nothing_is_stored embeddings_down store_up
           queryNodes_all (resolution 90) (Str.lit "explain routing tables") None
           answered_world).
  intros r H. vm_compute in H. discriminate H.
Defined.

Lemma semantic_match_is_stored_witness :
  fst (Service.searchKnowledgeGraph embeddings_ok store_up queryNodes_all
         (Str.lit "tcp?") None answered_world)
  = Return (Match (Str.lit "what is tcp") (Str.lit "a transport protocol") (of_Z 100))
  /\ exists e score,
       embeddings_ok (Str.lit "tcp?") = Some {| success := true; res_embedding := Some e |}
       /\ In (Str.lit "what is tcp", score)
             (queryNodes_all (questions (db answered_world)) 5 e)
       /\ SFleb lit_0_80 score = true
       /\ (Str.lit "what is tcp", Str.lit "a transport protocol") ∈ ANSWERS (db answered_world)
       /\ Str.lit "a transport protocol" ∈ dom (answers (db answered_world))
       /\ of_Z 100 = mul score (of_Z 100).
Proof.
  split; [vm_compute; reflexivity |].
  apply (semantic_match_is_stored embeddings_ok store_up queryNodes_all
           (Str.lit "tcp?") None answered_world).
  vm_compute. reflexivity.
Defined.

End CacheFacts.

(** ** Overlapping patterns of the formatting analyser *)
Module AnalyserFacts.
Import Regex Formatting.

(** Where a secondary heading matches, a main heading matches one code unit
    further on: [####] ends in [###]. *)
Lemma subtitle_match_at (prev prev' : option N) (c : N) (s : jsstring) (e : pos) :
  match_at re_subtitle prev (c :: s) = Some e ->
  match_at re_main_title prev' s = Some e.
Proof.
  unfold re_subtitle, re_main_title. cbn [match_at].
  change (Str.lit "####") with (35%N :: Str.lit "###"). cbn [Str.strip].
  destruct (35 =? c)%N; [| discriminate].
  destruct (Str.strip (Str.lit "###") s) as [rest|]; [| discriminate].
  intros H. exact H.
Qed.

Lemma search_found (r : regex) (prev : option N) (c : N) (s : jsstring) (e : pos) :
  search r (Some c) s = Some e -> exists e', search r prev (c :: s) = Some e'.
Proof.
  intros H. cbn [search]. destruct (match_at r prev (c :: s)); eauto.
Qed.

Lemma subtitle_search (s : jsstring) (prev : option N) (e : pos) :
  search re_subtitle prev s = Some e -> exists e', search re_main_title prev s = Some e'.
Proof.
  revert prev e. induction s as [|c s IH]; intros prev e.
  - cbn. discriminate.
  - cbn [search]. destruct (match_at re_subtitle prev (c :: s)) as [e0|] eqn:Hm.
    + intros _. apply (search_found _ _ _ _ e0).
      destruct s as [|c' s']; cbn [search];
        now rewrite (subtitle_match_at prev (Some c) c _ e0 Hm).
    + intros H. destruct (IH _ _ H) as [e' He']. now apply (search_found _ _ _ _ e').
Qed.

Lemma strip_inv (p s rest : jsstring) : Str.strip p s = Some rest -> s = p ++ rest.
Proof.
  revert s. induction p as [|a p IH]; intros s; cbn [Str.strip].
  - destruct s; cbn; intros [= <-]; reflexivity.
  - destruct s as [|b s]; [discriminate |].
    destruct (a =? b)%N eqn:Hab; [| discriminate].
    apply N.eqb_eq in Hab as ->. intros H. now rewrite (IH _ H).
Qed.

(** Where a code fence opens, inline code matches: the first backtick opens
    it, the second is its content and the third closes it. *)
Lemma code_fence_match_at (prev : option N) (s : jsstring) (e : pos) :
  match_at re_code_block prev s = Some e ->
  exists e', match_at re_inline_code prev s = Some e'.
Proof.
  unfold re_code_block. cbn [match_at].
  destruct (Str.strip (Str.lit "```") s) as [rest|] eqn:Hs; [| discriminate].
  intros _. apply strip_inv in Hs as ->.
  eexists. vm_compute. reflexivity.
Qed.

Lemma code_fence_search (s : jsstring) (prev : option N) (e : pos) :
  search re_code_block prev s = Some e ->
  exists e', search re_inline_code prev s = Some e'.
Proof.
  revert prev e. induction s as [|c s IH]; intros prev e.
  - cbn. discriminate.
  - cbn [search]. destruct (match_at re_code_block prev (c :: s)) as [e0|] eqn:Hm.
    + intros _. destruct (code_fence_match_at _ _ _ Hm) as [e' ->]. eauto.
    + intros H. destruct (IH _ _ H) as [e' He']. now apply (search_found _ _ _ _ e').
Qed.

Lemma test_search (r : regex) (s : jsstring) :
  test r s = true <-> exists e, search r None s = Some e.
Proof.
  unfold test. destruct (search r None s) as [e|]; split; eauto; try discriminate.
  intros [e' H]. discriminate H.
Qed.

(** On a text that is not empty, a pattern is counted at least once exactly
    when it is found. *)
Lemma count_positive (r : regex) (c : N) (s : jsstring) :
  (1 <=? count r (c :: s))%nat = test r (c :: s).
Proof.
  unfold count, test. cbn [List.length count_from].
  destruct (search r None (c :: s)) as [[p rest]|]; reflexivity.
Qed.

Lemma points_nonneg (b : bool) (n : Z) : 0 <= n -> 0 <= points b n.
Proof. unfold points. destruct b; lia. Qed.

(** A secondary heading is also counted as a main heading: a text in which
    [####] is found has [hasMainTitle] set as well, and scores 35 at least
    (15 for either flag and 5 for the title count). *)
Lemma subtitle_counts_as_main_title (text : jsstring) :
  details (checkFormattingQuality (Some text)) !! "hasSubtitles"%string = Some (Flag true) ->
  details (checkFormattingQuality (Some text)) !! "hasMainTitle"%string = Some (Flag true)
  /\ 35 <= score (checkFormattingQuality (Some text)).
Proof.
  destruct text as [|c s]; [cbn; rewrite lookup_empty; discriminate |].
  unfold checkFormattingQuality. cbn [details score].
  intros H.
  assert (Hsub : test re_subtitle (c :: s) = true).
  { assert (Hl : Some (Flag (test re_subtitle (c :: s))) = Some (Flag true)) by exact H.
    now injection Hl. }
  assert (Hmain : test re_main_title (c :: s) = true).
  { apply test_search. apply test_search in Hsub as [e He]. now apply (subtitle_search _ _ e). }
  split.
  - change (Some (Flag (test re_main_title (c :: s))) = Some (Flag true)).
    now rewrite Hmain.
  - rewrite count_positive, Hmain, Hsub. unfold points at 1 2 9. 
    repeat match goal with
           | |- context [points ?b ?n] =>
               let H := fresh in
               assert (H : 0 <= points b n) by (apply points_nonneg; lia);
               generalize dependent (points b n); intros
           end.
    lia.
Qed.

(** A code fence is also counted as inline code: a text in which a fenced
    block is found has [hasInlineCode] set as well, and scores 10 at
    least. *)
Lemma code_block_counts_as_inline_code (text : jsstring) :
  details (checkFormattingQuality (Some text)) !! "hasCodeBlocks"%string = Some (Flag true) ->
  details (checkFormattingQuality (Some text)) !! "hasInlineCode"%string = Some (Flag true)
  /\ 10 <= score (checkFormattingQuality (Some text)).
Proof.
  destruct text as [|c s]; [cbn; rewrite lookup_empty; discriminate |].
  unfold checkFormattingQuality. cbn [details score].
  intros H.
  assert (Hcode : test re_code_block (c :: s) = true).
  { assert (Hl : Some (Flag (test re_code_block (c :: s))) = Some (Flag true)) by exact H.
    now injection Hl. }
  assert (Hinline : test re_inline_code (c :: s) = true).
  { apply test_search. apply test_search in Hcode as [e He].
    now apply (code_fence_search _ _ e). }
  split.
  - change (Some (Flag (test re_inline_code (c :: s))) = Some (Flag true)).
    now rewrite Hinline.
  - rewrite Hcode, Hinline. unfold points at 6 7.
    repeat match goal with
           | |- context [points ?b ?n] =>
               let H := fresh in
               assert (H : 0 <= points b n) by (apply points_nonneg; lia);
               generalize dependent (points b n); intros
           end.
    lia.
Qed.

(** *** Text without markup *)

Lemma existsb_impl (P Q : N -> bool) (s : jsstring) :
  (forall c, P c = true -> Q c = true) -> existsb P s = true -> existsb Q s = true.
Proof.
  intros H. induction s as [|c s IH]; cbn; [discriminate |].
  intros Hc. apply orb_prop in Hc as [Hc|Hc]; apply orb_true_intro; auto.
Qed.

Lemma existsb_none (P : N -> bool) (s : jsstring) :
  forallb (fun c => negb (P c)) s = true -> existsb P s = false.
Proof.
  induction s as [|c s IH]; cbn; [reflexivity |].
  intros H. apply andb_prop in H as [Hc Hs]. rewrite (IH Hs).
  now destruct (P c).
Qed.

(** What a search finds was matched somewhere. *)
Lemma search_needs (r : regex) (P : N -> bool) :
  (forall prev s e, match_at r prev s = Some e -> existsb P s = true) ->
  forall s prev e, search r prev s = Some e -> existsb P s = true.
Proof.
  intros Hr. induction s as [|c s IH]; intros prev e; cbn [search].
  - destruct (match_at r prev []) eqn:Hm; [| discriminate]. intros _. now apply (Hr _ _ _ Hm).
  - destruct (match_at r prev (c :: s)) eqn:Hm.
    + intros _. now apply (Hr _ _ _ Hm).
    + intros H. cbn. rewrite (IH _ _ H). apply orb_true_r.
Qed.

(** A match that begins with a literal has the literal's first code unit. *)
Lemma lit_needs (a : N) (l : jsstring) (r : regex) (prev : option N) (s : jsstring) (e : pos) :
  match_at (Lit (a :: l) :: r) prev s = Some e -> existsb (N.eqb a) s = true.
Proof.
  cbn [match_at]. destruct (Str.strip (a :: l) s) as [rest|] eqn:Hs; [| discriminate].
  intros _. apply strip_inv in Hs as ->. cbn. now rewrite N.eqb_refl.
Qed.

(** A greedy repetition hands over to what follows on a suffix of the
    input. *)
Lemma rep_greedy_suffix {A} (p : N -> bool) (k : option N -> jsstring -> option A)
    (s : jsstring) (min : nat) (prev : option N) (r : A) :
  rep_greedy p k min prev s = Some r ->
  exists prev' s', k prev' s' = Some r
                   /\ forall Q, existsb Q s' = true -> existsb Q s = true.
Proof.
  revert min prev. induction s as [|c s IH]; intros min prev; cbn [rep_greedy].
  - destruct min; [| discriminate]. intros H. exists prev, []. auto.
  - assert (Hstop : match min with O => k prev (c :: s) | S _ => None end = Some r ->
                    exists prev' s', k prev' s' = Some r
                      /\ forall Q, existsb Q s' = true -> existsb Q (c :: s) = true).
    { destruct min; [| discriminate]. intros H. exists prev, (c :: s). auto. }
    destruct (p c); [| exact Hstop].
    destruct (rep_greedy p k (Nat.pred min) (Some c) s) as [r'|] eqn:Hrec; [| exact Hstop].
    intros [= ->]. destruct (IH _ _ Hrec) as (prev' & s' & Hk & Hsuf).
    exists prev', s'. split; [exact Hk |].
    intros Q HQ. cbn. rewrite (Hsuf Q HQ). apply orb_true_r.
Qed.

(** A repetition of at least one starts with a code unit of the class. *)
Lemma rep_greedy_first {A} (p : N -> bool) (k : option N -> jsstring -> option A)
    (s : jsstring) (min : nat) (prev : option N) (r : A) :
  rep_greedy p k (S min) prev s = Some r -> existsb p s = true.
Proof.
  destruct s as [|c s]; cbn [rep_greedy]; [discriminate |].
  destruct (p c) eqn:Hc; [| discriminate]. intros _. cbn. now rewrite Hc.
Qed.

Lemma bol_needs (r : regex) (P : N -> bool) (prev : option N) (s : jsstring) (e : pos) :
  (forall prev s e, match_at r prev s = Some e -> existsb P s = true) ->
  match_at (Bol :: r) prev s = Some e -> existsb P s = true.
Proof.
  intros Hr. cbn [match_at]. destruct prev as [c|].
  - destruct (Str.is_line_terminator c); [apply Hr | discriminate].
  - apply Hr.
Qed.

Lemma bullet_needs (prev : option N) (s : jsstring) (e : pos) :
  match_at re_bullet prev s = Some e -> existsb dash_or_star s = true.
Proof.
  unfold re_bullet. apply bol_needs. clear. intros prev s e. cbn [match_at].
  intros H. apply rep_greedy_suffix in H as (prev' & s' & Hk & Hsuf).
  apply Hsuf. destruct s' as [|c s']; [discriminate |].
  destruct (dash_or_star c) eqn:Hc; [| discriminate]. cbn. now rewrite Hc.
Qed.

Lemma numbered_needs (prev : option N) (s : jsstring) (e : pos) :
  match_at re_numbered prev s = Some e -> existsb digit s = true.
Proof.
  unfold re_numbered. apply bol_needs. clear. intros prev s e. cbn [match_at].
  apply rep_greedy_first.
Qed.

Lemma test_needs (r : regex) (P : N -> bool) (s : jsstring) :
  (forall prev s e, match_at r prev s = Some e -> existsb P s = true) ->
  (forall c, P c = true -> Markup.is_markup c = true) ->
  forallb (fun c => negb (Markup.is_markup c)) s = true ->
  search r None s = None.
Proof.
  intros Hr HP Hplain. destruct (search r None s) as [e|] eqn:Hs; [| reflexivity].
  apply (search_needs r P Hr) in Hs. apply (existsb_impl _ _ _ HP) in Hs.
  rewrite (existsb_none _ _ Hplain) in Hs. discriminate Hs.
Qed.

Lemma eqb_markup (a : N) :
  Markup.is_markup a = true -> forall c, (a =? c)%N = true -> Markup.is_markup c = true.
Proof. intros Ha c Hc. apply N.eqb_eq in Hc. now subst. Qed.

Lemma plain_searches (s : jsstring) :
  forallb (fun c => negb (Markup.is_markup c)) s = true ->
  search re_main_title None s = None /\ search re_subtitle None s = None
  /\ search re_bullet None s = None /\ search re_numbered None s = None
  /\ search re_bold None s = None /\ search re_code_block None s = None
  /\ search re_inline_code None s = None /\ search re_formula None s = None.
Proof.
  intros Hplain.
  repeat split.
  - apply (test_needs _ (N.eqb 35)); [apply lit_needs | now apply eqb_markup | exact Hplain].
  - apply (test_needs _ (N.eqb 35)); [apply lit_needs | now apply eqb_markup | exact Hplain].
  - apply (test_needs _ dash_or_star); [apply bullet_needs | | exact Hplain].
    intros c Hc. unfold Markup.is_markup. unfold dash_or_star in Hc.
    apply orb_prop in Hc as [-> | ->]; now rewrite ?orb_true_r.
  - apply (test_needs _ digit); [apply numbered_needs | | exact Hplain].
    intros c Hc. unfold Markup.is_markup. rewrite Hc. now rewrite ?orb_true_r.
  - apply (test_needs _ (N.eqb 42)); [apply lit_needs | now apply eqb_markup | exact Hplain].
  - apply (test_needs _ (N.eqb 96)); [apply lit_needs | now apply eqb_markup | exact Hplain].
  - apply (test_needs _ (N.eqb 96)); [apply lit_needs | now apply eqb_markup | exact Hplain].
  - apply (test_needs _ (N.eqb 91)); [apply lit_needs | now apply eqb_markup | exact Hplain].
Qed.

Lemma count_none (r : regex) (s : jsstring) : search r None s = None -> count r s = 0%nat.
Proof.
  intros H. unfold count. destruct (List.length s); cbn [count_from]; [reflexivity |].
  now rewrite H.
Qed.

(** A text in which no [#], [*], [-], backtick, [[] or digit occurs sets no
    flag and scores 0. *)
Lemma plain_text_scores_zero (text : jsstring) :
  forallb (fun c => negb (Markup.is_markup c)) text = true ->
  score (checkFormattingQuality (Some text)) = 0
  /\ forall f, In f flag_names ->
       Str.truthy text = true ->
       details (checkFormattingQuality (Some text)) !! f = Some (Flag false).
Proof.
  intros Hplain.
  destruct (plain_searches text Hplain)
    as (H1 & H2 & H3 & H4 & H5 & H6 & H7 & H8).
  destruct text as [|c s]; [split; [reflexivity | intros f _ H; discriminate H] |].
  unfold checkFormattingQuality, test.
  rewrite (count_none _ _ H1), (count_none _ _ H2), H1, H2, H3, H4, H5, H6, H7, H8.
  split; [reflexivity |].
  intros f Hf _. unfold flag_names in Hf. cbn [details].
  cbn [In] in Hf.
  repeat (destruct Hf as [<-|Hf]; [reflexivity |]). contradiction.
Qed.

(** *** At sample inputs *)
Import MoreSamples.

Lemma subtitle_counts_as_main_title_witness :
  details (checkFormattingQuality (Some subtitle_only)) !! "hasSubtitles"%string
  = Some (Flag true)
  /\ details (checkFormattingQuality (Some subtitle_only)) !! "hasMainTitle"%string
     = Some (Flag true)
  /\ 35 <= score (checkFormattingQuality (Some subtitle_only)).
Proof.
  split; [vm_compute; reflexivity |].
  apply (subtitle_counts_as_main_title subtitle_only). vm_compute. reflexivity.
Defined.

Lemma code_block_counts_as_inline_code_witness :
  details (checkFormattingQuality (Some fence_only)) !! "hasCodeBlocks"%string
  = Some (Flag true)
  /\ details (checkFormattingQuality (Some fence_only)) !! "hasInlineCode"%string
     = Some (Flag true)
  /\ 10 <= score (checkFormattingQuality (Some fence_only)).
Proof.
  split; [vm_compute; reflexivity |].
  apply (code_block_counts_as_inline_code fence_only). vm_compute. reflexivity.
Defined.

Lemma plain_text_scores_zero_witness :
  score (checkFormattingQuality (Some (Str.lit "TCP is a transport protocol."))) = 0
  /\ forall f, In f flag_names ->
       Str.truthy (Str.lit "TCP is a transport protocol.") = true ->
       details (checkFormattingQuality (Some (Str.lit "TCP is a transport protocol."))) !! f
       = Some (Flag false).
Proof.
  apply (plain_text_scores_zero (Str.lit "TCP is a transport protocol.")).
  vm_compute. reflexivity.
Defined.

End AnalyserFacts.

(** ** The analytics routes *)
Module AnalyticsFacts.
Import Num Eff Analytics.

Section Routes.
Variables (rows : Type) (payload : Type).
Variable ObjectId : jsstring -> outcome oid.
Variable User_findById : oid -> outcome (option user).
Variable Course_distinct_ids : list oid -> oid -> outcome (option (list oid)).
Variable Doubt_activityTrend Doubt_subjectMastery Doubt_engagement : oid -> outcome rows.
Variable Doubt_count Doubt_countResolved : oid -> outcome Z.
Variable Doubt_engagementTrend Doubt_coursePerformance : list oid -> outcome rows.
Variable Doubt_resolutionData : list oid -> outcome (option (option number)).
Variable Doubt_escalatedByContent : list oid -> outcome (list group).
Variable Doubt_countEscalated : list oid -> outcome Z.
Variable Doubt_distinctCourses : list oid -> outcome (list oid).
Variable Doubt_avgConfidence : list oid -> outcome (option (option number)).
Variable Content_find : list oid -> outcome (list content_doc).
Variable Course_find : list (option oid) -> outcome (list course_doc).
Variable first_rejection : exn -> exn -> exn.
Variable invoke : string -> list datum -> outcome payload.
Variable message_of : exn -> jsstring.

Abbreviation student :=
  (Analytics.student rows payload ObjectId User_findById Doubt_activityTrend
     Doubt_subjectMastery Doubt_engagement Doubt_count Doubt_countResolved message_of).
Abbreviation faculty :=
  (Analytics.faculty rows payload ObjectId User_findById Course_distinct_ids
     Doubt_engagementTrend Doubt_coursePerformance Doubt_resolutionData message_of).
Abbreviation difficulty_insights :=
  (Analytics.difficulty_insights rows payload ObjectId User_findById Course_distinct_ids
     Doubt_escalatedByContent Doubt_countEscalated Doubt_distinctCourses
     Doubt_avgConfidence Content_find Course_find first_rejection invoke message_of).

(** [aiService] has no property [analyzeDifficultyTopics]: the call
    throws. *)
Lemma analyzeDifficultyTopics_is_missing (args : list datum) (s : list db_call) :
  aiService_call payload invoke "analyzeDifficultyTopics" args s = (Throw TypeError, s).
Proof. reflexivity. Qed.

(** Every response of the insights route is one of three: the fixed answer
    for a faculty without courses, an answer with no analysis and an empty
    material breakdown, or a failure with status 500.  No response carries
    an analysis or a material: with a group to analyse, the handler calls
    [aiService.analyzeDifficultyTopics], which the service does not
    export. *)
Lemma insights_route_outcomes (id : jsstring) (s : list db_call) :
  exists r,
    fst (difficulty_insights id s) = Return r
    /\ ((status r = 200 /\ json r = NoCourses)
        \/ (status r = 200 /\ exists st, json r = InsightsData None [] st)
        \/ (status r = 500 /\ exists message, json r = Failure message)).
Proof.
  unfold Analytics.difficulty_insights, try_catch, bind, query, settled, on_error,
    res_json, res_status_json, find_both, ret.
  destruct (ObjectId id) as [fid|e]; [| eexists; split; [reflexivity | eauto 6]].
  destruct (User_findById fid) as [u|e]; [| eexists; split; [reflexivity | eauto 6]].
  destruct (Course_distinct_ids _ fid) as [[[|c cs]|]|e];
    try (eexists; split; [reflexivity | eauto 6]).
  destruct (Doubt_escalatedByContent (c :: cs)) as [groups|e];
    [| eexists; split; [reflexivity | eauto 6]].
  destruct (Doubt_countEscalated (c :: cs)) as [n|e];
    [| eexists; split; [reflexivity | eauto 6]].
  destruct (Doubt_distinctCourses (c :: cs)) as [affected|e];
    [| eexists; split; [reflexivity | eauto 6]].
  destruct (Doubt_avgConfidence (c :: cs)) as [avg|e];
    [| eexists; split; [reflexivity | eauto 6]].
  destruct (Content_find _) as [contents|e], (Course_find _) as [courses|e'];
    try (eexists; split; [reflexivity | eauto 6]).
  destruct groups as [|g groups]; eexists; (split; [reflexivity |]); cbn; eauto 6.
Qed.

(** As soon as the faculty has one group of escalated doubts, and every
    query succeeds, the insights route answers 500. *)
Lemma escalations_end_in_500 (id : jsstring) (s : list db_call)
    (fid : oid) (u : option user) (c : oid) (cs : list oid)
    (g : group) (groups : list group) (n : Z) (affected : list oid)
    (avg : option (option number))
    (contents : list content_doc) (courses : list course_doc) :
  ObjectId id = Return fid ->
  User_findById fid = Return u ->
  Course_distinct_ids
    (match u with
     | Some u' => match branchIds u' with Some b => b | None => [] end
     | None => []
     end) fid = Return (Some (c :: cs)) ->
  Doubt_escalatedByContent (c :: cs) = Return (g :: groups) ->
  Doubt_countEscalated (c :: cs) = Return n ->
  Doubt_distinctCourses (c :: cs) = Return affected ->
  Doubt_avgConfidence (c :: cs) = Return avg ->
  (forall ids, Content_find ids = Return contents) ->
  (forall ids, Course_find ids = Return courses) ->
  exists message,
    fst (difficulty_insights id s)
    = Return {| status := 500; json := Failure message |}.
Proof.
  intros Hid Hu Hc Hg Hn Ha Hv Hcont Hcourse.
  unfold Analytics.difficulty_insights, try_catch, bind, query, settled, on_error,
    res_json, res_status_json, find_both, ret.
  rewrite Hid, Hu, Hc, Hg, Hn, Ha, Hv, Hcont, Hcourse. eexists. reflexivity.
Qed.

(** An identifier no user carries: the student route answers 404 after
    the one lookup; the faculty route reads [branchIds] of [null] and
    answers 500; the insights route goes on and looks the courses up with
    an empty list of branches. *)
Lemma unknown_user (id : jsstring) (s : list db_call) (fid : oid) :
  ObjectId id = Return fid ->
  User_findById fid = Return None ->
  student id s
  = (Return {| status := 404; json := UserNotFound |}, s ++ [UserFindById fid])
  /\ (exists message,
        faculty id s
        = (Return {| status := 500; json := Failure message |},
           s ++ [UserFindById fid]))
  /\ exists calls,
       snd (difficulty_insights id s)
       = s ++ [UserFindById fid; CourseDistinctIds [] fid] ++ calls.
Proof.
  intros Hid Hu. split; [| split].
  - unfold Analytics.student, try_catch, bind, query, settled, res_status_json, ret.
    now rewrite Hid, Hu.
  - unfold Analytics.faculty, try_catch, bind, query, settled, on_error,
      res_status_json, throw, ret.
    rewrite Hid, Hu. eexists. reflexivity.
  - unfold Analytics.difficulty_insights, try_catch, bind, query, settled, on_error,
      res_json, res_status_json, find_both, ret.
    rewrite Hid, Hu.
    destruct (Course_distinct_ids [] fid) as [[[|c cs]|]|e]; cbn [snd];
      try (exists []; now rewrite <- app_assoc).
    destruct (Doubt_escalatedByContent (c :: cs)) as [groups|e]; cbn [snd];
      [| eexists [_]; now rewrite <- !app_assoc].
    destruct (Doubt_countEscalated (c :: cs)) as [n|e]; cbn [snd];
      [| eexists [_; _]; now rewrite <- !app_assoc].
    destruct (Doubt_distinctCourses (c :: cs)) as [affected|e]; cbn [snd];
      [| eexists [_; _; _]; now rewrite <- !app_assoc].
    destruct (Doubt_avgConfidence (c :: cs)) as [avg|e]; cbn [snd];
      [| eexists [_; _; _; _]; now rewrite <- !app_assoc].
    destruct (Content_find _) as [contents|e], (Course_find _) as [courses|e'];
      cbn [snd]; try (eexists [_; _; _; _; _; _]; now rewrite <- !app_assoc).
    destruct groups as [|g groups]; cbn [snd fmap list_fmap];
      eexists [_; _; _; _; _; _]; now rewrite <- !app_assoc.
Qed.

End Routes.

(** *** At sample inputs *)
Import Samples MoreSamples.

Lemma escalations_end_in_500_witness :
  exists message,
    fst (Analytics.difficulty_insights unit unit any_id known_user one_course
           one_escalation three affected_courses no_number no_contents no_courses
           either never_invoked text_of faculty_id [])
    = Return {| status := 500; json := Failure message |}.
Proof.
  apply (escalations_end_in_500 unit unit any_id known_user one_course
           one_escalation three affected_courses no_number no_contents no_courses
           either never_invoked text_of faculty_id [] faculty_id
           (Some {| branchIds := None; progressStats := None |})
           course_id [] one_group [] 3 [course_id] None [] []);
    reflexivity.
Defined.

Lemma unknown_user_witness :
  Analytics.student unit unit any_id no_user no_rows no_rows no_rows zero zero text_of
    faculty_id []
  = (Return {| status := 404; json := UserNotFound |}, [] ++ [UserFindById faculty_id])
  /\ (exists message,
        Analytics.faculty unit unit any_id no_user one_course no_rows no_rows no_number
          text_of faculty_id []
        = (Return {| status := 500; json := Failure message |},
           [] ++ [UserFindById faculty_id]))
  /\ exists calls,
       snd (Analytics.difficulty_insights unit unit any_id no_user one_course
              one_escalation three affected_courses no_number no_contents no_courses
              either never_invoked text_of faculty_id [])
       = [] ++ [UserFindById faculty_id; CourseDistinctIds [] faculty_id] ++ calls.
Proof.
  apply (unknown_user unit unit any_id no_user one_course no_rows no_rows no_rows
           zero zero no_rows no_rows no_number
           one_escalation three affected_courses no_number no_contents no_courses
           either never_invoked text_of faculty_id [] faculty_id); reflexivity.
Defined.

End AnalyticsFacts.
